(** * boardsonfire-sdk-python: the REST client and its resource collections

    A shallow embedding of [boardsonfire_client/client.py] and
    [boardsonfire_client/endpoints.py].

    - Python values that travel as JSON are [PyVal]; Python [int] is [Z].
    - A call of the client runs in [M]: a state monad over [World] whose
      result is a returned value, a raised exception, or the end of the
      fuel that bounds the [while] loop of the iterators.
    - The world holds the remote service (any function of the requests
      seen so far and of the current request) and the chronological trace
      of what the program did: HTTP exchanges, logged warnings, and the
      records a generator yielded. *)

From Stdlib Require Import ZArith List String Ascii Bool Lia Arith.
From Stdlib Require Import DecimalString.
Import ListNotations.
Local Open Scope string_scope.
Local Open Scope Z_scope.

(* ------------------------------------------------------------------ *)
(** ** Python values *)

#[warnings="-register-all"]
Inductive PyVal : Type :=
| PNone
| PBool (b : bool)
| PInt (n : Z)
| PStr (s : string)
| PList (items : list PyVal)
| PDict (entries : list (string * PyVal)).

(** Modelled from the spec: the exception classes that the sources import
    from [exceptions.py] (the spec's RateLimitError, NotFoundError,
    ClientError and ValidationError), each carrying its message, next to
    the built-in [TypeError]. *)
Inductive Exn : Type :=
| RateLimitException (msg : string)
| NotFoundException (msg : string)
| RestClientException (msg : string)
| ValidationError (msg : string)
| TypeError (msg : string).

(** A pure Python expression either has a value or raises. *)
Inductive Result (A : Type) : Type :=
| Ok (a : A)
| Err (e : Exn).
Arguments Ok {A} a.
Arguments Err {A} e.

Definition LF : string := String (ascii_of_nat 10) EmptyString.

(** [str(n)] for an [int]. *)
Definition str_int (n : Z) : string := NilZero.string_of_int (Z.to_int n).

(** [bool(v)]: the truth value tested by [if v], [not v], [x if v else y]. *)
Definition truthy (v : PyVal) : bool :=
  match v with
  | PNone => false
  | PBool b => b
  | PInt n => negb (n =? 0)
  | PStr s => negb (String.eqb s "")
  | PList items => match items with [] => false | _ => true end
  | PDict entries => match entries with [] => false | _ => true end
  end.

Fixpoint chars (s : string) : list PyVal :=
  match s with
  | EmptyString => []
  | String c rest => PStr (String c EmptyString) :: chars rest
  end.

(** [iter(v)] run to the end: the items a [for] loop over [v] visits. *)
Definition py_iter (v : PyVal) : Result (list PyVal) :=
  match v with
  | PList items => Ok items
  | PDict entries => Ok (map (fun kv => PStr (fst kv)) entries)
  | PStr s => Ok (chars s)
  | PNone => Err (TypeError "'NoneType' object is not iterable")
  | PBool _ => Err (TypeError "'bool' object is not iterable")
  | PInt _ => Err (TypeError "'int' object is not iterable")
  end.

(** [len(v)]. *)
Definition py_len (v : PyVal) : Result Z :=
  match v with
  | PList items => Ok (Z.of_nat (List.length items))
  | PDict entries => Ok (Z.of_nat (List.length entries))
  | PStr s => Ok (Z.of_nat (String.length s))
  | PNone => Err (TypeError "object of type 'NoneType' has no len()")
  | PBool _ => Err (TypeError "object of type 'bool' has no len()")
  | PInt _ => Err (TypeError "object of type 'int' has no len()")
  end.

Definition hashable (v : PyVal) : bool :=
  match v with
  | PList _ | PDict _ => false
  | _ => true
  end.

(** The type name of the first item that cannot be hashed. *)
Fixpoint unhashable_type (items : list PyVal) : string :=
  match items with
  | [] => ""
  | PList _ :: _ => "list"
  | PDict _ :: _ => "dict"
  | _ :: rest => unhashable_type rest
  end.

(** [set(v)], as the list of its elements; the first item that cannot be
    hashed raises. *)
Definition py_set (v : PyVal) : Result (list PyVal) :=
  match py_iter v with
  | Err e => Err e
  | Ok items =>
      if forallb hashable items then Ok items
      else Err (TypeError ("unhashable type: '" ++ unhashable_type items ++ "'"))
  end.

(** [key in s] for a string [key]: only a [str] equals a [str]. *)
Definition is_str (key : string) (v : PyVal) : bool :=
  match v with
  | PStr s => String.eqb key s
  | _ => false
  end.

Definition str_in (key : string) (s : list PyVal) : bool := existsb (is_str key) s.

(** [{k1, ..., kn} <= s]. *)
Definition keys_subset (keys : list string) (s : list PyVal) : bool :=
  forallb (fun k => str_in k s) keys.

(** [",".join(xs)]. *)
Definition join (sep : string) (xs : list string) : string := String.concat sep xs.

(** An optional [str] argument ([None] by default) as a value. *)
Definition opt_str (o : option string) : PyVal :=
  match o with
  | None => PNone
  | Some s => PStr s
  end.

(* ------------------------------------------------------------------ *)
(** ** String-keyed header dictionaries *)

Definition Headers := list (string * string).

Fixpoint dict_set (k v : string) (d : Headers) : Headers :=
  match d with
  | [] => [(k, v)]
  | (k', v') :: rest =>
      if String.eqb k k' then (k', v) :: rest else (k', v') :: dict_set k v rest
  end.

(** [a | b]: the keys of [a] in their order, then the new keys of [b];
    on a shared key the value of [b] wins. *)
Definition dict_union (a b : Headers) : Headers :=
  fold_left (fun acc kv => dict_set (fst kv) (snd kv) acc) b a.

(* ------------------------------------------------------------------ *)
(** ** [repr] of a [bytes] object, as used by an f-string *)

Definition hex_digit (n : nat) : ascii :=
  match n with
  | 0%nat => "0" | 1%nat => "1" | 2%nat => "2" | 3%nat => "3"
  | 4%nat => "4" | 5%nat => "5" | 6%nat => "6" | 7%nat => "7"
  | 8%nat => "8" | 9%nat => "9" | 10%nat => "a" | 11%nat => "b"
  | 12%nat => "c" | 13%nat => "d" | 14%nat => "e" | _ => "f"
  end%char.

Definition squote : ascii := ascii_of_nat 39.
Definition dquote : ascii := ascii_of_nat 34.
Definition backslash : ascii := ascii_of_nat 92.

Fixpoint contains_char (c : ascii) (s : string) : bool :=
  match s with
  | EmptyString => false
  | String c' rest => Ascii.eqb c c' || contains_char c rest
  end.

Definition repr_byte (quote c : ascii) : string :=
  let n := nat_of_ascii c in
  if Ascii.eqb c quote || Ascii.eqb c backslash then String backslash (String c EmptyString)
  else if (n =? 9)%nat then String backslash "t"
  else if (n =? 10)%nat then String backslash "n"
  else if (n =? 13)%nat then String backslash "r"
  else if (n <? 32)%nat || (127 <=? n)%nat then
    String backslash (String "x" (String (hex_digit (n / 16)) (String (hex_digit (n mod 16)) EmptyString)))
  else String c EmptyString.

Fixpoint repr_bytes_body (quote : ascii) (s : string) : string :=
  match s with
  | EmptyString => EmptyString
  | String c rest => repr_byte quote c ++ repr_bytes_body quote rest
  end.

Definition repr_bytes (s : string) : string :=
  let quote := if contains_char squote s && negb (contains_char dquote s)
               then dquote else squote in
  String "b" (String quote (repr_bytes_body quote s ++ String quote EmptyString)).

(* ------------------------------------------------------------------ *)
(** ** The [requests] library and the world *)

(** What [requests.request] is called with. *)
Record HttpRequest : Type := {
  req_method : string;
  req_url : string;
  req_headers : Headers;
  req_params : PyVal;   (* [params=]: the query string, [PNone] when absent *)
  req_json : PyVal      (* [json=]: the request body, [PNone] when absent *)
}.

(** What [requests.request] returns: [http_json] is the outcome of
    [response.json()], [None] when decoding the body raises. *)
Record HttpResponse : Type := {
  http_status_code : Z;
  http_headers : Headers;
  http_content : string;
  http_json : option PyVal
}.

(** [response.ok]: [raise_for_status()] raises for the statuses from 400
    up to 599 and for no other. *)
Definition http_ok (r : HttpResponse) : bool :=
  negb ((400 <=? http_status_code r) && (http_status_code r <? 600)).

Inductive Event : Type :=
| Exchange (rq : HttpRequest) (rs : HttpResponse)
| Warning (msg : string)
| Yield (record : PyVal).

Record World : Type := {
  network : list HttpRequest -> HttpRequest -> HttpResponse;
  trace : list Event
}.

(** The requests of a trace, the records it yields, the warnings it logs. *)
Fixpoint sent (t : list Event) : list HttpRequest :=
  match t with
  | [] => []
  | Exchange rq _ :: rest => rq :: sent rest
  | _ :: rest => sent rest
  end.

Fixpoint yielded (t : list Event) : list PyVal :=
  match t with
  | [] => []
  | Yield r :: rest => r :: yielded rest
  | _ :: rest => yielded rest
  end.

Fixpoint warnings (t : list Event) : list string :=
  match t with
  | [] => []
  | Warning m :: rest => m :: warnings rest
  | _ :: rest => warnings rest
  end.

Definition add_event (ev : Event) (w : World) : World :=
  {| network := network w; trace := trace w ++ [ev] |}.

(* ------------------------------------------------------------------ *)
(** ** The monad of client calls *)

Inductive Outcome (A : Type) : Type :=
| Return (a : A)
| Raise (e : Exn)
| OutOfFuel.
Arguments Return {A} a.
Arguments Raise {A} e.
Arguments OutOfFuel {A}.

Definition M (A : Type) : Type := World -> Outcome A * World.

Definition ret {A} (a : A) : M A := fun w => (Return a, w).
Definition raise {A} (e : Exn) : M A := fun w => (Raise e, w).
Definition out_of_fuel {A} : M A := fun w => (OutOfFuel, w).

Definition bind {A B} (m : M A) (k : A -> M B) : M B :=
  fun w =>
    match m w with
    | (Return a, w') => k a w'
    | (Raise e, w') => (Raise e, w')
    | (OutOfFuel, w') => (OutOfFuel, w')
    end.

Definition lift {A} (r : Result A) : M A :=
  match r with
  | Ok a => ret a
  | Err e => raise e
  end.

Declare Scope monad_scope.
Delimit Scope monad_scope with monad.
Notation "x <- m ;; k" := (bind m (fun x => k))
  (at level 61, m at next level, right associativity) : monad_scope.
Notation "m ;; k" := (bind m (fun _ => k))
  (at level 61, right associativity) : monad_scope.
Local Open Scope monad_scope.

Definition emit (ev : Event) : M unit := fun w => (Return tt, add_event ev w).

(** [requests.request(method=, url=, headers=, params=, json=)]: one
    exchange with the remote service. *)
Definition requests_request (method url : string) (headers : Headers)
    (params json : PyVal) : M HttpResponse :=
  fun w =>
    let rq := {| req_method := method; req_url := url; req_headers := headers;
                 req_params := params; req_json := json |} in
    let rs := network w (sent (trace w)) rq in
    (Return rs, add_event (Exchange rq rs) w).

(** [logger.warning(msg)]. *)
Definition logger_warning (msg : string) : M unit := emit (Warning msg).

(* ------------------------------------------------------------------ *)
(** ** client.py *)

(** The [Response] dataclass. *)
Record Response : Type := {
  status_code : Z;
  headers : Headers;
  message : string;
  data : PyVal
}.

(** [response.data] where a parameter named [data] is in scope. *)
Abbreviation response_data := data (only parsing).

Record BoardsOnFireClient : Type := {
  _domain : string;
  _url : string;
  _api_key : string;
  _version : string
}.

(** [BoardsOnFireClient.__init__]; [version] defaults to ["v5"]. *)
Definition init (domain api_key version : string) : BoardsOnFireClient :=
  {| _domain := domain;
     _url := "https://" ++ domain ++ ".boardsonfireapp.com/api/" ++ version ++ "/";
     _api_key := api_key;
     _version := version |}.

Definition _send_request (self : BoardsOnFireClient) (method endpoint : string)
    (params data : PyVal) (headers : Headers) : M Response :=
  let full_url := _url self ++ endpoint in
  let base_header := [("x-api-key", _api_key self)] in
  let headers := dict_union base_header headers in
  response <- requests_request method full_url headers params data ;;
  if http_ok response then
    if String.eqb method "DELETE" then
      ret {| status_code := http_status_code response;
             headers := http_headers response;
             message := ""; data := PNone |}
    else
      match http_json response with
      | None => raise (RestClientException "Response does not contain valid json")
      | Some data =>
          ret {| status_code := http_status_code response;
                 headers := http_headers response;
                 message := ""; data := data |}
      end
  else if http_status_code response =? 429 then
    raise (RateLimitException "Rate limit exceeded")
  else if http_status_code response =? 404 then
    raise (NotFoundException "Resource not found")
  else
    raise (RestClientException
             ("Bad response. " ++ LF ++ " Status Code: "
              ++ str_int (http_status_code response) ++ LF
              ++ "  Message: " ++ repr_bytes (http_content response))).

Definition _get (self : BoardsOnFireClient) (endpoint : string)
    (params data : PyVal) : M Response :=
  _send_request self "GET" endpoint params data [].

Definition _post (self : BoardsOnFireClient) (endpoint : string)
    (params data : PyVal) : M Response :=
  _send_request self "POST" endpoint params data [].

Definition _delete (self : BoardsOnFireClient) (endpoint : string)
    (params data : PyVal) : M Response :=
  _send_request self "DELETE" endpoint params data [].

Definition _patch (self : BoardsOnFireClient) (endpoint : string)
    (params data : PyVal) : M Response :=
  _send_request self "PATCH" endpoint params data [].

(* ------------------------------------------------------------------ *)
(** ** endpoints.py: validators *)

Definition MAX_PAGE_SIZE : Z := 500.

(** [all(keys <= set(row) for row in rows)]: rows are visited in order,
    the first row that lacks a key ends the scan. *)
Fixpoint all_have_keys (keys : list string) (rows : list PyVal) : Result bool :=
  match rows with
  | [] => Ok true
  | row :: rest =>
      match py_set row with
      | Err e => Err e
      | Ok s => if keys_subset keys s then all_have_keys keys rest else Ok false
      end
  end.

Module ValidateEntity.

Definition create (data : PyVal) : Result unit :=
  match py_set data with
  | Err e => Err e
  | Ok s =>
      if negb (keys_subset ["organization_id"] s) then
        Err (ValidationError "organization_id is required to create an entity object")
      else Ok tt
  end.

Definition upsert (data : PyVal) : Result unit :=
  match data with
  | PList rows =>
      match all_have_keys ["organization_id"] rows with
      | Err e => Err e
      | Ok b =>
          if negb b then
            Err (ValidationError "organization_id is required to create an entity object")
          else Ok tt
      end
  | _ => Err (ValidationError "Data must be a list of dictionaries")
  end.

End ValidateEntity.

Module ValidateDataSource.

Definition create (data : PyVal) : Result unit :=
  match py_set data with
  | Err e => Err e
  | Ok s =>
      if negb (keys_subset ["organization_id"; "timestamp"] s) then
        Err (ValidationError
               "organization_id and timestamp is required to create a datasource object")
      else Ok tt
  end.

Definition upsert (data : PyVal) : Result unit :=
  match data with
  | PList rows =>
      match all_have_keys ["organization_id"; "timestamp"] rows with
      | Err e => Err e
      | Ok b =>
          if negb b then
            Err (ValidationError
                   "organization_id and timestamp is required to create a datasource object")
          else Ok tt
      end
  | _ => Err (ValidationError "Data must be a list of dictionaries")
  end.

End ValidateDataSource.

(* ------------------------------------------------------------------ *)
(** ** endpoints.py: what the four collections share *)

(** The warning of an oversized [page_size]. *)
Definition page_size_warning : string :=
  "The maximum page size is " ++ str_int MAX_PAGE_SIZE ++ ". Response is truncated. "
  ++ LF ++ "Please consider using the list_all method for large datasets.".

(** The first statement of every [list]: the new value of [page_size]. *)
Definition clamp_page_size (page_size : Z) : M Z :=
  if page_size >? MAX_PAGE_SIZE then
    logger_warning page_size_warning ;;
    ret MAX_PAGE_SIZE
  else ret page_size.

(** [limit if limit else 100]. *)
Definition limit_or (limit : option Z) (default : Z) : Z :=
  match limit with
  | Some l => if truthy (PInt l) then l else default
  | None => default
  end.

(** [limit and yield_count >= limit]. *)
Definition limit_reached (limit : option Z) (yield_count : Z) : bool :=
  match limit with
  | Some l => truthy (PInt l) && (yield_count >=? l)
  | None => false
  end.

(** The [for record in response.data] loop, which has the same body in
    the four iterators. It returns the new [yield_count] and whether it
    ended on the [break] of the limit. *)
Fixpoint for_records (limit : option Z) (records : list PyVal) (yield_count : Z)
    : M (Z * bool) :=
  match records with
  | [] => ret (yield_count, false)
  | record :: rest =>
      let yield_count := yield_count + 1 in
      emit (Yield record) ;;
      if limit_reached limit yield_count then ret (yield_count, true)
      else for_records limit rest yield_count
  end.

(** [not data or len(data) < page_size]. *)
Definition last_page (data : PyVal) (page_size : Z) : M bool :=
  if negb (truthy data) then ret true
  else n <- lift (py_len data) ;; ret (n <? page_size).

(** The [params] of Organizations and Users. *)
Definition page_params (page_size page : Z) (order_by : option string)
    (direction : string) : PyVal :=
  PDict [("page_size", PInt page_size); ("page", PInt page);
         ("order", opt_str order_by); ("direction", PStr direction)].

(** The [params] of Entities and the [body] of DataSources. *)
Definition filter_params (page_size page : Z) (order group filter : option string)
    (organizations : list string) : PyVal :=
  PDict [("page_size", PInt page_size); ("page", PInt page);
         ("order", opt_str order); ("group", opt_str group);
         ("filter", opt_str filter);
         ("target_organization_ids", PStr (join "," organizations))].

(* ------------------------------------------------------------------ *)
(** ** endpoints.py: the resource collections

    In every [list_all] the dictionary [params] changes only at its key
    ["page"], so the loop carries [page] and builds the dictionary anew
    for each request; [fuel] bounds the iterations of [while]. *)

Module Organizations.

(** Defaults: [page_size=50], [page=1], [order_by=None], [direction="ASC"]. *)
Definition list (rest_client : BoardsOnFireClient) (page_size page : Z)
    (order_by : option string) (direction : string) : M PyVal :=
  page_size <- clamp_page_size page_size ;;
  let params := page_params page_size page order_by direction in
  response <- _get rest_client "organizations" params PNone ;;
  ret (data response).

Fixpoint list_all_loop (rest_client : BoardsOnFireClient) (limit : option Z)
    (order_by : option string) (direction : string) (page_size : Z)
    (fuel : nat) (page yield_count : Z) : M unit :=
  match fuel with
  | O => out_of_fuel
  | S fuel =>
      response <- _get rest_client "organizations"
                    (page_params page_size page order_by direction) PNone ;;
      records <- lift (py_iter (data response)) ;;
      r <- for_records limit records yield_count ;;
      let yield_count := fst r in
      let trigger := negb (snd r) in
      stop <- last_page (data response) page_size ;;
      if stop then ret tt
      else
        let page := page + 1 in
        if trigger then
          list_all_loop rest_client limit order_by direction page_size fuel page yield_count
        else ret tt
  end.

(** Defaults: [limit=None], [order_by=None], [direction="ASC"]. *)
Definition list_all (rest_client : BoardsOnFireClient) (limit : option Z)
    (order_by : option string) (direction : string) (fuel : nat) : M unit :=
  list_all_loop rest_client limit order_by direction
    (Z.min 100 (limit_or limit 100)) fuel 1 0.

Definition get (rest_client : BoardsOnFireClient) (id : string) : M PyVal :=
  response <- _get rest_client ("organizations/" ++ id) PNone PNone ;;
  ret (data response).

End Organizations.

Module Users.

(** Defaults: [page_size=100], [page=1], [order_by=None], [direction="ASC"]. *)
Definition list (rest_client : BoardsOnFireClient) (page_size page : Z)
    (order_by : option string) (direction : string) : M PyVal :=
  page_size <- clamp_page_size page_size ;;
  let params := page_params page_size page order_by direction in
  response <- _get rest_client "users" params PNone ;;
  ret (data response).

Fixpoint list_all_loop (rest_client : BoardsOnFireClient) (limit : option Z)
    (order_by : option string) (direction : string) (page_size : Z)
    (fuel : nat) (page yield_count : Z) : M unit :=
  match fuel with
  | O => out_of_fuel
  | S fuel =>
      response <- _get rest_client "users"
                    (page_params page_size page order_by direction) PNone ;;
      records <- lift (py_iter (data response)) ;;
      r <- for_records limit records yield_count ;;
      let yield_count := fst r in
      let trigger := negb (snd r) in
      stop <- last_page (data response) page_size ;;
      if stop then ret tt
      else
        let page := page + 1 in
        if trigger then
          list_all_loop rest_client limit order_by direction page_size fuel page yield_count
        else ret tt
  end.

(** Defaults: [limit=None], [order_by=None], [direction="ASC"]. *)
Definition list_all (rest_client : BoardsOnFireClient) (limit : option Z)
    (order_by : option string) (direction : string) (fuel : nat) : M unit :=
  list_all_loop rest_client limit order_by direction
    (Z.min 100 (limit_or limit 100)) fuel 1 0.

Definition get (rest_client : BoardsOnFireClient) (id : string) : M PyVal :=
  response <- _get rest_client ("users/" ++ id) PNone PNone ;;
  ret (data response).

End Users.

Module Entities.

(** Defaults: [organizations=[]], [page_size=100], [page=1], and [None]
    for [order], [group] and [filter]. *)
Definition list (rest_client : BoardsOnFireClient) (entity_name : string)
    (organizations : Datatypes.list string) (page_size page : Z)
    (order group filter : option string) : M PyVal :=
  page_size <- clamp_page_size page_size ;;
  let params := filter_params page_size page order group filter organizations in
  response <- _post rest_client ("entities/" ++ entity_name ++ "/entityobjects/list")
                params PNone ;;
  ret (data response).

Fixpoint list_all_loop (rest_client : BoardsOnFireClient) (entity_name : string)
    (limit : option Z) (organizations : Datatypes.list string)
    (order group filter : option string) (page_size : Z)
    (fuel : nat) (page yield_count : Z) : M unit :=
  match fuel with
  | O => out_of_fuel
  | S fuel =>
      response <- _post rest_client ("entities/" ++ entity_name ++ "/entityobjects/list")
                    (filter_params page_size page order group filter organizations)
                    PNone ;;
      records <- lift (py_iter (data response)) ;;
      r <- for_records limit records yield_count ;;
      let yield_count := fst r in
      let over_limit := snd r in
      stop <- last_page (data response) page_size ;;
      if stop then ret tt
      else
        let page := page + 1 in
        if negb over_limit then
          list_all_loop rest_client entity_name limit organizations order group filter
            page_size fuel page yield_count
        else ret tt
  end.

(** Defaults: [limit=None], [organizations=[]], and [None] for [order],
    [group] and [filter]. *)
Definition list_all (rest_client : BoardsOnFireClient) (entity_name : string)
    (limit : option Z) (organizations : Datatypes.list string)
    (order group filter : option string) (fuel : nat) : M unit :=
  list_all_loop rest_client entity_name limit organizations order group filter
    (Z.min 100 (limit_or limit 100)) fuel 1 0.

Definition get (rest_client : BoardsOnFireClient) (entity_name id : string) : M PyVal :=
  response <- _get rest_client ("entities/" ++ entity_name ++ "/entityobjects/" ++ id)
                PNone PNone ;;
  ret (data response).

Definition update (rest_client : BoardsOnFireClient) (entity_name id : string)
    (data : PyVal) : M PyVal :=
  response <- _patch rest_client ("entities/" ++ entity_name ++ "/entityobjects/" ++ id)
                PNone data ;;
  ret (response_data response).

Definition create (rest_client : BoardsOnFireClient) (entity_name : string)
    (data : PyVal) : M PyVal :=
  lift (ValidateEntity.create data) ;;
  response <- _post rest_client ("entities/" ++ entity_name ++ "/entityobjects")
                PNone data ;;
  ret (response_data response).

(** Default: [truncate=False]. *)
Definition upsert (rest_client : BoardsOnFireClient) (entity_name : string)
    (data : PyVal) (truncate : bool) : M PyVal :=
  lift (ValidateEntity.upsert data) ;;
  let body := PDict [("entity_objects", data); ("delete_others", PBool truncate)] in
  response <- _post rest_client ("entities/" ++ entity_name ++ "/entityobjects/import")
                PNone body ;;
  ret (response_data response).

Definition delete (rest_client : BoardsOnFireClient) (entity_name id : string) : M unit :=
  _delete rest_client ("entities/" ++ entity_name ++ "/entityobjects/" ++ id)
    PNone PNone ;;
  ret tt.

End Entities.

Module DataSources.

(** Defaults: [organizations=[]], [page_size=100], [page=1], and [None]
    for [order], [group] and [filter]. *)
Definition list (rest_client : BoardsOnFireClient) (datasource_name : string)
    (organizations : Datatypes.list string) (page_size page : Z)
    (order group filter : option string) : M PyVal :=
  page_size <- clamp_page_size page_size ;;
  let body := filter_params page_size page order group filter organizations in
  response <- _post rest_client ("datasources/" ++ datasource_name ++ "/dataobjects/list")
                PNone body ;;
  ret (data response).

Fixpoint list_all_loop (rest_client : BoardsOnFireClient) (datasource_name : string)
    (limit : option Z) (organizations : Datatypes.list string)
    (order group filter : option string) (page_size : Z)
    (fuel : nat) (page yield_count : Z) : M unit :=
  match fuel with
  | O => out_of_fuel
  | S fuel =>
      response <- _post rest_client
                    ("datasources/" ++ datasource_name ++ "/dataobjects/list") PNone
                    (filter_params page_size page order group filter organizations) ;;
      records <- lift (py_iter (data response)) ;;
      r <- for_records limit records yield_count ;;
      let yield_count := fst r in
      let over_limit := snd r in
      stop <- last_page (data response) page_size ;;
      if stop then ret tt
      else
        let page := page + 1 in
        if negb over_limit then
          list_all_loop rest_client datasource_name limit organizations order group filter
            page_size fuel page yield_count
        else ret tt
  end.

(** Defaults: [limit=None], [organizations=[]], and [None] for [order],
    [group] and [filter]. *)
Definition list_all (rest_client : BoardsOnFireClient) (datasource_name : string)
    (limit : option Z) (organizations : Datatypes.list string)
    (order group filter : option string) (fuel : nat) : M unit :=
  list_all_loop rest_client datasource_name limit organizations order group filter
    (Z.min 100 (limit_or limit 100)) fuel 1 0.

Definition get (rest_client : BoardsOnFireClient) (datasource_name id : string)
    : M PyVal :=
  response <- _get rest_client ("datasources/" ++ datasource_name ++ "/dataobjects/" ++ id)
                PNone PNone ;;
  ret (data response).

Definition update (rest_client : BoardsOnFireClient) (datasource_name id : string)
    (data : PyVal) : M PyVal :=
  response <- _patch rest_client
                ("datasources/" ++ datasource_name ++ "/dataobjects/" ++ id) PNone data ;;
  ret (response_data response).

Definition create (rest_client : BoardsOnFireClient) (datasource_name : string)
    (data : PyVal) : M PyVal :=
  lift (ValidateDataSource.create data) ;;
  response <- _post rest_client ("datasources/" ++ datasource_name ++ "/dataobjects")
                PNone data ;;
  ret (response_data response).

Definition upsert (rest_client : BoardsOnFireClient) (datasource_name : string)
    (data : PyVal) : M PyVal :=
  lift (ValidateDataSource.upsert data) ;;
  response <- _post rest_client
                ("datasources/" ++ datasource_name ++ "/dataobjects/import") PNone data ;;
  ret (response_data response).

Definition delete (rest_client : BoardsOnFireClient) (datasource_name id : string)
    : M unit :=
  _delete rest_client ("datasources/" ++ datasource_name ++ "/dataobjects/" ++ id)
    PNone PNone ;;
  ret tt.

End DataSources.

(* ------------------------------------------------------------------ *)
(** ** The four collections behind one name *)

(** A listing call: the collection and the arguments that stay fixed
    while pages are turned. *)
Inductive Listing : Type :=
| ListOrganizations (order_by : option string) (direction : string)
| ListUsers (order_by : option string) (direction : string)
| ListEntities (entity_name : string) (organizations : list string)
    (order group filter : option string)
| ListDataSources (datasource_name : string) (organizations : list string)
    (order group filter : option string).

Definition list_page (c : Listing) (rest_client : BoardsOnFireClient)
    (page_size page : Z) : M PyVal :=
  match c with
  | ListOrganizations order_by direction =>
      Organizations.list rest_client page_size page order_by direction
  | ListUsers order_by direction =>
      Users.list rest_client page_size page order_by direction
  | ListEntities entity_name organizations order group filter =>
      Entities.list rest_client entity_name organizations page_size page order group filter
  | ListDataSources datasource_name organizations order group filter =>
      DataSources.list rest_client datasource_name organizations page_size page
        order group filter
  end.

Definition list_all (c : Listing) (rest_client : BoardsOnFireClient)
    (limit : option Z) (fuel : nat) : M unit :=
  match c with
  | ListOrganizations order_by direction =>
      Organizations.list_all rest_client limit order_by direction fuel
  | ListUsers order_by direction =>
      Users.list_all rest_client limit order_by direction fuel
  | ListEntities entity_name organizations order group filter =>
      Entities.list_all rest_client entity_name limit organizations order group filter fuel
  | ListDataSources datasource_name organizations order group filter =>
      DataSources.list_all rest_client datasource_name limit organizations
        order group filter fuel
  end.

(** The verb, endpoint, query parameters and body with which a listing
    asks for one page. *)
Definition list_method (c : Listing) : string :=
  match c with
  | ListOrganizations _ _ | ListUsers _ _ => "GET"
  | ListEntities _ _ _ _ _ | ListDataSources _ _ _ _ _ => "POST"
  end.

Definition list_endpoint (c : Listing) : string :=
  match c with
  | ListOrganizations _ _ => "organizations"
  | ListUsers _ _ => "users"
  | ListEntities entity_name _ _ _ _ => "entities/" ++ entity_name ++ "/entityobjects/list"
  | ListDataSources datasource_name _ _ _ _ =>
      "datasources/" ++ datasource_name ++ "/dataobjects/list"
  end.

Definition list_query (c : Listing) (page_size page : Z) : PyVal :=
  match c with
  | ListOrganizations order_by direction | ListUsers order_by direction =>
      page_params page_size page order_by direction
  | ListEntities _ organizations order group filter =>
      filter_params page_size page order group filter organizations
  | ListDataSources _ _ _ _ _ => PNone
  end.

Definition list_body (c : Listing) (page_size page : Z) : PyVal :=
  match c with
  | ListOrganizations _ _ | ListUsers _ _ | ListEntities _ _ _ _ _ => PNone
  | ListDataSources _ organizations order group filter =>
      filter_params page_size page order group filter organizations
  end.

(** The request [_send_request] hands to [requests.request]. *)
Definition request_of (self : BoardsOnFireClient) (method endpoint : string)
    (params data : PyVal) (hdrs : Headers) : HttpRequest :=
  {| req_method := method;
     req_url := _url self ++ endpoint;
     req_headers := dict_union [("x-api-key", _api_key self)] hdrs;
     req_params := params;
     req_json := data |}.

Definition list_request (c : Listing) (rest_client : BoardsOnFireClient)
    (page_size page : Z) : HttpRequest :=
  request_of rest_client (list_method c) (list_endpoint c)
    (list_query c page_size page) (list_body c page_size page) [].

(** How [_send_request] answers an HTTP response. *)
Definition envelope (method : string) (rs : HttpResponse) : Result Response :=
  if http_ok rs then
    if String.eqb method "DELETE" then
      Ok {| status_code := http_status_code rs; headers := http_headers rs;
            message := ""; data := PNone |}
    else
      match http_json rs with
      | None => Err (RestClientException "Response does not contain valid json")
      | Some d =>
          Ok {| status_code := http_status_code rs; headers := http_headers rs;
                message := ""; data := d |}
      end
  else if http_status_code rs =? 429 then Err (RateLimitException "Rate limit exceeded")
  else if http_status_code rs =? 404 then Err (NotFoundException "Resource not found")
  else Err (RestClientException
              ("Bad response. " ++ LF ++ " Status Code: "
               ++ str_int (http_status_code rs) ++ LF
               ++ "  Message: " ++ repr_bytes (http_content rs))).

(** The batch a listing finds in an HTTP response, when there is one. *)
Definition batch_of (method : string) (rs : HttpResponse) : option (list PyVal) :=
  match envelope method rs with
  | Ok response =>
      match py_iter (data response) with
      | Ok records => Some records
      | Err _ => None
      end
  | Err _ => None
  end.

(** What the [for] loop yields of a batch, and whether the limit ends it. *)
Fixpoint taken (limit : option Z) (records : list PyVal) (yield_count : Z) : list PyVal :=
  match records with
  | [] => []
  | record :: rest =>
      record :: (if limit_reached limit (yield_count + 1) then []
                 else taken limit rest (yield_count + 1))
  end.

Fixpoint hit (limit : option Z) (records : list PyVal) (yield_count : Z) : bool :=
  match records with
  | [] => false
  | _ :: rest =>
      if limit_reached limit (yield_count + 1) then true
      else hit limit rest (yield_count + 1)
  end.

(** A batch that ends the iteration: empty, or shorter than the page. *)
Definition short (records : list PyVal) (page_size : Z) : bool :=
  match records with
  | [] => true
  | _ => Z.of_nat (List.length records) <? page_size
  end.

Definition add_events (evs : list Event) (w : World) : World :=
  {| network := network w; trace := trace w ++ evs |}.

(** The events of one turn of the loop, and of several. *)
Definition segment (s : HttpRequest * HttpResponse * list PyVal) : list Event :=
  Exchange (fst (fst s)) (snd (fst s)) :: map Yield (snd s).

Definition render (segs : list (HttpRequest * HttpResponse * list PyVal)) : list Event :=
  flat_map segment segs.

(* ------------------------------------------------------------------ *)
(** ** The loop of the four iterators, once *)

Section Paging.

Variables (rest_client : BoardsOnFireClient) (method endpoint : string).
Variables (query body : Z -> PyVal) (limit : option Z) (page_size : Z).

(** The [while] loop of [list_all] with the verb, the endpoint and the
    place of the paging dictionary left open. *)
Fixpoint paging_loop (fuel : nat) (page yield_count : Z) : M unit :=
  match fuel with
  | O => out_of_fuel
  | S fuel =>
      response <- _send_request rest_client method endpoint
                    (query page) (body page) [] ;;
      records <- lift (py_iter (data response)) ;;
      r <- for_records limit records yield_count ;;
      stop <- last_page (data response) page_size ;;
      if stop then ret tt
      else if negb (snd r) then paging_loop fuel (page + 1) (fst r)
      else ret tt
  end.

Definition paging_request (page : Z) : HttpRequest :=
  request_of rest_client method endpoint (query page) (body page) [].

End Paging.

(** The page size every [list_all] starts with. *)
Definition initial_page_size (limit : option Z) : Z := Z.min 100 (limit_or limit 100).

(* ------------------------------------------------------------------ *)
(** ** The shape of a finished iteration *)

Definition Seg : Type := (HttpRequest * HttpResponse * list PyVal)%type.
Definition seg_request (s : Seg) : HttpRequest := fst (fst s).
Definition seg_response (s : Seg) : HttpResponse := snd (fst s).
Definition seg_yields (s : Seg) : list PyVal := snd s.

(** The page numbers [first], [first + 1], ..., [n] of them. *)
Fixpoint pages_from (first : Z) (n : nat) : list Z :=
  match n with
  | O => []
  | S n => first :: pages_from (first + 1) n
  end.

(** The records an iteration yields of all the records it fetched:
    all of them without a limit or with the limit 0, the first [l] of
    them with a limit [l > 0], the first one with a limit [l < 0]. *)
Definition first_records (limit : option Z) (records : list PyVal) : list PyVal :=
  match limit with
  | None => records
  | Some l =>
      if l =? 0 then records
      else if l <? 0 then firstn 1 records
      else firstn (Z.to_nat l) records
  end.

Section Shape.

Variables (method : string) (mkreq : Z -> HttpRequest).
Variables (limit : option Z) (page_size : Z).

(** The turns of a loop that starts at [page] with [yc] records
    yielded and comes to its end. *)
Inductive Pages : Z -> Z -> list Seg -> Prop :=
| Pages_last page yc rs records :
    batch_of method rs = Some records ->
    short records page_size || hit limit records yc = true ->
    Pages page yc [(mkreq page, rs, taken limit records yc)]
| Pages_more page yc rs records segs :
    batch_of method rs = Some records ->
    short records page_size || hit limit records yc = false ->
    Pages (page + 1) (yc + Z.of_nat (List.length records)) segs ->
    Pages page yc ((mkreq page, rs, records) :: segs).

End Shape.



(* ------------------------------------------------------------------ *)
(** ** Remote services used in examples *)

(** A 200 response whose body decodes to [v]. *)
Definition ok_json (v : PyVal) : HttpResponse :=
  {| http_status_code := 200; http_headers := []; http_content := "";
     http_json := Some v |}.

(** A service that answers its n-th request with the n-th batch of a
    script, and with an empty batch once the script is over. *)
Definition scripted (batches : list (list PyVal))
    : list HttpRequest -> HttpRequest -> HttpResponse :=
  fun history _ => ok_json (PList (nth (List.length history) batches [])).

Definition fresh_world (net : list HttpRequest -> HttpRequest -> HttpResponse) : World :=
  {| network := net; trace := [] |}.

(** The records [PInt first], [PInt (first + 1)], ..., [n] of them. *)
Definition numbered (first : Z) (n : nat) : list PyVal := map PInt (pages_from first n).

(** Pages of sizes 100, 100, 100 and 40. *)
Definition pages_100_100_100_40 : list (list PyVal) :=
  [numbered 1 100; numbered 101 100; numbered 201 100; numbered 301 40].

Definition example_client : BoardsOnFireClient := init "example" "secret" "v5".

(* ------------------------------------------------------------------ *)
(** ** Readings of the documented behaviour that the code does not have *)

(** With any limit given, the records yielded are the first [limit] of
    the records fetched. *)
Definition limit_bounds_every_run : Prop :=
  forall (c : Listing) (rest_client : BoardsOnFireClient) (l : Z) (fuel : nat)
         (w w' : World) (segs : list Seg) (batches : list (list PyVal)),
    list_all c rest_client (Some l) fuel w = (Return tt, w') ->
    trace w' = (trace w ++ render segs)%list ->
    map (fun s => batch_of (list_method c) (seg_response s)) segs = map Some batches ->
    yielded (render segs) = firstn (Z.to_nat l) (List.concat batches).

(** With any limit given, nothing follows the yield that brings the
    number of records yielded to the limit. *)
Definition limit_ends_every_run : Prop :=
  forall (c : Listing) (rest_client : BoardsOnFireClient) (l : Z) (fuel : nat)
         (w : World) (out : Outcome unit) (w' : World)
         (pre : list Event) (record : PyVal) (post : list Event),
    list_all c rest_client (Some l) fuel w = (out, w') ->
    trace w' = (trace w ++ pre ++ Yield record :: post)%list ->
    l <= Z.of_nat (List.length (yielded pre)) + 1 ->
    post = [].

(** A trace in which nothing follows the yield that brings the count of
    records, [yc] at its start, to [l], of a run that returns there. *)
Fixpoint ends_at_limit (l yc : Z) (out : Outcome unit) (t : list Event) : Prop :=
  match t with
  | [] => True
  | Yield _ :: rest =>
      if l <=? yc + 1 then rest = [] /\ out = Return tt
      else ends_at_limit l (yc + 1) out rest
  | _ :: rest => ends_at_limit l yc out rest
  end.

(* ------------------------------------------------------------------ *)
(** ** A remote service that pages through a collection *)

Fixpoint assoc (key : string) (entries : list (string * PyVal)) : option PyVal :=
  match entries with
  | [] => None
  | (k, v) :: rest => if String.eqb key k then Some v else assoc key rest
  end.

Definition dict_get (key : string) (v : PyVal) : option PyVal :=
  match v with
  | PDict entries => assoc key entries
  | _ => None
  end.

(** A paging field of a request, from the query string or else the body. *)
Definition request_field (key : string) (rq : HttpRequest) : option PyVal :=
  match dict_get key (req_params rq) with
  | Some v => Some v
  | None => dict_get key (req_json rq)
  end.

(** The service holds [records] and answers a request for the page [p]
    of size [s] with the records from position [(p - 1) * s] on, at most
    [s] of them; a request without these two fields is a bad request. *)
Definition paginated (records : list PyVal)
    : list HttpRequest -> HttpRequest -> HttpResponse :=
  fun _ rq =>
    match request_field "page" rq, request_field "page_size" rq with
    | Some (PInt page), Some (PInt page_size) =>
        ok_json (PList (firstn (Z.to_nat page_size)
                          (skipn (Z.to_nat ((page - 1) * page_size)) records)))
    | _, _ =>
        {| http_status_code := 400; http_headers := []; http_content := "bad request";
           http_json := None |}
    end.

(** The number of records yielded between two worlds of a run. *)
Definition yielded_since (w w' : World) : Z :=
  Z.of_nat (List.length (yielded (trace w'))) - Z.of_nat (List.length (yielded (trace w))).

(* ------------------------------------------------------------------ *)
(** ** Vocabulary of the statements *)




(** The two kinds of resources that can be written, the keys each kind
    requires of a payload, and the write operations by kind. *)
Inductive Kind : Type := Entity | DataSource.

Definition required_keys (k : Kind) : list string :=
  match k with
  | Entity => ["organization_id"]
  | DataSource => ["organization_id"; "timestamp"]
  end.

Definition has_key (key : string) (entries : list (string * PyVal)) : bool :=
  match assoc key entries with
  | Some _ => true
  | None => false
  end.

Definition has_keys (keys : list string) (entries : list (string * PyVal)) : bool :=
  forallb (fun k => has_key k entries) keys.

Definition validate_create (k : Kind) (data : PyVal) : Result unit :=
  match k with
  | Entity => ValidateEntity.create data
  | DataSource => ValidateDataSource.create data
  end.

Definition validate_upsert (k : Kind) (data : PyVal) : Result unit :=
  match k with
  | Entity => ValidateEntity.upsert data
  | DataSource => ValidateDataSource.upsert data
  end.

Definition create (k : Kind) (rest_client : BoardsOnFireClient) (name : string)
    (data : PyVal) : M PyVal :=
  match k with
  | Entity => Entities.create rest_client name data
  | DataSource => DataSources.create rest_client name data
  end.

(** [truncate] is an argument of [Entities.upsert] alone. *)
Definition upsert (k : Kind) (rest_client : BoardsOnFireClient) (name : string)
    (data : PyVal) (truncate : bool) : M PyVal :=
  match k with
  | Entity => Entities.upsert rest_client name data truncate
  | DataSource => DataSources.upsert rest_client name data
  end.

Definition is_list (v : PyVal) : bool :=
  match v with
  | PList _ => true
  | _ => false
  end.

(** Every call the four collections offer, with its arguments. *)
Inductive Call : Type :=
| CallList (c : Listing) (page_size page : Z)
| CallListAll (c : Listing) (limit : option Z)
| CallGetOrganization (id : string)
| CallGetUser (id : string)
| CallGetEntity (entity_name id : string)
| CallGetDataSource (datasource_name id : string)
| CallUpdate (k : Kind) (name id : string) (data : PyVal)
| CallCreate (k : Kind) (name : string) (data : PyVal)
| CallUpsert (k : Kind) (name : string) (data : PyVal) (truncate : bool)
| CallDelete (k : Kind) (name id : string).

(** The call run on a client; a call that returns nothing returns [None]. *)
Definition invoke (call : Call) (rest_client : BoardsOnFireClient) (fuel : nat) : M PyVal :=
  match call with
  | CallList c page_size page => list_page c rest_client page_size page
  | CallListAll c limit => list_all c rest_client limit fuel ;; ret PNone
  | CallGetOrganization id => Organizations.get rest_client id
  | CallGetUser id => Users.get rest_client id
  | CallGetEntity entity_name id => Entities.get rest_client entity_name id
  | CallGetDataSource datasource_name id => DataSources.get rest_client datasource_name id
  | CallUpdate Entity name id data => Entities.update rest_client name id data
  | CallUpdate DataSource name id data => DataSources.update rest_client name id data
  | CallCreate k name data => create k rest_client name data
  | CallUpsert k name data truncate => upsert k rest_client name data truncate
  | CallDelete Entity name id => Entities.delete rest_client name id ;; ret PNone
  | CallDelete DataSource name id => DataSources.delete rest_client name id ;; ret PNone
  end.

(** A single-page listing that asks for more than the maximum. *)
Definition oversized (call : Call) : bool :=
  match call with
  | CallList _ page_size _ => page_size >? MAX_PAGE_SIZE
  | _ => false
  end.

(** The listings of entities and of datasources send their paging and
    filter fields as the body of the request. *)
Definition filter_listings_send_a_body : Prop :=
  forall (rest_client : BoardsOnFireClient) (name : string) (organizations : list string)
         (page_size page : Z) (order group filter : option string) (w : World),
    page_size <= MAX_PAGE_SIZE ->
    (exists rq rs,
       snd (Entities.list rest_client name organizations page_size page order group filter w)
       = add_events [Exchange rq rs] w
       /\ req_json rq = filter_params page_size page order group filter organizations)
    /\ (exists rq rs,
          snd (DataSources.list rest_client name organizations page_size page
                 order group filter w)
          = add_events [Exchange rq rs] w
          /\ req_json rq = filter_params page_size page order group filter organizations).


(* ------------------------------------------------------------------ *)
(** ** Vocabulary of the further properties *)

(** [d.get(key)] on a header dictionary. *)
Fixpoint header_lookup (key : string) (d : Headers) : option string :=
  match d with
  | [] => None
  | (k, v) :: rest => if String.eqb key k then Some v else header_lookup key rest
  end.

(** A request that carries the API key of the client as its only header
    and is addressed below the base URL of the client. *)
Definition authenticated (rest_client : BoardsOnFireClient) (rq : HttpRequest) : Prop :=
  req_headers rq = [("x-api-key", _api_key rest_client)]
  /\ exists endpoint, req_url rq = _url rest_client ++ endpoint.

Definition is_list_all (call : Call) : bool :=
  match call with
  | CallListAll _ _ => true
  | _ => false
  end.

(** The path of the objects of a resource kind. *)
Definition resource_path (k : Kind) (name : string) : string :=
  match k with
  | Entity => "entities/" ++ name ++ "/entityobjects"
  | DataSource => "datasources/" ++ name ++ "/dataobjects"
  end.

(** [update] and [delete] by kind. *)
Definition update (k : Kind) (rest_client : BoardsOnFireClient) (name id : string)
    (data : PyVal) : M PyVal :=
  match k with
  | Entity => Entities.update rest_client name id data
  | DataSource => DataSources.update rest_client name id data
  end.

Definition delete (k : Kind) (rest_client : BoardsOnFireClient) (name id : string)
    : M unit :=
  match k with
  | Entity => Entities.delete rest_client name id
  | DataSource => DataSources.delete rest_client name id
  end.

(** The four [get] methods behind one name. *)
Inductive Resource : Type :=
| AnOrganization (id : string)
| AUser (id : string)
| AnEntityObject (entity_name id : string)
| ADataObject (datasource_name id : string).

Definition get (r : Resource) (rest_client : BoardsOnFireClient) : M PyVal :=
  match r with
  | AnOrganization id => Organizations.get rest_client id
  | AUser id => Users.get rest_client id
  | AnEntityObject entity_name id => Entities.get rest_client entity_name id
  | ADataObject datasource_name id => DataSources.get rest_client datasource_name id
  end.

Definition get_endpoint (r : Resource) : string :=
  match r with
  | AnOrganization id => "organizations/" ++ id
  | AUser id => "users/" ++ id
  | AnEntityObject entity_name id => "entities/" ++ entity_name ++ "/entityobjects/" ++ id
  | ADataObject datasource_name id =>
      "datasources/" ++ datasource_name ++ "/dataobjects/" ++ id
  end.

(** The outcome of a scan that applies [check] to the rows in order and
    stops at the first row that fails. *)
Fixpoint first_error (check : PyVal -> Result unit) (rows : list PyVal) : Result unit :=
  match rows with
  | [] => Ok tt
  | row :: rest =>
      match check row with
      | Ok _ => first_error check rest
      | Err e => Err e
      end
  end.

(** A service that answers its first request with a batch and every
    later request with status 429. *)
Definition then_rate_limited (batch : list PyVal)
    : list HttpRequest -> HttpRequest -> HttpResponse :=
  fun history _ =>
    match history with
    | [] => ok_json (PList batch)
    | _ => {| http_status_code := 429; http_headers := [];
              http_content := "Too Many Requests"; http_json := None |}
    end.

(** The endpoint of one object of a resource kind. *)
Definition object_endpoint (k : Kind) (name id : string) : string :=
  match k with
  | Entity => "entities/" ++ name ++ "/entityobjects/" ++ id
  | DataSource => "datasources/" ++ name ++ "/dataobjects/" ++ id
  end.

(** The request a collection hands to the client: no extra header. *)
Definition plain_request (rest_client : BoardsOnFireClient) (method endpoint : string)
    (params body : PyVal) : HttpRequest :=
  {| req_method := method;
     req_url := _url rest_client ++ endpoint;
     req_headers := [("x-api-key", _api_key rest_client)];
     req_params := params;
     req_json := body |}.

(** What a call that returns [response.data] makes of a response. *)
Definition data_or_error (method : string) (rs : HttpResponse) : Outcome PyVal :=
  match envelope method rs with
  | Ok response => Return (data response)
  | Err e => Raise e
  end.

(** A value a [for] loop cannot visit: [None], a [bool] or an [int]. *)
Definition is_scalar (v : PyVal) : bool :=
  match v with
  | PNone | PBool _ | PInt _ => true
  | _ => false
  end.

(** The error a listing finds in a response: the error of the transport,
    or the [TypeError] of a payload that cannot be iterated. *)
Definition listing_error (method : string) (rs : HttpResponse) : option Exn :=
  match envelope method rs with
  | Err e => Some e
  | Ok response =>
      match py_iter (data response) with
      | Err e => Some e
      | Ok _ => None
      end
  end.

(** [min(100, limit if limit else 100)] by cases of the limit. *)
Definition iterator_page_size (limit : option Z) : Z :=
  match limit with
  | None => 100
  | Some l => if l =? 0 then 100 else Z.min 100 l
  end.

(** A service every answer of which carries at least [n] records. *)
Definition always_full (method : string) (n : Z)
    (net : list HttpRequest -> HttpRequest -> HttpResponse) : Prop :=
  forall history rq, exists records,
    batch_of method (net history rq) = Some records
    /\ n <= Z.of_nat (List.length records).

(* ------------------------------------------------------------------ *)
(** ** Two more readings that the code does not have *)



(* ------------------------------------------------------------------ *)
(** ** The course of an iteration *)

(** The responses of a service to requests sent one after the other,
    after the requests of [history]. *)
Fixpoint answers (net : list HttpRequest -> HttpRequest -> HttpResponse)
    (history requests : list HttpRequest) : list HttpResponse :=
  match requests with
  | [] => []
  | rq :: rest => net history rq :: answers net (history ++ [rq]) rest
  end.

(** How a run of the loop closes after its full turns, with [yc] records
    yielded so far and [rs] the response to the next request [rq]: out of
    fuel, with nothing more; on the error [e] that [rs] raises; or on the
    batch of [rs], which is short or reaches the limit, and of which it
    yields what the limit allows. *)
Definition closes (method : string) (limit : option Z) (page_size : Z)
    (rq : HttpRequest) (rs : HttpResponse) (yc : Z)
    (out : Outcome unit) (tail : list Event) : Prop :=
  match out with
  | OutOfFuel => tail = []
  | Raise e => tail = [Exchange rq rs] /\ listing_error method rs = Some e
  | Return _ =>
      exists b, tail = segment (rq, rs, taken limit b yc)
                /\ batch_of method rs = Some b
                /\ short b page_size || hit limit b yc = true
  end.
(* ------------------------------------------------------------------ *)
(** * Basic facts about runs *)

Lemma bind_ext {A B} (m : M A) (k1 k2 : A -> M B) (w : World) :
  (forall a w', k1 a w' = k2 a w') -> bind m k1 w = bind m k2 w.
Proof.
  intros H. unfold bind. destruct (m w) as [[a | e |] w']; auto.
Qed.

Lemma add_events_nil (w : World) : add_events [] w = w.
Proof.
  destruct w as [net t]. unfold add_events. simpl. now rewrite app_nil_r.
Qed.

Lemma add_events_app (a b : list Event) (w : World) :
  add_events b (add_events a w) = add_events (a ++ b)%list w.
Proof.
  unfold add_events. simpl. now rewrite app_assoc.
Qed.

Lemma add_event_events (ev : Event) (w : World) : add_event ev w = add_events [ev] w.
Proof. reflexivity. Qed.

Lemma sent_app (a b : list Event) : sent (a ++ b)%list = (sent a ++ sent b)%list.
Proof.
  induction a as [| [rq rs | m | r] a IH]; simpl; auto. now rewrite IH.
Qed.

Lemma yielded_app (a b : list Event) : yielded (a ++ b)%list = (yielded a ++ yielded b)%list.
Proof.
  induction a as [| [rq rs | m | r] a IH]; simpl; auto. now rewrite IH.
Qed.

Lemma warnings_app (a b : list Event) : warnings (a ++ b)%list = (warnings a ++ warnings b)%list.
Proof.
  induction a as [| [rq rs | m | r] a IH]; simpl; auto. now rewrite IH.
Qed.

Lemma yielded_map_Yield (rs : list PyVal) : yielded (map Yield rs) = rs.
Proof. induction rs; simpl; congruence. Qed.

Lemma sent_map_Yield (rs : list PyVal) : sent (map Yield rs) = [].
Proof. induction rs; simpl; auto. Qed.

Lemma warnings_map_Yield (rs : list PyVal) : warnings (map Yield rs) = [].
Proof. induction rs; simpl; auto. Qed.

(** One call of [_send_request] is one exchange, answered by [envelope]. *)
Lemma _send_request_run (self : BoardsOnFireClient) (method endpoint : string)
    (params data : PyVal) (hdrs : Headers) (w : World) :
  let rq := request_of self method endpoint params data hdrs in
  let rs := network w (sent (trace w)) rq in
  _send_request self method endpoint params data hdrs w =
    (match envelope method rs with Ok r => Return r | Err e => Raise e end,
     add_event (Exchange rq rs) w).
Proof.
  intros rq rs. subst rq rs.
  unfold _send_request, bind, requests_request, envelope, request_of.
  set (rs := network w _ _).
  destruct (http_ok rs).
  - destruct (String.eqb method "DELETE"); [reflexivity |].
    destruct (http_json rs); reflexivity.
  - destruct (http_status_code rs =? 429); [reflexivity |].
    destruct (http_status_code rs =? 404); reflexivity.
Qed.

Lemma for_records_run (limit : option Z) (records : list PyVal) (yc : Z) (w : World) :
  for_records limit records yc w =
    (Return (yc + Z.of_nat (List.length (taken limit records yc)), hit limit records yc),
     add_events (map Yield (taken limit records yc)) w).
Proof.
  revert yc w. induction records as [| r rest IH]; intros yc w.
  - simpl. rewrite add_events_nil, Z.add_0_r. reflexivity.
  - cbn [for_records taken hit]. unfold bind, emit.
    destruct (limit_reached limit (yc + 1)) eqn:E.
    + unfold ret. rewrite add_event_events. reflexivity.
    + rewrite IH. rewrite add_event_events, add_events_app.
      cbn [List.length map app]. rewrite Nat2Z.inj_succ.
      replace (yc + 1 + Z.of_nat (List.length (taken limit rest (yc + 1))))
        with (yc + Z.succ (Z.of_nat (List.length (taken limit rest (yc + 1))))) by lia.
      reflexivity.
Qed.

Lemma chars_length (s : string) : List.length (chars s) = String.length s.
Proof. induction s; simpl; congruence. Qed.

Lemma last_page_run (d : PyVal) (records : list PyVal) (page_size : Z) (w : World) :
  py_iter d = Ok records ->
  last_page d page_size w = (Return (short records page_size), w).
Proof.
  unfold last_page, bind, ret.
  destruct d as [| b | n | s | items | entries]; simpl; intros H;
    try discriminate; injection H as <-.
  - destruct s as [| c s]; simpl; [reflexivity |].
    now rewrite chars_length.
  - destruct items; reflexivity.
  - destruct entries as [| kv entries]; simpl; [reflexivity |].
    now rewrite length_map.
Qed.

(** One turn of the loop, read off the response to its request. *)
Lemma paging_loop_step rest_client method endpoint query body limit page_size
    (fuel : nat) (page yc : Z) (w : World) :
  let rq := paging_request rest_client method endpoint query body page in
  let rs := network w (sent (trace w)) rq in
  paging_loop rest_client method endpoint query body limit page_size (S fuel) page yc w =
    match envelope method rs with
    | Err e => (Raise e, add_events [Exchange rq rs] w)
    | Ok response =>
        match py_iter (data response) with
        | Err e => (Raise e, add_events [Exchange rq rs] w)
        | Ok records =>
            let w' := add_events (segment (rq, rs, taken limit records yc)) w in
            if short records page_size || hit limit records yc then (Return tt, w')
            else paging_loop rest_client method endpoint query body limit page_size
                   fuel (page + 1) (yc + Z.of_nat (List.length records)) w'
        end
    end.
Proof.
  intros rq rs. cbn [paging_loop]. unfold bind at 1.
  rewrite _send_request_run. fold (paging_request rest_client method endpoint query body page).
  fold rq. fold rs. rewrite add_event_events.
  destruct (envelope method rs) as [response | e]; [| reflexivity].
  unfold bind at 1.
  destruct (py_iter (data response)) as [records | e] eqn:Hiter; simpl lift;
    [| reflexivity].
  unfold ret at 1. unfold bind at 1. rewrite for_records_run.
  unfold bind at 1. rewrite (last_page_run _ _ page_size _ Hiter).
  rewrite add_events_app. cbn [fst snd segment app].
  destruct (short records page_size); [reflexivity |].
  destruct (hit limit records yc) eqn:Hhit; cbn [negb orb]; [reflexivity |].
  replace (taken limit records yc) with records; [reflexivity |].
  clear - Hhit. revert yc Hhit. induction records as [| r rest IH]; intros yc Hhit;
    [reflexivity |].
  cbn [hit taken] in *. destruct (limit_reached limit (yc + 1)); [discriminate |].
  f_equal. now apply IH.
Qed.

(** The four loops are the one loop. *)
Lemma Organizations_loop_paging rest_client limit order_by direction page_size
    fuel page yc w :
  Organizations.list_all_loop rest_client limit order_by direction page_size fuel page yc w =
  paging_loop rest_client "GET" "organizations"
    (fun page => page_params page_size page order_by direction) (fun _ => PNone)
    limit page_size fuel page yc w.
Proof.
  revert page yc w. induction fuel as [| fuel IH]; intros page yc w; [reflexivity |].
  cbn [Organizations.list_all_loop paging_loop]. unfold _get.
  apply bind_ext; intros response w1. apply bind_ext; intros records w2.
  apply bind_ext; intros r w3. apply bind_ext; intros stop w4.
  destruct stop; [reflexivity |]. destruct (negb (snd r)); [apply IH | reflexivity].
Qed.

Lemma Users_loop_paging rest_client limit order_by direction page_size fuel page yc w :
  Users.list_all_loop rest_client limit order_by direction page_size fuel page yc w =
  paging_loop rest_client "GET" "users"
    (fun page => page_params page_size page order_by direction) (fun _ => PNone)
    limit page_size fuel page yc w.
Proof.
  revert page yc w. induction fuel as [| fuel IH]; intros page yc w; [reflexivity |].
  cbn [Users.list_all_loop paging_loop]. unfold _get.
  apply bind_ext; intros response w1. apply bind_ext; intros records w2.
  apply bind_ext; intros r w3. apply bind_ext; intros stop w4.
  destruct stop; [reflexivity |]. destruct (negb (snd r)); [apply IH | reflexivity].
Qed.

Lemma Entities_loop_paging rest_client entity_name limit organizations order group filter
    page_size fuel page yc w :
  Entities.list_all_loop rest_client entity_name limit organizations order group filter
    page_size fuel page yc w =
  paging_loop rest_client "POST" ("entities/" ++ entity_name ++ "/entityobjects/list")
    (fun page => filter_params page_size page order group filter organizations)
    (fun _ => PNone) limit page_size fuel page yc w.
Proof.
  revert page yc w. induction fuel as [| fuel IH]; intros page yc w; [reflexivity |].
  cbn [Entities.list_all_loop paging_loop]. unfold _post.
  apply bind_ext; intros response w1. apply bind_ext; intros records w2.
  apply bind_ext; intros r w3. apply bind_ext; intros stop w4.
  destruct stop; [reflexivity |]. destruct (negb (snd r)); [apply IH | reflexivity].
Qed.

Lemma DataSources_loop_paging rest_client datasource_name limit organizations order group
    filter page_size fuel page yc w :
  DataSources.list_all_loop rest_client datasource_name limit organizations order group
    filter page_size fuel page yc w =
  paging_loop rest_client "POST" ("datasources/" ++ datasource_name ++ "/dataobjects/list")
    (fun _ => PNone)
    (fun page => filter_params page_size page order group filter organizations)
    limit page_size fuel page yc w.
Proof.
  revert page yc w. induction fuel as [| fuel IH]; intros page yc w; [reflexivity |].
  cbn [DataSources.list_all_loop paging_loop]. unfold _post.
  apply bind_ext; intros response w1. apply bind_ext; intros records w2.
  apply bind_ext; intros r w3. apply bind_ext; intros stop w4.
  destruct stop; [reflexivity |]. destruct (negb (snd r)); [apply IH | reflexivity].
Qed.

Lemma list_all_paging (c : Listing) rest_client limit fuel w :
  list_all c rest_client limit fuel w =
  paging_loop rest_client (list_method c) (list_endpoint c)
    (list_query c (initial_page_size limit)) (list_body c (initial_page_size limit))
    limit (initial_page_size limit) fuel 1 0 w.
Proof.
  destruct c; cbn [list_all list_method list_endpoint list_query list_body].
  - apply Organizations_loop_paging.
  - apply Users_loop_paging.
  - apply Entities_loop_paging.
  - apply DataSources_loop_paging.
Qed.

(* ------------------------------------------------------------------ *)
(** * The model on the cases of the test suite *)

Example str_int_values :
  str_int 0 = "0" /\ str_int 429 = "429" /\ str_int (-45) = "-45".
Proof. repeat split. Qed.

Example repr_bytes_values :
  repr_bytes "Not allowed" = "b'Not allowed'"
  /\ repr_bytes ("a" ++ LF ++ "b") = "b'a" ++ String backslash "nb'"
  /\ repr_bytes "it's" = String "b" (String dquote ("it's" ++ String dquote "")).
Proof. repeat split. Qed.

Example dict_union_prefers_the_right :
  dict_union [("x-api-key", "k")] [("accept", "json"); ("x-api-key", "other")]
  = [("x-api-key", "other"); ("accept", "json")].
Proof. reflexivity. Qed.

Example page_size_warning_text :
  page_size_warning
  = "The maximum page size is 500. Response is truncated. " ++ LF
    ++ "Please consider using the list_all method for large datasets.".
Proof. reflexivity. Qed.

(** [test_send_request_bad_response], with a body. *)
Example bad_response_message :
  fst (_send_request example_client "GET" "endpoint" PNone PNone []
         (fresh_world (fun _ _ =>
            {| http_status_code := 400; http_headers := [];
               http_content := "Not allowed"; http_json := None |})))
  = Raise (RestClientException
             ("Bad response. " ++ LF ++ " Status Code: 400" ++ LF
              ++ "  Message: b'Not allowed'")).
Proof. reflexivity. Qed.

(** [TestOrganizations.test_list] and [test_list_all]. *)
Example organizations_list_default_call :
  let rows := PList [PDict [("id", PStr "1"); ("name", PStr "Org1")];
                     PDict [("id", PStr "2"); ("name", PStr "Org2")]] in
  let w := fresh_world (fun _ _ => ok_json rows) in
  fst (Organizations.list example_client 50 1 None "ASC" w) = Return rows
  /\ map req_params (sent (trace (snd (Organizations.list example_client 50 1 None "ASC" w))))
     = [PDict [("page_size", PInt 50); ("page", PInt 1); ("order", PNone);
               ("direction", PStr "ASC")]]
  /\ map req_params
       (sent (trace (snd (Organizations.list_all example_client (Some 100) None "ASC" 1 w))))
     = [PDict [("page_size", PInt 100); ("page", PInt 1); ("order", PNone);
               ("direction", PStr "ASC")]]
  /\ yielded (trace (snd (Organizations.list_all example_client (Some 100) None "ASC" 1 w)))
     = [PDict [("id", PStr "1"); ("name", PStr "Org1")];
        PDict [("id", PStr "2"); ("name", PStr "Org2")]].
Proof. repeat split. Qed.

(** [TestEntities.test_list] and [TestDataSources.test_list]. *)
Example filter_listings_default_calls :
  let w := fresh_world (fun _ _ => ok_json (PList [])) in
  let fields := PDict [("page_size", PInt 100); ("page", PInt 1); ("order", PNone);
                       ("group", PNone); ("filter", PNone);
                       ("target_organization_ids", PStr "")] in
  map (fun rq => (req_method rq, req_url rq, req_params rq, req_json rq))
      (sent (trace (snd (Entities.list example_client "test_entity" [] 100 1
                           None None None w))))
  = [("POST",
      "https://example.boardsonfireapp.com/api/v5/entities/test_entity/entityobjects/list",
      fields, PNone)]
  /\ map (fun rq => (req_method rq, req_url rq, req_params rq, req_json rq))
       (sent (trace (snd (DataSources.list example_client "test_datasource" [] 100 1
                            None None None w))))
     = [("POST",
         "https://example.boardsonfireapp.com/api/v5/datasources/test_datasource/dataobjects/list",
         PNone, fields)].
Proof. repeat split. Qed.

(** [TestValidateEntity] and [TestValidateDataSource]. *)
Example validators_on_the_test_payloads :
  (exists msg, ValidateEntity.create (PDict []) = Err (ValidationError msg))
  /\ ValidateEntity.create (PDict [("organization_id", PStr "123")]) = Ok tt
  /\ (exists msg, ValidateEntity.upsert (PList [PDict []]) = Err (ValidationError msg))
  /\ ValidateEntity.upsert (PList [PDict [("organization_id", PStr "123")];
                                   PDict [("organization_id", PStr "456")]]) = Ok tt
  /\ ValidateDataSource.create
       (PDict [("organization_id", PStr "123");
               ("timestamp", PStr "2022-01-01T00:00:00Z")]) = Ok tt
  /\ (exists msg, ValidateDataSource.create (PDict [("organization_id", PStr "123")])
                  = Err (ValidationError msg))
  /\ (exists msg, ValidateDataSource.upsert
                    (PList [PDict [("organization_id", PStr "123")]])
                  = Err (ValidationError msg)).
Proof. repeat split; eexists; reflexivity. Qed.

(* ------------------------------------------------------------------ *)
(** * The shape of a finished iteration *)

Lemma taken_all (limit : option Z) (records : list PyVal) (yc : Z) :
  hit limit records yc = false -> taken limit records yc = records.
Proof.
  revert yc. induction records as [| r rest IH]; intros yc H; [reflexivity |].
  cbn [hit taken] in *. destruct (limit_reached limit (yc + 1)); [discriminate |].
  f_equal. now apply IH.
Qed.

Lemma taken_app (limit : option Z) (a b : list PyVal) (yc : Z) :
  taken limit (a ++ b) yc =
  if hit limit a yc then taken limit a yc
  else (a ++ taken limit b (yc + Z.of_nat (List.length a)))%list.
Proof.
  revert yc. induction a as [| r rest IH]; intros yc.
  - simpl. now rewrite Z.add_0_r.
  - cbn [app taken hit List.length]. destruct (limit_reached limit (yc + 1)).
    + reflexivity.
    + rewrite IH. destruct (hit limit rest (yc + 1)); [reflexivity |].
      simpl. do 3 f_equal. lia.
Qed.

Lemma taken_prefix (limit : option Z) (records : list PyVal) (yc : Z) :
  exists rest, records = (taken limit records yc ++ rest)%list.
Proof.
  revert yc. induction records as [| r rest IH]; intros yc.
  - now exists [].
  - cbn [taken]. destruct (limit_reached limit (yc + 1)).
    + now exists rest.
    + destruct (IH (yc + 1)) as [rest' Hr]. exists rest'. cbn [app]. now f_equal.
Qed.

Lemma hit_reached (limit : option Z) (records : list PyVal) (yc : Z) :
  hit limit records yc = true ->
  limit_reached limit (yc + Z.of_nat (List.length (taken limit records yc))) = true.
Proof.
  revert yc. induction records as [| r rest IH]; intros yc H; [discriminate |].
  cbn [hit taken] in *. destruct (limit_reached limit (yc + 1)) eqn:E.
  - simpl. exact E.
  - cbn [List.length]. rewrite Nat2Z.inj_succ.
    replace (yc + Z.succ (Z.of_nat (List.length (taken limit rest (yc + 1)))))
      with (yc + 1 + Z.of_nat (List.length (taken limit rest (yc + 1)))) by lia.
    now apply IH.
Qed.

Lemma taken_positive (l : Z) (records : list PyVal) (yc : Z) :
  0 < l -> yc < l ->
  taken (Some l) records yc = firstn (Z.to_nat (l - yc)) records.
Proof.
  intros Hl. revert yc. induction records as [| r rest IH]; intros yc H.
  - now rewrite firstn_nil.
  - cbn [taken]. replace (Z.to_nat (l - yc)) with (S (Z.to_nat (l - (yc + 1)))) by lia.
    cbn [firstn]. f_equal. unfold limit_reached, truthy.
    destruct (Z.eqb_spec l 0); [lia |]. cbn [negb andb].
    rewrite Z.geb_leb. destruct (Z.leb_spec l (yc + 1)).
    + replace (Z.to_nat (l - (yc + 1))) with O by lia. reflexivity.
    + apply IH. lia.
Qed.

Lemma taken_unlimited (limit : option Z) (records : list PyVal) (yc : Z) :
  limit_or limit 0 = 0 -> taken limit records yc = records.
Proof.
  intros H. apply taken_all. revert yc.
  assert (Hn : forall n, limit_reached limit n = false).
  { intros n. destruct limit as [l |]; [| reflexivity]. unfold limit_or in H.
    unfold limit_reached. destruct (truthy (PInt l)) eqn:E; [| reflexivity].
    subst l. discriminate. }
  induction records as [| r rest IH]; intros yc; [reflexivity |].
  cbn [hit]. now rewrite Hn.
Qed.

Lemma taken_first_records (limit : option Z) (records : list PyVal) :
  taken limit records 0 = first_records limit records.
Proof.
  destruct limit as [l |]; cbn [first_records].
  - destruct (l =? 0) eqn:E0.
    + apply taken_unlimited. unfold limit_or, truthy. now rewrite E0.
    + destruct (l <? 0) eqn:Eneg.
      * destruct records as [| r rest]; [reflexivity |]. cbn [taken firstn].
        unfold limit_reached, truthy. rewrite E0. cbn [negb andb].
        rewrite Z.geb_leb. apply Z.ltb_lt in Eneg.
        destruct (Z.leb_spec l (0 + 1)); [reflexivity | lia].
      * apply Z.ltb_ge in Eneg. apply Z.eqb_neq in E0.
        rewrite taken_positive by lia. now rewrite Z.sub_0_r.
  - now apply taken_unlimited.
Qed.

Lemma render_cons (s : Seg) (segs : list Seg) :
  render (s :: segs) = (segment s ++ render segs)%list.
Proof. reflexivity. Qed.

Lemma yielded_render (segs : list Seg) :
  yielded (render segs) = List.concat (map seg_yields segs).
Proof.
  induction segs as [| [[rq rs] ys] segs IH]; [reflexivity |].
  rewrite render_cons, yielded_app, IH. cbn [segment yielded snd map List.concat seg_yields].
  now rewrite yielded_map_Yield.
Qed.

(** A run of the loop that returns went through [Pages]. *)
Lemma paging_loop_Pages rest_client method endpoint query body limit page_size
    (fuel : nat) (page yc : Z) (w w' : World) :
  paging_loop rest_client method endpoint query body limit page_size fuel page yc w
    = (Return tt, w') ->
  exists segs,
    Pages method (paging_request rest_client method endpoint query body)
      limit page_size page yc segs
    /\ w' = add_events (render segs) w.
Proof.
  revert page yc w. induction fuel as [| fuel IH]; intros page yc w H; [discriminate |].
  rewrite paging_loop_step in H. cbv zeta in H.
  set (rq := paging_request rest_client method endpoint query body page) in *.
  set (rs := network w (sent (trace w)) rq) in *.
  destruct (envelope method rs) as [response | e] eqn:Henv; [| discriminate].
  destruct (py_iter (data response)) as [records | e] eqn:Hiter; [| discriminate].
  assert (Hbatch : batch_of method rs = Some records).
  { unfold batch_of. now rewrite Henv, Hiter. }
  destruct (short records page_size || hit limit records yc) eqn:Hstop.
  - injection H as <-. eexists. split.
    + eapply Pages_last; eassumption.
    + unfold render. cbn [flat_map]. now rewrite app_nil_r.
  - apply IH in H. destruct H as (segs & Hp & ->).
    exists ((rq, rs, records) :: segs). split.
    + eapply Pages_more; eassumption.
    + rewrite add_events_app, render_cons.
      apply orb_false_elim in Hstop. destruct Hstop as [_ Hhit].
      now rewrite (taken_all _ _ _ Hhit).
Qed.

Section ShapeFacts.

Variables (method : string) (mkreq : Z -> HttpRequest).
Variables (limit : option Z) (page_size : Z).

Lemma Pages_requests page yc segs :
  Pages method mkreq limit page_size page yc segs ->
  map seg_request segs = map mkreq (pages_from page (List.length segs)).
Proof.
  induction 1 as [page yc rs records Hb Hs | page yc rs records segs Hb Hs Hp IH].
  - reflexivity.
  - cbn [map List.length pages_from seg_request fst]. now rewrite IH.
Qed.

(** The batches of the turns, and what was yielded of them. *)
Lemma Pages_batches page yc segs :
  Pages method mkreq limit page_size page yc segs ->
  exists batches,
    map (fun s => batch_of method (seg_response s)) segs = map Some batches
    /\ Forall2 (fun s b => exists rest, b = (seg_yields s ++ rest)%list) segs batches
    /\ List.concat (map seg_yields segs) = taken limit (List.concat batches) yc.
Proof.
  induction 1 as [page yc rs records Hb Hs | page yc rs records segs Hb Hs Hp IH].
  - exists [records]. cbn [map List.concat seg_response seg_yields fst snd].
    rewrite Hb, !app_nil_r. repeat split.
    constructor; [| constructor]. apply taken_prefix.
  - destruct IH as (batches & Hm & Hf & Hc). exists (records :: batches).
    cbn [map List.concat seg_response seg_yields fst snd]. rewrite Hb.
    apply orb_false_elim in Hs. destruct Hs as [_ Hhit].
    repeat split.
    + now f_equal.
    + constructor; [| assumption]. exists []. now rewrite app_nil_r.
    + rewrite taken_app, Hhit. now f_equal.
Qed.

(** A loop the limit does not end stops at its first short batch. *)
Lemma Pages_short page yc segs :
  Pages method mkreq limit page_size page yc segs ->
  List.concat (map seg_yields segs) = []
  \/ limit_reached limit (yc + Z.of_nat (List.length (List.concat (map seg_yields segs))))
     = false ->
  exists init s,
    segs = (init ++ [s])%list
    /\ Forall (fun s => exists b, batch_of method (seg_response s) = Some b
                        /\ seg_yields s = b /\ short b page_size = false) init
    /\ exists b, batch_of method (seg_response s) = Some b
                 /\ seg_yields s = b /\ short b page_size = true.
Proof.
  induction 1 as [page yc rs records Hb Hs | page yc rs records segs Hb Hs Hp IH];
    intros Hl; cbn [map List.concat seg_yields snd] in Hl.
  - exists [], (mkreq page, rs, taken limit records yc). split; [reflexivity |].
    split; [constructor |]. exists records. cbn [seg_response seg_yields fst snd].
    rewrite app_nil_r in Hl.
    assert (Hhit : hit limit records yc = false).
    { destruct Hl as [Hnil | Hl].
      - destruct records; [reflexivity | discriminate].
      - destruct (hit limit records yc) eqn:Hhit; [| reflexivity].
        apply hit_reached in Hhit. congruence. }
    rewrite Hhit, orb_false_r in Hs. rewrite (taken_all _ _ _ Hhit). auto.
  - apply orb_false_elim in Hs. destruct Hs as [Hshort Hhit].
    assert (Hl' : limit_reached limit
                    (yc + Z.of_nat (List.length records)
                     + Z.of_nat (List.length (List.concat (map seg_yields segs))))
                  = false).
    { destruct Hl as [Hnil | Hl].
      - apply app_eq_nil in Hnil. destruct Hnil as [-> _]. discriminate.
      - now rewrite length_app, Nat2Z.inj_add, Z.add_assoc in Hl. }
    destruct (IH (or_intror Hl')) as (init & s & -> & Hinit & Hlast).
    exists ((mkreq page, rs, records) :: init), s. split; [reflexivity |].
    split; [| assumption]. constructor; [| assumption].
    exists records. auto.
Qed.

End ShapeFacts.


(** More fuel does not change a run that did not run out of it. *)
Lemma paging_loop_fuel_mono rest_client method endpoint query body limit page_size
    (fuel extra : nat) (page yc : Z) (w : World) (out : Outcome unit) (w' : World) :
  paging_loop rest_client method endpoint query body limit page_size fuel page yc w
    = (out, w') ->
  out <> OutOfFuel ->
  paging_loop rest_client method endpoint query body limit page_size
    (fuel + extra) page yc w = (out, w').
Proof.
  revert page yc w. induction fuel as [| fuel IH]; intros page yc w H Hout.
  - injection H as <- _. congruence.
  - change (S fuel + extra)%nat with (S (fuel + extra)).
    rewrite paging_loop_step in *. cbv zeta in *.
    destruct (envelope method _) as [response | e]; [| assumption].
    destruct (py_iter (data response)) as [records | e]; [| assumption].
    destruct (short records page_size || hit limit records yc); [assumption |].
    now apply IH.
Qed.

Lemma list_all_fuel_mono (c : Listing) rest_client limit (fuel fuel' : nat)
    (w : World) (out : Outcome unit) (w' : World) :
  list_all c rest_client limit fuel w = (out, w') ->
  out <> OutOfFuel ->
  (fuel <= fuel')%nat ->
  list_all c rest_client limit fuel' w = (out, w').
Proof.
  intros H Hout Hle. replace fuel' with (fuel + (fuel' - fuel))%nat by lia.
  rewrite list_all_paging in *. now apply paging_loop_fuel_mono.
Qed.

(** Every finished [list_all] in terms of its turns. *)
Lemma list_all_Pages (c : Listing) rest_client limit fuel w w' :
  list_all c rest_client limit fuel w = (Return tt, w') ->
  exists segs,
    Pages (list_method c) (list_request c rest_client (initial_page_size limit))
      limit (initial_page_size limit) 1 0 segs
    /\ trace w' = (trace w ++ render segs)%list
    /\ network w' = network w.
Proof.
  intros H. rewrite list_all_paging in H. apply paging_loop_Pages in H.
  destruct H as (segs & Hp & ->). exists segs. repeat split. exact Hp.
Qed.

(* ------------------------------------------------------------------ *)
(** * C1: what an iteration yields *)

(** The limit 0 bounds nothing: against a service with the two records
    1 and 2, [list_all] with [limit=0] yields both, not the first 0 of
    them. *)
Lemma limit_zero_yields_everything : ~ limit_bounds_every_run.
Proof.
  intros H.
  pose (c := ListOrganizations None "ASC").
  pose (w := fresh_world (scripted [[PInt 1; PInt 2]])).
  pose (rq := list_request c example_client 100 1).
  specialize (H c example_client 0 1%nat w
                (snd (list_all c example_client (Some 0) 1 w))
                [(rq, ok_json (PList [PInt 1; PInt 2]), [PInt 1; PInt 2])]
                [[PInt 1; PInt 2]]).
  assert (Hrun : list_all c example_client (Some 0) 1 w
                 = (Return tt, snd (list_all c example_client (Some 0) 1 w)))
    by (vm_compute; reflexivity).
  specialize (H Hrun). clear Hrun.
  assert (Htrace : trace (snd (list_all c example_client (Some 0) 1 w))
                   = (trace w ++ render [(rq, ok_json (PList [PInt 1; PInt 2]),
                                          [PInt 1; PInt 2])])%list)
    by (vm_compute; reflexivity).
  specialize (H Htrace eq_refl). discriminate H.
Qed.

(* ------------------------------------------------------------------ *)
(** * C2: the limit ends the iteration *)

Lemma short_true (records : list PyVal) (page_size : Z) :
  short records page_size = true <->
  records = [] \/ Z.of_nat (List.length records) < page_size.
Proof.
  destruct records as [| r rest]; cbn [short].
  - tauto.
  - rewrite Z.ltb_lt. split; [auto |]. intros [H | H]; [discriminate | assumption].
Qed.

Lemma short_false (records : list PyVal) (page_size : Z) :
  short records page_size = false <->
  records <> [] /\ page_size <= Z.of_nat (List.length records).
Proof.
  destruct records as [| r rest]; cbn [short].
  - split; [discriminate | intros [H _]; now elim H].
  - rewrite Z.ltb_ge. split; [split; [discriminate | assumption] | tauto].
Qed.

Lemma ends_at_limit_yields (l : Z) (records : list PyVal) (yc : Z)
    (out : Outcome unit) (rest : list Event) :
  l <> 0 ->
  (hit (Some l) records yc = true -> rest = [] /\ out = Return tt) ->
  (hit (Some l) records yc = false ->
   ends_at_limit l (yc + Z.of_nat (List.length records)) out rest) ->
  ends_at_limit l yc out (map Yield (taken (Some l) records yc) ++ rest).
Proof.
  intros Hl. revert yc. induction records as [| r records IH]; intros yc Hhit Hnot.
  - simpl in *. rewrite Z.add_0_r in Hnot. now apply Hnot.
  - cbn [hit taken] in *.
    assert (E : limit_reached (Some l) (yc + 1) = (l <=? yc + 1)).
    { unfold limit_reached, truthy. destruct (Z.eqb_spec l 0); [contradiction |].
      cbn [negb andb]. apply Z.geb_leb. }
    rewrite E in *. cbn [map app ends_at_limit].
    destruct (l <=? yc + 1).
    + cbn [map app]. now apply Hhit.
    + apply IH; [assumption |]. intros H. apply Hnot in H.
      cbn [List.length] in H. rewrite Nat2Z.inj_succ in H.
      now replace (yc + 1 + Z.of_nat (List.length records))
        with (yc + Z.succ (Z.of_nat (List.length records))) by lia.
Qed.

Lemma paging_loop_ends_at_limit rest_client method endpoint query body (l : Z) page_size
    (fuel : nat) (page yc : Z) (w : World) (out : Outcome unit) (w' : World) :
  l <> 0 ->
  paging_loop rest_client method endpoint query body (Some l) page_size fuel page yc w
    = (out, w') ->
  exists t, w' = add_events t w /\ ends_at_limit l yc out t.
Proof.
  intros Hl. revert page yc w.
  induction fuel as [| fuel IH]; intros page yc w H.
  - injection H as _ <-. exists []. now rewrite add_events_nil.
  - rewrite paging_loop_step in H. cbv zeta in H.
    set (rq := paging_request rest_client method endpoint query body page) in *.
    set (rs := network w (sent (trace w)) rq) in *.
    destruct (envelope method rs) as [response | e].
    2: { injection H as _ <-. now exists [Exchange rq rs]. }
    destruct (py_iter (data response)) as [records | e].
    2: { injection H as _ <-. now exists [Exchange rq rs]. }
    destruct (short records page_size || hit (Some l) records yc) eqn:Hstop.
    + injection H as <- <-. eexists. split; [reflexivity |].
      cbn [segment fst snd ends_at_limit].
      rewrite <- (app_nil_r (map Yield _)).
      apply ends_at_limit_yields; simpl; auto.
    + apply orb_false_elim in Hstop. destruct Hstop as [_ Hhit].
      apply IH in H. destruct H as (t & -> & Ht).
      rewrite add_events_app. eexists. split; [reflexivity |].
      cbn [segment fst snd app ends_at_limit].
      apply ends_at_limit_yields; [assumption | congruence | auto].
Qed.

Lemma ends_at_limit_split (l yc : Z) (out : Outcome unit) (t pre : list Event)
    (record : PyVal) (post : list Event) :
  ends_at_limit l yc out t ->
  t = (pre ++ Yield record :: post)%list ->
  l <= yc + Z.of_nat (List.length (yielded pre)) + 1 ->
  post = [] /\ out = Return tt.
Proof.
  revert yc t. induction pre as [| ev pre IH]; intros yc t H -> Hl.
  - simpl in *. destruct (Z.leb_spec l (yc + 1)); [assumption | lia].
  - destruct ev as [rq rs | m | r]; cbn [app ends_at_limit yielded] in *.
    + eapply IH; eauto.
    + eapply IH; eauto.
    + destruct (Z.leb_spec l (yc + 1)).
      * destruct H as [H _]. destruct pre; discriminate.
      * eapply IH; [eassumption | reflexivity |].
        cbn [List.length] in Hl. lia.
Qed.

(** With a limit above 0 every turn that does not end the loop brings
    the count of records closer to the limit. *)
Lemma hit_not_yet (l : Z) (records : list PyVal) (yc : Z) :
  0 < l -> yc < l -> hit (Some l) records yc = false ->
  yc + Z.of_nat (List.length records) < l.
Proof.
  intros Hl. revert yc. induction records as [| r rest IH]; intros yc Hyc H.
  - simpl. lia.
  - cbn [hit] in H. unfold limit_reached, truthy in H.
    destruct (Z.eqb_spec l 0); [lia |]. cbn [negb andb] in H.
    rewrite Z.geb_leb in H. destruct (Z.leb_spec l (yc + 1)); [discriminate |].
    cbn [List.length]. rewrite Nat2Z.inj_succ.
    specialize (IH (yc + 1) ltac:(lia) H). lia.
Qed.

Lemma paging_loop_limit_terminates rest_client method endpoint query body (l : Z)
    page_size (fuel : nat) (page yc : Z) (w : World) :
  0 < l -> yc < l -> (Z.to_nat (l - yc) <= fuel)%nat ->
  fst (paging_loop rest_client method endpoint query body (Some l) page_size
         fuel page yc w) <> OutOfFuel.
Proof.
  intros Hl. revert page yc w. induction fuel as [| fuel IH]; intros page yc w Hyc Hfuel.
  - lia.
  - rewrite paging_loop_step. cbv zeta.
    destruct (envelope method _) as [response | e]; [| discriminate].
    destruct (py_iter (data response)) as [records | e]; [| discriminate].
    destruct (short records page_size || hit (Some l) records yc) eqn:Hstop;
      [discriminate |].
    apply orb_false_elim in Hstop. destruct Hstop as [Hshort Hhit].
    apply short_false in Hshort. destruct Hshort as [Hne _].
    pose proof (hit_not_yet l records yc Hl Hyc Hhit) as Hnext.
    apply IH; [exact Hnext |].
    destruct records as [| r rest]; [now elim Hne |].
    cbn [List.length] in *. lia.
Qed.

Lemma paging_loop_negative_limit_terminates rest_client method endpoint query body
    (l : Z) page_size (fuel : nat) (page : Z) (w : World) :
  l < 0 ->
  fst (paging_loop rest_client method endpoint query body (Some l) page_size
         (S fuel) page 0 w) <> OutOfFuel.
Proof.
  intros Hl. rewrite paging_loop_step. cbv zeta.
  destruct (envelope method _) as [response | e]; [| discriminate].
  destruct (py_iter (data response)) as [records | e]; [| discriminate].
  replace (short records page_size || hit (Some l) records 0) with true; [discriminate |].
  destruct records as [| r rest]; [reflexivity |].
  cbn [hit]. unfold limit_reached, truthy.
  destruct (Z.eqb_spec l 0); [lia |]. cbn [negb andb].
  rewrite Z.geb_leb. destruct (Z.leb_spec l (0 + 1)); [| lia].
  now rewrite orb_true_r.
Qed.

(** C2, as amended. In every [list_all] with a limit other than 0, on
    any of the four collections, against any remote service and however
    long the run is followed, the yield that brings the number of
    records yielded to the limit is the last thing the iterator does: it
    yields no more record of the batch, sends no further request, and
    returns. Such a [list_all] always comes to an end: a limit above 0
    takes at most [limit] turns of the loop, a limit below 0 one turn.
    For pages of sizes 100, 100, 100 and 40 and the limit 250 exactly 3
    requests are sent, and 250 of the 300 records fetched are yielded. *)
Theorem list_all_stops_at_limit :
  (forall (c : Listing) (rest_client : BoardsOnFireClient) (l : Z) (fuel : nat)
          (w : World) (out : Outcome unit) (w' : World)
          (pre : list Event) (record : PyVal) (post : list Event),
     l <> 0 ->
     list_all c rest_client (Some l) fuel w = (out, w') ->
     trace w' = (trace w ++ pre ++ Yield record :: post)%list ->
     l <= Z.of_nat (List.length (yielded pre)) + 1 ->
     post = [] /\ out = Return tt)
  /\ (forall (c : Listing) (rest_client : BoardsOnFireClient) (l : Z) (fuel : nat)
             (w : World),
        l <> 0 -> (Z.to_nat (Z.max l 1) <= fuel)%nat ->
        fst (list_all c rest_client (Some l) fuel w) <> OutOfFuel)
  /\ (forall (c : Listing) (fuel : nat), (3 <= fuel)%nat ->
        let run := list_all c example_client (Some 250) fuel
                     (fresh_world (scripted pages_100_100_100_40)) in
        fst run = Return tt
        /\ List.length (sent (trace (snd run))) = 3%nat
        /\ List.length (yielded (trace (snd run))) = 250%nat
        /\ List.length (List.concat (firstn 3 pages_100_100_100_40)) = 300%nat).
Proof.
  split; [| split].
  - intros c rest_client l fuel w out w' pre record post Hl H Ht Hcount.
    rewrite list_all_paging in H.
    apply paging_loop_ends_at_limit in H; [| assumption].
    destruct H as (t & -> & Hends). cbn [add_events trace] in Ht.
    apply app_inv_head in Ht.
    apply (ends_at_limit_split _ _ _ _ _ _ _ Hends Ht). lia.
  - intros c rest_client l fuel w Hl Hfuel. rewrite list_all_paging.
    destruct (Z.lt_trichotomy l 0) as [Hneg | [H0 | Hpos]]; [| contradiction |].
    + destruct fuel as [| fuel]; [lia |].
      now apply paging_loop_negative_limit_terminates.
    + apply paging_loop_limit_terminates; lia.
  - intros c fuel Hfuel run.
    assert (H : list_all c example_client (Some 250) 3
                  (fresh_world (scripted pages_100_100_100_40))
                = (Return tt, snd (list_all c example_client (Some 250) 3
                                     (fresh_world (scripted pages_100_100_100_40))))).
    { destruct c; vm_compute; reflexivity. }
    pose proof (list_all_fuel_mono _ _ _ _ fuel _ _ _ H ltac:(discriminate) Hfuel) as H'.
    subst run. rewrite H'. cbn [fst snd].
    destruct c; vm_compute; repeat split.
Qed.

(** A run of C2 with the limit 1 against a service that sends two
    records: the yield of the first record is the end of the trace, and
    the run returns. *)
Lemma list_all_stops_at_limit_witness :
  let c := ListEntities "widget" [] None None None in
  let w := fresh_world (scripted [[PInt 1; PInt 2]]) in
  let rq := list_request c example_client 1 1 in
  let rs := ok_json (PList [PInt 1; PInt 2]) in
  let run := list_all c example_client (Some 1) 1 w in
  trace (snd run) = (trace w ++ [Exchange rq rs] ++ Yield (PInt 1) :: [])%list
  /\ 1 <= Z.of_nat (List.length (yielded [Exchange rq rs])) + 1
  /\ fst run = Return tt.
Proof.
  intros c w rq rs run.
  assert (Ht : trace (snd run)
               = (trace w ++ [Exchange rq rs] ++ Yield (PInt 1) :: [])%list)
    by (vm_compute; reflexivity).
  assert (Hl : 1 <= Z.of_nat (List.length (yielded [Exchange rq rs])) + 1)
    by (vm_compute; discriminate).
  split; [exact Ht |]. split; [exact Hl |].
  apply (proj1 list_all_stops_at_limit c example_client 1 1%nat w (fst run) (snd run)
           [Exchange rq rs] (PInt 1) []).
  - discriminate.
  - apply surjective_pairing.
  - exact Ht.
  - exact Hl.
Defined.

(** The limit 0 ends nothing: against a service with the two records 1
    and 2, [list_all] with [limit=0] goes on to yield the second record
    after the first one was yielded. *)
Lemma limit_zero_ends_nothing : ~ limit_ends_every_run.
Proof.
  intros H.
  pose (c := ListOrganizations None "ASC").
  pose (w := fresh_world (scripted [[PInt 1; PInt 2]])).
  pose (rq := list_request c example_client 100 1).
  pose (rs := ok_json (PList [PInt 1; PInt 2])).
  specialize (H c example_client 0 1%nat w (Return tt)
                (add_events [Exchange rq rs; Yield (PInt 1); Yield (PInt 2)] w)
                [Exchange rq rs] (PInt 1) [Yield (PInt 2)]).
  assert (Hrun : list_all c example_client (Some 0) 1 w
                 = (Return tt,
                    add_events [Exchange rq rs; Yield (PInt 1); Yield (PInt 2)] w))
    by (vm_compute; reflexivity).
  specialize (H Hrun eq_refl). clear Hrun.
  assert (Hle : 0 <= Z.of_nat (List.length (yielded [Exchange rq rs])) + 1)
    by (vm_compute; discriminate).
  specialize (H Hle). discriminate H.
Qed.

(* ------------------------------------------------------------------ *)
(** * C3: the last page *)

Lemma list_method_not_delete (c : Listing) : String.eqb (list_method c) "DELETE" = false.
Proof. destruct c; reflexivity. Qed.

Lemma batch_of_ok_json (c : Listing) (records : list PyVal) :
  batch_of (list_method c) (ok_json (PList records)) = Some records.
Proof.
  unfold batch_of, envelope. cbn [ok_json http_ok http_status_code http_json].
  rewrite list_method_not_delete. reflexivity.
Qed.

Lemma list_request_fields (c : Listing) rest_client (page_size page : Z) :
  request_field "page" (list_request c rest_client page_size page) = Some (PInt page)
  /\ request_field "page_size" (list_request c rest_client page_size page)
     = Some (PInt page_size).
Proof. destruct c; split; reflexivity. Qed.

Lemma paginated_answer (c : Listing) rest_client (records : list PyVal)
    (history : list HttpRequest) (page_size page : Z) :
  paginated records history (list_request c rest_client page_size page) =
  ok_json (PList (firstn (Z.to_nat page_size)
                    (skipn (Z.to_nat ((page - 1) * page_size)) records))).
Proof.
  unfold paginated. destruct (list_request_fields c rest_client page_size page) as [-> ->].
  reflexivity.
Qed.

(** One turn of the loop over a response that carries a batch. *)
Lemma paging_loop_step_batch rest_client method endpoint query body limit page_size
    (fuel : nat) (page yc : Z) (w : World) (records : list PyVal) :
  let rq := paging_request rest_client method endpoint query body page in
  let rs := network w (sent (trace w)) rq in
  batch_of method rs = Some records ->
  paging_loop rest_client method endpoint query body limit page_size (S fuel) page yc w =
    let w' := add_events (segment (rq, rs, taken limit records yc)) w in
    if short records page_size || hit limit records yc then (Return tt, w')
    else paging_loop rest_client method endpoint query body limit page_size
           fuel (page + 1) (yc + Z.of_nat (List.length records)) w'.
Proof.
  intros rq rs Hb. rewrite paging_loop_step. cbv zeta. fold rq. fold rs.
  unfold batch_of in Hb.
  destruct (envelope method rs) as [response | e]; [| discriminate].
  destruct (py_iter (data response)) as [b | e]; [| discriminate].
  now injection Hb as ->.
Qed.

Lemma hit_unlimited (records : list PyVal) (yc : Z) : hit None records yc = false.
Proof. revert yc. induction records; intros; simpl; auto. Qed.

(** Without a limit, against the paging service: the loop that starts at
    a page followed by [n] full pages and nothing more turns [n] full
    pages and then one empty page. *)
Lemma paginated_full_pages (c : Listing) rest_client (records : list PyVal)
    (n extra : nat) (page yc : Z) (w : World) :
  network w = paginated records ->
  1 <= page ->
  List.length (skipn (Z.to_nat ((page - 1) * 100)) records) = (100 * n)%nat ->
  exists (init : list Seg) (rq : HttpRequest) (rs : HttpResponse),
    paging_loop rest_client (list_method c) (list_endpoint c)
      (list_query c 100) (list_body c 100) None 100 (S n + extra) page yc w
    = (Return tt, add_events (render init ++ [Exchange rq rs]) w)
    /\ List.length init = n
    /\ yielded (render init) = skipn (Z.to_nat ((page - 1) * 100)) records
    /\ Forall (fun s => List.length (seg_yields s) = 100%nat) init
    /\ (map seg_request init ++ [rq])%list
       = map (list_request c rest_client 100) (pages_from page (S n))
    /\ batch_of (list_method c) rs = Some [].
Proof.
  revert page yc w. induction n as [| n IH]; intros page yc w Hnet Hpage Hlen;
    set (rest := skipn (Z.to_nat ((page - 1) * 100)) records) in *;
    set (batch := firstn 100 rest);
    assert (Hb : batch_of (list_method c)
                   (network w (sent (trace w))
                      (paging_request rest_client (list_method c) (list_endpoint c)
                         (list_query c 100) (list_body c 100) page))
                 = Some batch)
      by (change (paging_request rest_client (list_method c) (list_endpoint c)
                    (list_query c 100) (list_body c 100) page)
            with (list_request c rest_client 100 page);
          rewrite Hnet, paginated_answer; apply batch_of_ok_json).
  - change (1 + 0 + extra)%nat with (S extra).
    rewrite (paging_loop_step_batch _ _ _ _ _ _ _ _ _ _ _ _ Hb). cbv zeta.
    apply length_zero_iff_nil in Hlen.
    assert (E : batch = []) by (unfold batch; now rewrite Hlen).
    rewrite E in *. cbn [short orb taken segment fst snd map].
    exists []. do 2 eexists. split; [reflexivity |].
    split; [reflexivity |]. split; [now rewrite Hlen |].
    split; [constructor |]. split; [reflexivity | exact Hb].
  - assert (Hbl : List.length batch = 100%nat).
    { unfold batch. rewrite length_firstn. lia. }
    assert (Hnext : skipn (Z.to_nat ((page + 1 - 1) * 100)) records = skipn 100 rest).
    { unfold rest. rewrite skipn_skipn. f_equal. lia. }
    change (S (S n) + extra)%nat with (S (S n + extra)).
    rewrite (paging_loop_step_batch _ _ _ _ _ _ _ _ _ _ _ _ Hb). cbv zeta.
    assert (Hshort : short batch 100 = false).
    { apply short_false. split; [| lia]. intros E. rewrite E in Hbl. discriminate. }
    rewrite Hshort, hit_unlimited. cbn [orb].
    rewrite (taken_all _ _ _ (hit_unlimited batch yc)).
    set (s := (_, _, batch)). set (w1 := add_events _ w).
    destruct (IH (page + 1) (yc + Z.of_nat (List.length batch)) w1)
      as (init & rq & rs & Hrun & Hn & Hy & Hfull & Hreq & Hempty).
    + exact Hnet.
    + lia.
    + rewrite Hnext, length_skipn. fold rest. lia.
    + exists (s :: init), rq, rs.
      rewrite Hrun. unfold w1. rewrite add_events_app.
      rewrite render_cons, <- app_assoc.
      repeat split.
      * cbn [List.length]. now rewrite Hn.
      * rewrite yielded_app. unfold s. cbn [segment yielded snd].
        rewrite yielded_map_Yield, Hy, Hnext. apply firstn_skipn.
      * constructor; assumption.
      * unfold s. cbn [map app pages_from seg_request fst]. f_equal. exact Hreq.
      * exact Hempty.
Qed.

Lemma yielded_since_render (w w' : World) (segs : list Seg) :
  trace w' = (trace w ++ render segs)%list ->
  yielded_since w w' = 0 + Z.of_nat (List.length (List.concat (map seg_yields segs))).
Proof.
  intros H. unfold yielded_since.
  rewrite H, yielded_app, length_app, yielded_render. lia.
Qed.

Lemma not_ended_by_limit (limit : option Z) (w w' : World) (segs : list Seg) :
  trace w' = (trace w ++ render segs)%list ->
  yielded_since w w' = 0 \/ limit_reached limit (yielded_since w w') = false ->
  List.concat (map seg_yields segs) = []
  \/ limit_reached limit (0 + Z.of_nat (List.length (List.concat (map seg_yields segs))))
     = false.
Proof.
  intros Ht H. rewrite (yielded_since_render _ _ _ Ht) in H.
  destruct H as [H | H]; [left | now right].
  destruct (List.concat (map seg_yields segs)); [reflexivity | discriminate].
Qed.

(* ------------------------------------------------------------------ *)
(** * C4: the transport *)

Lemma string_app_assoc (a b c : string) : (a ++ b) ++ c = a ++ b ++ c.
Proof. induction a as [| x a IH]; simpl; congruence. Qed.









(* ------------------------------------------------------------------ *)
(** * C5: validation comes before the request *)

Lemma str_in_keys (key : string) (entries : list (string * PyVal)) :
  str_in key (map (fun kv => PStr (fst kv)) entries) = has_key key entries.
Proof.
  unfold str_in, has_key. induction entries as [| [k v] entries IH]; [reflexivity |].
  cbn [map existsb assoc fst is_str]. destruct (String.eqb key k); [reflexivity | exact IH].
Qed.

Lemma keys_subset_dict (keys : list string) (entries : list (string * PyVal)) :
  keys_subset keys (map (fun kv => PStr (fst kv)) entries) = has_keys keys entries.
Proof.
  unfold keys_subset, has_keys. induction keys as [| k keys IH]; [reflexivity |].
  cbn [forallb]. now rewrite str_in_keys, IH.
Qed.

Lemma py_set_dict (entries : list (string * PyVal)) :
  py_set (PDict entries) = Ok (map (fun kv => PStr (fst kv)) entries).
Proof.
  unfold py_set. cbn [py_iter].
  replace (forallb hashable (map (fun kv => PStr (fst kv)) entries)) with true;
    [reflexivity |].
  induction entries as [| kv entries IH]; [reflexivity | exact IH].
Qed.

Lemma all_have_keys_dicts (keys : list string) (rows : list (list (string * PyVal))) :
  all_have_keys keys (map PDict rows) = Ok (forallb (has_keys keys) rows).
Proof.
  induction rows as [| row rows IH]; [reflexivity |].
  cbn [map all_have_keys forallb]. rewrite py_set_dict, keys_subset_dict.
  destruct (has_keys keys row); [exact IH | reflexivity].
Qed.

Lemma has_key_app (key : string) (entries extra : list (string * PyVal)) :
  has_key key entries = true ->
  has_key key (entries ++ extra) = true /\ has_key key (extra ++ entries) = true.
Proof.
  unfold has_key. intros H. split.
  - induction entries as [| [k v] entries IH]; [discriminate |].
    cbn [app assoc] in *. destruct (String.eqb key k); [reflexivity | now apply IH].
  - induction extra as [| [k v] extra IH]; [exact H |].
    cbn [app assoc]. destruct (String.eqb key k); [reflexivity | exact IH].
Qed.

Lemma has_keys_app (keys : list string) (entries extra : list (string * PyVal)) :
  has_keys keys entries = true ->
  has_keys keys (entries ++ extra) = true /\ has_keys keys (extra ++ entries) = true.
Proof.
  unfold has_keys. rewrite !forallb_forall. intros H.
  split; intros k Hk; now apply (has_key_app k entries extra (H k Hk)).
Qed.

Lemma validate_create_dict (k : Kind) (entries : list (string * PyVal)) :
  validate_create k (PDict entries) =
  if has_keys (required_keys k) entries then Ok tt
  else Err (ValidationError
              match k with
              | Entity => "organization_id is required to create an entity object"
              | DataSource =>
                  "organization_id and timestamp is required to create a datasource object"
              end).
Proof.
  destruct k; cbn [validate_create required_keys];
    unfold ValidateEntity.create, ValidateDataSource.create;
    rewrite py_set_dict, keys_subset_dict;
    now destruct (has_keys _ entries).
Qed.

Lemma validate_upsert_dicts (k : Kind) (rows : list (list (string * PyVal))) :
  validate_upsert k (PList (map PDict rows)) =
  if forallb (has_keys (required_keys k)) rows then Ok tt
  else Err (ValidationError
              match k with
              | Entity => "organization_id is required to create an entity object"
              | DataSource =>
                  "organization_id and timestamp is required to create a datasource object"
              end).
Proof.
  destruct k; cbn [validate_upsert required_keys];
    unfold ValidateEntity.upsert, ValidateDataSource.upsert;
    rewrite all_have_keys_dicts;
    now destruct (forallb _ rows).
Qed.

Lemma create_invalid (k : Kind) rest_client name data e w :
  validate_create k data = Err e -> create k rest_client name data w = (Raise e, w).
Proof.
  destruct k; cbn [validate_create create]; intros H;
    unfold Entities.create, DataSources.create, bind; now rewrite H.
Qed.

Lemma upsert_invalid (k : Kind) rest_client name data truncate e w :
  validate_upsert k data = Err e ->
  upsert k rest_client name data truncate w = (Raise e, w).
Proof.
  destruct k; cbn [validate_upsert upsert]; intros H;
    unfold Entities.upsert, DataSources.upsert, bind; now rewrite H.
Qed.

(** C5. For an entity (required key [organization_id]) and for a
    datasource (required keys [organization_id] and [timestamp]): a
    dictionary that lacks a required key makes [create] raise
    [ValidationError], and a list of dictionaries one of which lacks a
    required key makes [upsert] raise [ValidationError], in both cases
    with the world as it was, so with no request sent; a dictionary that
    has the required keys passes the validation of [create], whatever
    other keys it has, and a list of such dictionaries passes that of
    [upsert]; and an argument of [upsert] that is not a list raises
    [ValidationError] with no request sent. *)
Theorem writes_validate_before_sending :
  forall (k : Kind) (rest_client : BoardsOnFireClient) (name : string)
         (truncate : bool) (w : World),
    (forall entries : list (string * PyVal),
       has_keys (required_keys k) entries = false ->
       exists msg,
         create k rest_client name (PDict entries) w = (Raise (ValidationError msg), w))
    /\ (forall rows : list (list (string * PyVal)),
          forallb (has_keys (required_keys k)) rows = false ->
          exists msg,
            upsert k rest_client name (PList (map PDict rows)) truncate w
            = (Raise (ValidationError msg), w))
    /\ (forall entries extra : list (string * PyVal),
          has_keys (required_keys k) entries = true ->
          validate_create k (PDict entries) = Ok tt
          /\ validate_create k (PDict (entries ++ extra)) = Ok tt
          /\ validate_create k (PDict (extra ++ entries)) = Ok tt)
    /\ (forall rows : list (list (string * PyVal)),
          forallb (has_keys (required_keys k)) rows = true ->
          validate_upsert k (PList (map PDict rows)) = Ok tt)
    /\ (forall data : PyVal,
          is_list data = false ->
          upsert k rest_client name data truncate w
          = (Raise (ValidationError "Data must be a list of dictionaries"), w)).
Proof.
  intros k rest_client name truncate w. repeat split.
  - intros entries H. eexists. apply create_invalid.
    rewrite validate_create_dict, H. reflexivity.
  - intros rows H. eexists. apply upsert_invalid.
    rewrite validate_upsert_dicts, H. reflexivity.
  - rewrite validate_create_dict. now rewrite H.
  - rewrite validate_create_dict.
    now rewrite (proj1 (has_keys_app _ _ extra H)).
  - rewrite validate_create_dict.
    now rewrite (proj2 (has_keys_app _ _ extra H)).
  - intros rows H. rewrite validate_upsert_dicts. now rewrite H.
  - intros data H. apply upsert_invalid.
    destruct k, data; try discriminate; reflexivity.
Qed.

(** The payload of the test suite that lacks [organization_id], as a
    run of C5. *)
Lemma writes_validate_before_sending_witness :
  let w := fresh_world (scripted []) in
  exists msg,
    create Entity example_client "test_entity"
      (PDict [("name", PStr "Example");
              ("description", PStr "This is an example entity");
              ("value", PInt 100)]) w
    = (Raise (ValidationError msg), w).
Proof.
  intros w.
  apply (proj1 (writes_validate_before_sending Entity example_client "test_entity" false w)).
  reflexivity.
Defined.

(* ------------------------------------------------------------------ *)
(** * C6: the page size of a single-page listing *)

(** Whatever its end, the loop only sends requests for consecutive
    pages and yields records: it logs nothing. *)
Lemma paging_loop_events rest_client method endpoint query body limit page_size
    (fuel : nat) (page yc : Z) (w : World) :
  exists (t : list Event) (n : nat),
    snd (paging_loop rest_client method endpoint query body limit page_size fuel page yc w)
    = add_events t w
    /\ warnings t = []
    /\ sent t = map (paging_request rest_client method endpoint query body)
                  (pages_from page n).
Proof.
  revert page yc w. induction fuel as [| fuel IH]; intros page yc w.
  - exists [], O. cbn [paging_loop out_of_fuel snd]. now rewrite add_events_nil.
  - rewrite paging_loop_step. cbv zeta.
    set (rq := paging_request rest_client method endpoint query body page).
    set (rs := network w (sent (trace w)) rq).
    destruct (envelope method rs) as [response | e];
      [| exists [Exchange rq rs], 1%nat; repeat split].
    destruct (py_iter (data response)) as [records | e];
      [| exists [Exchange rq rs], 1%nat; repeat split].
    assert (Hw : warnings (segment (rq, rs, taken limit records yc)) = []).
    { cbn [segment warnings snd]. apply warnings_map_Yield. }
    assert (Hs : sent (segment (rq, rs, taken limit records yc)) = [rq]).
    { cbn [segment sent fst snd]. now rewrite sent_map_Yield. }
    destruct (short records page_size || hit limit records yc).
    + exists (segment (rq, rs, taken limit records yc)), 1%nat. repeat split; assumption.
    + destruct (IH (page + 1) (yc + Z.of_nat (List.length records))
                  (add_events (segment (rq, rs, taken limit records yc)) w))
        as (t & n & Ht & Hwt & Hst).
      exists (segment (rq, rs, taken limit records yc) ++ t)%list, (S n).
      rewrite Ht, add_events_app. repeat split.
      * now rewrite warnings_app, Hw, Hwt.
      * rewrite sent_app, Hs, Hst. reflexivity.
Qed.

Lemma list_all_events (c : Listing) rest_client limit fuel w :
  exists (t : list Event) (n : nat),
    snd (list_all c rest_client limit fuel w) = add_events t w
    /\ warnings t = []
    /\ sent t = map (list_request c rest_client (initial_page_size limit))
                  (pages_from 1 n).
Proof.
  rewrite list_all_paging. apply paging_loop_events.
Qed.

(** A request whose answer is returned as it is. *)
Lemma send_and_return_data_run (self : BoardsOnFireClient) (method endpoint : string)
    (params body : PyVal) (w : World) :
  let rq := request_of self method endpoint params body [] in
  let rs := network w (sent (trace w)) rq in
  bind (_send_request self method endpoint params body [])
       (fun response => ret (data response)) w
  = (match envelope method rs with
     | Ok response => Return (data response)
     | Err e => Raise e
     end,
     add_events [Exchange rq rs] w).
Proof.
  intros rq rs. unfold bind. rewrite _send_request_run. fold rq. fold rs.
  now destruct (envelope method rs).
Qed.

Lemma clamp_page_size_run (page_size : Z) (w : World) :
  clamp_page_size page_size w =
  (Return (if page_size >? MAX_PAGE_SIZE then MAX_PAGE_SIZE else page_size),
   add_events (if page_size >? MAX_PAGE_SIZE then [Warning page_size_warning] else []) w).
Proof.
  unfold clamp_page_size. destruct (page_size >? MAX_PAGE_SIZE).
  - reflexivity.
  - unfold ret. now rewrite add_events_nil.
Qed.

(** A single-page listing: the warning if any, then one exchange. *)
Lemma list_page_run (c : Listing) rest_client (page_size page : Z) (w : World) :
  let size := if page_size >? MAX_PAGE_SIZE then MAX_PAGE_SIZE else page_size in
  let rq := list_request c rest_client size page in
  let rs := network w (sent (trace w)) rq in
  list_page c rest_client page_size page w =
    (match envelope (list_method c) rs with
     | Ok response => Return (data response)
     | Err e => Raise e
     end,
     add_events ((if page_size >? MAX_PAGE_SIZE then [Warning page_size_warning] else [])
                 ++ [Exchange rq rs]) w).
Proof.
  intros size rq rs. subst size rq rs.
  assert (Hsent : sent (trace w ++ (if page_size >? MAX_PAGE_SIZE
                                    then [Warning page_size_warning] else []))
                  = sent (trace w)).
  { rewrite sent_app. destruct (page_size >? MAX_PAGE_SIZE); apply app_nil_r. }
  destruct c; cbn [list_page]; unfold Organizations.list, Users.list, Entities.list,
    DataSources.list, _get, _post;
    unfold bind at 1; rewrite clamp_page_size_run;
    rewrite send_and_return_data_run;
    cbn [add_events trace network]; rewrite Hsent, add_events_app;
    reflexivity.
Qed.

Lemma lift_run {A} (r : Result A) (w : World) :
  lift r w = (match r with Ok a => Return a | Err e => Raise e end, w).
Proof. now destruct r. Qed.

(** The events of one request. *)
Ltac one_exchange :=
  cbv zeta; rewrite ?add_event_events; cbn [snd]; eexists; split; reflexivity.

(** What any call adds to the trace, as far as warnings go. *)
Lemma invoke_warnings (call : Call) (rest_client : BoardsOnFireClient) (fuel : nat)
    (w : World) :
  exists t : list Event,
    snd (invoke call rest_client fuel w) = add_events t w
    /\ warnings t = if oversized call then [page_size_warning] else [].
Proof.
  destruct call as [c page_size page | c limit | id | id | name id | name id
                    | k name id data | k name data | k name data truncate | k name id];
    cbn [invoke oversized].
  - rewrite list_page_run. cbv zeta. cbn [snd]. eexists. split; [reflexivity |].
    rewrite warnings_app. now destruct (page_size >? MAX_PAGE_SIZE).
  - destruct (list_all_events c rest_client limit fuel w) as (t & n & Ht & Hw & _).
    exists t. split; [| exact Hw]. rewrite <- Ht. unfold bind.
    now destruct (list_all c rest_client limit fuel w) as [[[] | e |] w'].
  - unfold Organizations.get, _get. rewrite send_and_return_data_run. one_exchange.
  - unfold Users.get, _get. rewrite send_and_return_data_run. one_exchange.
  - unfold Entities.get, _get. rewrite send_and_return_data_run. one_exchange.
  - unfold DataSources.get, _get. rewrite send_and_return_data_run. one_exchange.
  - destruct k; unfold Entities.update, DataSources.update, _patch;
      rewrite send_and_return_data_run; one_exchange.
  - destruct k; cbn [create]; unfold Entities.create, DataSources.create, _post;
      unfold bind at 1; rewrite lift_run;
      match goal with |- context [match ?v with Ok _ => _ | Err _ => _ end] =>
        destruct v end;
      try (exists []; now rewrite add_events_nil);
      rewrite send_and_return_data_run; one_exchange.
  - destruct k; cbn [upsert]; unfold Entities.upsert, DataSources.upsert, _post;
      unfold bind at 1; rewrite lift_run;
      match goal with |- context [match ?v with Ok _ => _ | Err _ => _ end] =>
        destruct v end;
      try (exists []; now rewrite add_events_nil);
      rewrite send_and_return_data_run; one_exchange.
  - destruct k; unfold Entities.delete, DataSources.delete, _delete, bind;
      rewrite _send_request_run;
      match goal with |- context [envelope ?m ?r] => destruct (envelope m r) end;
      one_exchange.
Qed.

(** C6. A single-page listing, on any of the four collections, that asks
    for more than 500 records per page logs the warning and then sends
    the request it would send for 500 records per page, with
    [page_size] 500 among its paging fields; nothing else differs from
    a listing that asks for 500, so it raises only what the response to
    that request makes it raise. And of all the calls the collections
    offer, such a listing is the only one that logs a warning: any other
    call logs none, whatever its arguments and its end. *)
Theorem oversized_page_size_is_clamped :
  (forall (c : Listing) (rest_client : BoardsOnFireClient) (page_size page : Z) (w : World),
     page_size > MAX_PAGE_SIZE ->
     let rq := list_request c rest_client MAX_PAGE_SIZE page in
     let rs := network w (sent (trace w)) rq in
     list_page c rest_client page_size page w
     = (match envelope (list_method c) rs with
        | Ok response => Return (data response)
        | Err e => Raise e
        end,
        add_events [Warning page_size_warning; Exchange rq rs] w)
     /\ list_page c rest_client page_size page w
        = list_page c rest_client MAX_PAGE_SIZE page
            (add_events [Warning page_size_warning] w)
     /\ request_field "page_size" rq = Some (PInt 500))
  /\ (forall (call : Call) (rest_client : BoardsOnFireClient) (fuel : nat) (w : World),
        exists t : list Event,
          snd (invoke call rest_client fuel w) = add_events t w
          /\ warnings t = if oversized call then [page_size_warning] else []).
Proof.
  split; [| exact invoke_warnings].
  intros c rest_client page_size page w H rq rs.
  assert (E : (page_size >? MAX_PAGE_SIZE) = true) by (apply Z.gtb_lt; lia).
  rewrite !list_page_run. cbv zeta. rewrite E.
  change (MAX_PAGE_SIZE >? MAX_PAGE_SIZE) with false.
  cbn [app add_events trace network]. rewrite sent_app. cbn [sent].
  rewrite app_nil_r. fold rq. fold rs.
  split; [reflexivity |]. split.
  - f_equal. unfold add_events. cbn [trace network]. now rewrite <- app_assoc.
  - apply list_request_fields.
Qed.

(** The listing of the spec's example, [page_size=1000], as a run of C6. *)
Lemma oversized_page_size_is_clamped_witness :
  let c := ListOrganizations None "ASC" in
  let w := fresh_world (scripted [[PInt 1]]) in
  let rq := list_request c example_client 500 1 in
  list_page c example_client 1000 1 w
  = (Return (PList [PInt 1]),
     add_events [Warning page_size_warning; Exchange rq (ok_json (PList [PInt 1]))] w)
  /\ request_field "page_size" rq = Some (PInt 500).
Proof.
  intros c w rq.
  destruct (proj1 oversized_page_size_is_clamped c example_client 1000 1 w)
    as (H1 & _ & H3).
  - reflexivity.
  - split; [exact H1 | exact H3].
Defined.

(* ------------------------------------------------------------------ *)
(** * C7: where the listings of entities and datasources put their fields *)

(** With fuel for one turn the loop sends at least the request for its
    first page, and then requests for the pages that follow only. *)
Lemma paging_loop_sends_first rest_client method endpoint query body limit page_size
    (fuel : nat) (page yc : Z) (w : World) :
  exists (t : list Event) (n : nat),
    snd (paging_loop rest_client method endpoint query body limit page_size
           (S fuel) page yc w)
    = add_events t w
    /\ sent t = map (paging_request rest_client method endpoint query body)
                  (pages_from page (S n)).
Proof.
  rewrite paging_loop_step. cbv zeta.
  set (rq := paging_request rest_client method endpoint query body page).
  set (rs := network w (sent (trace w)) rq).
  destruct (envelope method rs) as [response | e];
    [| exists [Exchange rq rs], O; split; reflexivity].
  destruct (py_iter (data response)) as [records | e];
    [| exists [Exchange rq rs], O; split; reflexivity].
  assert (Hs : sent (segment (rq, rs, taken limit records yc)) = [rq]).
  { cbn [segment sent fst snd]. now rewrite sent_map_Yield. }
  destruct (short records page_size || hit limit records yc).
  - exists (segment (rq, rs, taken limit records yc)), O. split; [reflexivity | exact Hs].
  - destruct (paging_loop_events rest_client method endpoint query body limit page_size
                fuel (page + 1) (yc + Z.of_nat (List.length records))
                (add_events (segment (rq, rs, taken limit records yc)) w))
      as (t & n & Ht & _ & Hst).
    exists (segment (rq, rs, taken limit records yc) ++ t)%list, n.
    rewrite Ht, add_events_app. split; [reflexivity |].
    rewrite sent_app, Hs, Hst. reflexivity.
Qed.

Lemma list_all_sends_first (c : Listing) rest_client limit fuel w :
  exists (t : list Event) (n : nat),
    snd (list_all c rest_client limit (S fuel) w) = add_events t w
    /\ sent t = map (list_request c rest_client (initial_page_size limit))
                  (pages_from 1 (S n)).
Proof.
  rewrite list_all_paging. apply paging_loop_sends_first.
Qed.

(** C7, as amended. [Entities.list] and [Entities.list_all] send a POST
    to [entities/<name>/entityobjects/list] whose query parameters are
    the dictionary of [page_size], [page], [order], [group], [filter]
    and [target_organization_ids], and which has no body;
    [DataSources.list] and [DataSources.list_all] send a POST to
    [datasources/<name>/dataobjects/list] whose body is that dictionary,
    and which has no query parameters. A [list] sends one such request,
    with the page size it was given or 500 if that is less; a
    [list_all] that takes a turn sends at least one such request, the
    first for page 1, and such requests only, for the pages 1, 2, 3,
    ... in turn. *)
Theorem filter_listings_post_to_list :
  forall (rest_client : BoardsOnFireClient) (name : string) (organizations : list string)
         (order group filter : option string) (w : World),
    let entities_request := fun page_size page =>
      {| req_method := "POST";
         req_url := _url rest_client ++ "entities/" ++ name ++ "/entityobjects/list";
         req_headers := [("x-api-key", _api_key rest_client)];
         req_params := filter_params page_size page order group filter organizations;
         req_json := PNone |} in
    let datasources_request := fun page_size page =>
      {| req_method := "POST";
         req_url := _url rest_client ++ "datasources/" ++ name ++ "/dataobjects/list";
         req_headers := [("x-api-key", _api_key rest_client)];
         req_params := PNone;
         req_json := filter_params page_size page order group filter organizations |} in
    (forall page_size page : Z,
       exists t,
         snd (Entities.list rest_client name organizations page_size page
                order group filter w) = add_events t w
         /\ sent t = [entities_request
                        (if page_size >? MAX_PAGE_SIZE then MAX_PAGE_SIZE else page_size)
                        page])
    /\ (forall page_size page : Z,
          exists t,
            snd (DataSources.list rest_client name organizations page_size page
                   order group filter w) = add_events t w
            /\ sent t = [datasources_request
                           (if page_size >? MAX_PAGE_SIZE then MAX_PAGE_SIZE else page_size)
                           page])
    /\ (forall (limit : option Z) (fuel : nat),
          exists t n,
            snd (Entities.list_all rest_client name limit organizations
                   order group filter (S fuel) w) = add_events t w
            /\ sent t = map (entities_request (initial_page_size limit))
                          (pages_from 1 (S n)))
    /\ (forall (limit : option Z) (fuel : nat),
          exists t n,
            snd (DataSources.list_all rest_client name limit organizations
                   order group filter (S fuel) w) = add_events t w
            /\ sent t = map (datasources_request (initial_page_size limit))
                          (pages_from 1 (S n))).
Proof.
  intros rest_client name organizations order group filter w er dr. repeat split.
  - intros page_size page.
    pose proof (list_page_run (ListEntities name organizations order group filter)
                  rest_client page_size page w) as H.
    cbv zeta in H. cbn [list_page] in H. rewrite H. cbn [snd].
    eexists. split; [reflexivity |]. rewrite sent_app.
    now destruct (page_size >? MAX_PAGE_SIZE).
  - intros page_size page.
    pose proof (list_page_run (ListDataSources name organizations order group filter)
                  rest_client page_size page w) as H.
    cbv zeta in H. cbn [list_page] in H. rewrite H. cbn [snd].
    eexists. split; [reflexivity |]. rewrite sent_app.
    now destruct (page_size >? MAX_PAGE_SIZE).
  - intros limit fuel.
    destruct (list_all_sends_first (ListEntities name organizations order group filter)
                rest_client limit fuel w) as (t & n & Ht & Hs).
    exists t, n. split; [exact Ht | exact Hs].
  - intros limit fuel.
    destruct (list_all_sends_first (ListDataSources name organizations order group filter)
                rest_client limit fuel w) as (t & n & Ht & Hs).
    exists t, n. split; [exact Ht | exact Hs].
Qed.

(** The request of [Entities.list] has no body. *)
Lemma entities_list_sends_no_body : ~ filter_listings_send_a_body.
Proof.
  intros H.
  destruct (H example_client "widget" [] 100 1 None None None
              (fresh_world (scripted [])) ltac:(discriminate))
    as [(rq & rs & Hrun & Hjson) _].
  pose proof (list_page_run (ListEntities "widget" [] None None None)
                example_client 100 1 (fresh_world (scripted []))) as Hp.
  cbv zeta in Hp. cbn [list_page] in Hp. rewrite Hp in Hrun. cbn [snd] in Hrun.
  apply (f_equal trace) in Hrun. cbn [add_events trace fresh_world app] in Hrun.
  change (100 >? MAX_PAGE_SIZE) with false in Hrun. cbn [app] in Hrun.
  injection Hrun as Hrq _. rewrite <- Hrq in Hjson. discriminate Hjson.
Qed.

(* ------------------------------------------------------------------ *)
(** * C8: the body of an upsert *)

(** C8. An [Entities.upsert] whose argument passes the validation sends
    one POST to [entities/<name>/entityobjects/import] with the body
    [{"entity_objects": data, "delete_others": truncate}]. A
    [DataSources.upsert], which has no [truncate] argument, sends one
    POST to [datasources/<name>/dataobjects/import] whose body is the
    list it was given, so a body without [delete_others]. Either
    returns the payload of the response. *)
Theorem upsert_posts_to_import :
  forall (rest_client : BoardsOnFireClient) (name : string) (data : PyVal)
         (truncate : bool) (w : World),
    (ValidateEntity.upsert data = Ok tt ->
     let rq := {| req_method := "POST";
                  req_url := _url rest_client ++ "entities/" ++ name
                             ++ "/entityobjects/import";
                  req_headers := [("x-api-key", _api_key rest_client)];
                  req_params := PNone;
                  req_json := PDict [("entity_objects", data);
                                     ("delete_others", PBool truncate)] |} in
     let rs := network w (sent (trace w)) rq in
     Entities.upsert rest_client name data truncate w
     = (match envelope "POST" rs with
        | Ok response => Return (response_data response)
        | Err e => Raise e
        end,
        add_events [Exchange rq rs] w))
    /\ (ValidateDataSource.upsert data = Ok tt ->
        let rq := {| req_method := "POST";
                     req_url := _url rest_client ++ "datasources/" ++ name
                                ++ "/dataobjects/import";
                     req_headers := [("x-api-key", _api_key rest_client)];
                     req_params := PNone;
                     req_json := data |} in
        let rs := network w (sent (trace w)) rq in
        DataSources.upsert rest_client name data w
        = (match envelope "POST" rs with
           | Ok response => Return (response_data response)
           | Err e => Raise e
           end,
           add_events [Exchange rq rs] w)
        /\ is_list (req_json rq) = true
        /\ dict_get "delete_others" (req_json rq) = None).
Proof.
  intros rest_client name data truncate w. split.
  - intros Hv rq rs. unfold Entities.upsert, _post. unfold bind at 1.
    rewrite lift_run, Hv. apply send_and_return_data_run.
  - intros Hv rq rs. split; [| split].
    + unfold DataSources.upsert, _post. unfold bind at 1.
      rewrite lift_run, Hv. apply send_and_return_data_run.
    + cbn [rq req_json]. now destruct data.
    + cbn [rq req_json]. now destruct data.
Qed.

(** An upsert of one entity object with [truncate=True], as a run of C8. *)
Lemma upsert_posts_to_import_witness :
  let rows := PList [PDict [("organization_id", PStr "123456")]] in
  let w := fresh_world (scripted []) in
  let rq := {| req_method := "POST";
               req_url := _url example_client ++ "entities/" ++ "widget"
                          ++ "/entityobjects/import";
               req_headers := [("x-api-key", _api_key example_client)];
               req_params := PNone;
               req_json := PDict [("entity_objects", rows);
                                  ("delete_others", PBool true)] |} in
  let rs := network w (sent (trace w)) rq in
  Entities.upsert example_client "widget" rows true w
  = (match envelope "POST" rs with
     | Ok response => Return (data response)
     | Err e => Raise e
     end,
     add_events [Exchange rq rs] w).
Proof.
  intros rows w.
  apply (proj1 (upsert_posts_to_import example_client "widget" rows true w)).
  reflexivity.
Defined.

(* ------------------------------------------------------------------ *)
(** * C9: creating an entity object *)

(** C9. [Entities.create("widget", {"organization_id": "123456",
    "name": "X"})], on any client and against any remote service, sends
    exactly one request: a POST to the endpoint
    [entities/widget/entityobjects] with that dictionary as its body and
    no query parameters; and when the response is a success whose body
    decodes, it returns the decoded body as it is. *)
Theorem create_widget_posts_payload :
  forall (rest_client : BoardsOnFireClient) (w : World),
    let payload := PDict [("organization_id", PStr "123456"); ("name", PStr "X")] in
    let rq := {| req_method := "POST";
                 req_url := _url rest_client ++ "entities/widget/entityobjects";
                 req_headers := [("x-api-key", _api_key rest_client)];
                 req_params := PNone;
                 req_json := payload |} in
    let rs := network w (sent (trace w)) rq in
    snd (Entities.create rest_client "widget" payload w) = add_events [Exchange rq rs] w
    /\ (forall decoded : PyVal,
          http_ok rs = true -> http_json rs = Some decoded ->
          fst (Entities.create rest_client "widget" payload w) = Return decoded).
Proof.
  intros rest_client w payload rq rs.
  assert (H : Entities.create rest_client "widget" payload w
              = (match envelope "POST" rs with
                 | Ok response => Return (data response)
                 | Err e => Raise e
                 end,
                 add_events [Exchange rq rs] w)).
  { unfold Entities.create, _post. unfold bind at 1. rewrite lift_run.
    change (ValidateEntity.create payload) with (Ok tt).
    apply send_and_return_data_run. }
  rewrite H. cbn [fst snd]. split; [reflexivity |].
  intros decoded Hok Hjson. unfold envelope. rewrite Hok, Hjson. reflexivity.
Qed.

(** A service that answers with the created object, as a run of C9. *)
Lemma create_widget_posts_payload_witness :
  let created := PDict [("id", PStr "1"); ("name", PStr "X")] in
  let w := fresh_world (fun _ _ => ok_json created) in
  fst (Entities.create example_client "widget"
         (PDict [("organization_id", PStr "123456"); ("name", PStr "X")]) w)
  = Return created.
Proof.
  intros created w.
  apply (proj2 (create_widget_posts_payload example_client w) created); reflexivity.
Defined.

(* ------------------------------------------------------------------ *)
(** * C10: the limit 0 *)

Lemma limit_zero_never_reached (n : Z) : limit_reached (Some 0) n = false.
Proof. reflexivity. Qed.

Lemma taken_limit_zero (records : list PyVal) (yc : Z) :
  taken (Some 0) records yc = taken None records yc.
Proof.
  revert yc. induction records as [| r rest IH]; intros yc; [reflexivity |].
  cbn [taken]. rewrite limit_zero_never_reached. cbn [limit_reached]. now rewrite IH.
Qed.

Lemma hit_limit_zero (records : list PyVal) (yc : Z) :
  hit (Some 0) records yc = hit None records yc.
Proof.
  revert yc. induction records as [| r rest IH]; intros yc; [reflexivity |].
  cbn [hit]. rewrite limit_zero_never_reached. cbn [limit_reached]. now rewrite IH.
Qed.

Lemma paging_loop_limit_zero rest_client method endpoint query body page_size
    (fuel : nat) (page yc : Z) (w : World) :
  paging_loop rest_client method endpoint query body (Some 0) page_size fuel page yc w
  = paging_loop rest_client method endpoint query body None page_size fuel page yc w.
Proof.
  revert page yc w. induction fuel as [| fuel IH]; intros page yc w; [reflexivity |].
  rewrite !paging_loop_step. cbv zeta.
  destruct (envelope method _) as [response | e]; [| reflexivity].
  destruct (py_iter (data response)) as [records | e]; [| reflexivity].
  rewrite taken_limit_zero, hit_limit_zero.
  destruct (short records page_size || hit None records yc); [reflexivity | apply IH].
Qed.

(* ------------------------------------------------------------------ *)
(** * Further properties: the headers of a request *)

Lemma header_lookup_dict_set (key k v : string) (d : Headers) :
  header_lookup key (dict_set k v d)
  = if String.eqb key k then Some v else header_lookup key d.
Proof.
  induction d as [| [k' v'] d IH]; cbn [dict_set header_lookup].
  - reflexivity.
  - destruct (String.eqb_spec k k') as [-> | Hk]; cbn [header_lookup].
    + now destruct (String.eqb key k').
    + rewrite IH. destruct (String.eqb_spec key k') as [-> | Hk'].
      * destruct (String.eqb_spec k' k); [congruence | reflexivity].
      * reflexivity.
Qed.

Lemma header_lookup_absent (key : string) (d : Headers) :
  ~ In key (map fst d) -> header_lookup key d = None.
Proof.
  induction d as [| [k v] d IH]; cbn [map fst In header_lookup]; intros H.
  - reflexivity.
  - destruct (String.eqb_spec key k) as [-> | Hk]; [tauto |]. apply IH. tauto.
Qed.

Lemma header_lookup_dict_union (key : string) (a b : Headers) :
  NoDup (map fst b) ->
  header_lookup key (dict_union a b)
  = match header_lookup key b with
    | Some v => Some v
    | None => header_lookup key a
    end.
Proof.
  unfold dict_union. revert a. induction b as [| [k v] b IH]; intros a Hb.
  - reflexivity.
  - cbn [map fst] in Hb. inversion Hb as [| ? ? Hnotin Hb']; subst.
    cbn [fold_left fst snd header_lookup]. rewrite (IH _ Hb'), header_lookup_dict_set.
    destruct (String.eqb_spec key k) as [-> | Hk]; [| reflexivity].
    now rewrite (header_lookup_absent _ _ Hnotin).
Qed.

(** X1. The headers [_send_request] sends are the caller's headers laid
    over the API-key header: a key the caller gives (in a dictionary,
    so once) has the caller's value, also when that key is [x-api-key];
    a key the caller does not give has the API key if it is [x-api-key]
    and is absent otherwise. *)
Theorem _send_request_merges_headers :
  forall (self : BoardsOnFireClient) (method endpoint : string) (params data : PyVal)
         (hdrs : Headers) (w : World) (key : string),
    NoDup (map fst hdrs) ->
    exists rq rs,
      snd (_send_request self method endpoint params data hdrs w)
      = add_events [Exchange rq rs] w
      /\ header_lookup key (req_headers rq)
         = match header_lookup key hdrs with
           | Some v => Some v
           | None => if String.eqb key "x-api-key" then Some (_api_key self) else None
           end.
Proof.
  intros self method endpoint params data hdrs w key Hnodup.
  rewrite _send_request_run. cbn [snd]. do 2 eexists. split; [reflexivity |].
  cbn [request_of req_headers]. now rewrite header_lookup_dict_union.
Qed.

(** A caller that overrides the API key and adds a header, as a run of X1. *)
Lemma _send_request_merges_headers_witness :
  let hdrs := [("accept", "application/json"); ("x-api-key", "other")] in
  let w := fresh_world (scripted []) in
  exists rq rs,
    snd (_send_request example_client "GET" "users" PNone PNone hdrs w)
    = add_events [Exchange rq rs] w
    /\ header_lookup "x-api-key" (req_headers rq)
       = match header_lookup "x-api-key" hdrs with
         | Some v => Some v
         | None => if String.eqb "x-api-key" "x-api-key"
                   then Some (_api_key example_client) else None
         end.
Proof.
  intros hdrs w.
  apply (_send_request_merges_headers example_client "GET" "users" PNone PNone hdrs w
           "x-api-key").
  repeat constructor; cbn; intuition discriminate.
Defined.

(* ------------------------------------------------------------------ *)
(** * Further properties: the requests of a call *)

Lemma authenticated_request_of (self : BoardsOnFireClient) (method endpoint : string)
    (params data : PyVal) :
  authenticated self (request_of self method endpoint params data []).
Proof. split; [reflexivity | now exists endpoint]. Qed.

Lemma authenticated_list_requests (c : Listing) rest_client (page_size : Z)
    (pages : list Z) :
  Forall (authenticated rest_client) (map (list_request c rest_client page_size) pages).
Proof.
  induction pages as [| p pages IH]; cbn [map]; constructor; [| exact IH].
  apply authenticated_request_of.
Qed.

(** The requests of one exchange. *)
Ltac one_request :=
  cbv zeta; rewrite ?add_event_events; cbn [snd]; eexists;
  split; [reflexivity |];
  cbn [sent List.length];
  split; [repeat constructor; apply authenticated_request_of | intros _; lia].

(** The requests any call sends. *)
Lemma invoke_requests (call : Call) (rest_client : BoardsOnFireClient) (fuel : nat)
    (w : World) :
  exists t : list Event,
    snd (invoke call rest_client fuel w) = add_events t w
    /\ Forall (authenticated rest_client) (sent t)
    /\ (is_list_all call = false -> (List.length (sent t) <= 1)%nat).
Proof.
  destruct call as [c page_size page | c limit | id | id | name id | name id
                    | k name id data | k name data | k name data truncate | k name id];
    cbn [invoke is_list_all].
  - rewrite list_page_run. cbv zeta. cbn [snd]. eexists. split; [reflexivity |].
    rewrite sent_app.
    replace (sent (if page_size >? MAX_PAGE_SIZE then [Warning page_size_warning] else []))
      with (@nil HttpRequest) by now destruct (page_size >? MAX_PAGE_SIZE).
    cbn [app sent List.length]. split; [| intros _; lia].
    repeat constructor. apply authenticated_request_of.
  - destruct (list_all_events c rest_client limit fuel w) as (t & n & Ht & _ & Hs).
    exists t. split; [| split; [| discriminate]].
    + rewrite <- Ht. unfold bind.
      now destruct (list_all c rest_client limit fuel w) as [[[] | e |] w'].
    + rewrite Hs. apply authenticated_list_requests.
  - unfold Organizations.get, _get. rewrite send_and_return_data_run. one_request.
  - unfold Users.get, _get. rewrite send_and_return_data_run. one_request.
  - unfold Entities.get, _get. rewrite send_and_return_data_run. one_request.
  - unfold DataSources.get, _get. rewrite send_and_return_data_run. one_request.
  - destruct k; unfold Entities.update, DataSources.update, _patch;
      rewrite send_and_return_data_run; one_request.
  - destruct k; cbn [create]; unfold Entities.create, DataSources.create, _post;
      unfold bind at 1; rewrite lift_run;
      match goal with |- context [match ?v with Ok _ => _ | Err _ => _ end] =>
        destruct v end;
      try (exists []; rewrite add_events_nil; repeat split; [constructor | simpl; lia]);
      rewrite send_and_return_data_run; one_request.
  - destruct k; cbn [upsert]; unfold Entities.upsert, DataSources.upsert, _post;
      unfold bind at 1; rewrite lift_run;
      match goal with |- context [match ?v with Ok _ => _ | Err _ => _ end] =>
        destruct v end;
      try (exists []; rewrite add_events_nil; repeat split; [constructor | simpl; lia]);
      rewrite send_and_return_data_run; one_request.
  - destruct k; unfold Entities.delete, DataSources.delete, _delete, bind;
      rewrite _send_request_run;
      match goal with |- context [envelope ?m ?r] => destruct (envelope m r) end;
      one_request.
Qed.

(** X2. Every request of every call of the four collections, whatever
    the arguments, the remote service and the end of the call, carries
    the API key of the client as its only header and goes to a URL that
    is the base URL of the client followed by an endpoint. *)
Theorem every_request_is_authenticated :
  forall (call : Call) (rest_client : BoardsOnFireClient) (fuel : nat) (w : World),
    exists t : list Event,
      snd (invoke call rest_client fuel w) = add_events t w
      /\ Forall (authenticated rest_client) (sent t).
Proof.
  intros call rest_client fuel w.
  destruct (invoke_requests call rest_client fuel w) as (t & Ht & Ha & _).
  now exists t.
Qed.

(** X3. A call other than [list_all] sends at most one request, whatever
    the response to it is: a failed request, a 429 included, is not sent
    again. *)
Theorem calls_never_retry :
  forall (call : Call) (rest_client : BoardsOnFireClient) (fuel : nat) (w : World),
    is_list_all call = false ->
    exists t : list Event,
      snd (invoke call rest_client fuel w) = add_events t w
      /\ (List.length (sent t) <= 1)%nat.
Proof.
  intros call rest_client fuel w Hcall.
  destruct (invoke_requests call rest_client fuel w) as (t & Ht & _ & Hn).
  exists t. split; [exact Ht | now apply Hn].
Qed.

(** A [get] that meets a 429, as a run of X3. *)
Lemma calls_never_retry_witness :
  let w := fresh_world (then_rate_limited []) in
  let w1 := snd (invoke (CallGetUser "1") example_client 0 w) in
  exists t : list Event,
    snd (invoke (CallGetUser "2") example_client 0 w1) = add_events t w1
    /\ (List.length (sent t) <= 1)%nat.
Proof.
  intros w w1.
  apply (calls_never_retry (CallGetUser "2") example_client 0 w1).
  reflexivity.
Defined.

(* ------------------------------------------------------------------ *)
(** * Further properties: reading and writing one object *)

Lemma data_or_error_success (method : string) (rs : HttpResponse) (payload : PyVal) :
  http_ok rs = true -> method <> "DELETE" -> http_json rs = Some payload ->
  data_or_error method rs = Return payload.
Proof.
  intros Hok Hm Hj. unfold data_or_error, envelope. rewrite Hok, Hj.
  now destruct (String.eqb_spec method "DELETE").
Qed.

Lemma data_or_error_404 (method : string) (rs : HttpResponse) :
  http_status_code rs = 404 ->
  data_or_error method rs = Raise (NotFoundException "Resource not found").
Proof.
  intros H. unfold data_or_error, envelope, http_ok. now rewrite H.
Qed.

(** X4. [get], on each of the four collections, sends one GET to the
    endpoint of the object, without query parameters and without body.
    It returns the decoded body of a successful response as it is,
    whatever its shape, and raises [NotFoundException] on status 404. *)
Theorem get_fetches_one_object :
  forall (r : Resource) (rest_client : BoardsOnFireClient) (w : World),
    let rq := plain_request rest_client "GET" (get_endpoint r) PNone PNone in
    let rs := network w (sent (trace w)) rq in
    get r rest_client w = (data_or_error "GET" rs, add_events [Exchange rq rs] w)
    /\ (forall payload, http_ok rs = true -> http_json rs = Some payload ->
        fst (get r rest_client w) = Return payload)
    /\ (http_status_code rs = 404 ->
        fst (get r rest_client w) = Raise (NotFoundException "Resource not found")).
Proof.
  intros r rest_client w rq rs.
  assert (H : get r rest_client w
              = (data_or_error "GET" rs, add_events [Exchange rq rs] w)).
  { destruct r; cbn [get]; unfold Organizations.get, Users.get, Entities.get,
      DataSources.get, _get; apply send_and_return_data_run. }
  rewrite H. cbn [fst]. repeat split.
  - intros payload Hok Hj. now apply data_or_error_success.
  - apply data_or_error_404.
Qed.

(** A user that does not exist, as a run of X4. *)
Lemma get_fetches_one_object_witness :
  let w := fresh_world (fun _ _ =>
             {| http_status_code := 404; http_headers := [];
                http_content := "Not Found"; http_json := None |}) in
  fst (get (AUser "42") example_client w)
  = Raise (NotFoundException "Resource not found").
Proof.
  intros w.
  apply (proj2 (proj2 (get_fetches_one_object (AUser "42") example_client w))).
  reflexivity.
Defined.

(** X5. [update], for entities and for datasources, validates nothing:
    whatever the payload, it sends one PATCH to the endpoint of the
    object with the payload as body, and returns the decoded body of a
    successful response; a payload that [create] rejects without a
    request is sent by [update] all the same. *)
Theorem update_sends_any_payload :
  forall (k : Kind) (rest_client : BoardsOnFireClient) (name id : string)
         (data : PyVal) (w : World),
    let rq := plain_request rest_client "PATCH" (object_endpoint k name id) PNone data in
    let rs := network w (sent (trace w)) rq in
    update k rest_client name id data w
    = (data_or_error "PATCH" rs, add_events [Exchange rq rs] w)
    /\ (forall e, validate_create k data = Err e ->
        create k rest_client name data w = (Raise e, w)).
Proof.
  intros k rest_client name id data w rq rs. split.
  - destruct k; cbn [update]; unfold Entities.update, DataSources.update, _patch;
      apply send_and_return_data_run.
  - intros e He. now apply create_invalid.
Qed.

(** X6. [create], for entities and for datasources, with a payload that
    passes the validation sends one POST to the path of the objects of
    the resource with the payload as body and no query parameters; it
    returns the decoded body of a successful response as it is and
    raises what the transport raises otherwise. *)
Theorem create_posts_valid_payload :
  forall (k : Kind) (rest_client : BoardsOnFireClient) (name : string)
         (data : PyVal) (w : World),
    validate_create k data = Ok tt ->
    let rq := plain_request rest_client "POST" (resource_path k name) PNone data in
    let rs := network w (sent (trace w)) rq in
    create k rest_client name data w
    = (data_or_error "POST" rs, add_events [Exchange rq rs] w)
    /\ (forall payload, http_ok rs = true -> http_json rs = Some payload ->
        fst (create k rest_client name data w) = Return payload).
Proof.
  intros k rest_client name data w Hv rq rs.
  assert (H : create k rest_client name data w
              = (data_or_error "POST" rs, add_events [Exchange rq rs] w)).
  { destruct k; cbn [create validate_create] in *;
      unfold Entities.create, DataSources.create, _post; unfold bind at 1;
      rewrite lift_run, Hv; apply send_and_return_data_run. }
  rewrite H. split; [reflexivity |]. cbn [fst].
  intros payload Hok Hj. now apply data_or_error_success.
Qed.

(** The datasource payload of the test suite, as a run of X6. *)
Lemma create_posts_valid_payload_witness :
  let data := PDict [("name", PStr "Example"); ("value", PInt 100);
                     ("organization_id", PStr "123456");
                     ("timestamp", PStr "2022-01-01T00:00:00Z")] in
  let created := PDict [("id", PStr "123456"); ("name", PStr "Example")] in
  let w := fresh_world (fun _ _ => ok_json created) in
  fst (create DataSource example_client "test_datasource" data w) = Return created.
Proof.
  intros data created w.
  apply (proj2 (create_posts_valid_payload DataSource example_client "test_datasource"
                  data w eq_refl) created); reflexivity.
Defined.

(** X7. [delete], for entities and for datasources, sends one DELETE to
    the endpoint of the object, without query parameters and without
    body. On a successful response it returns nothing, whether the body
    decodes or not; on status 404 it raises [NotFoundException]. *)
Theorem delete_returns_nothing :
  forall (k : Kind) (rest_client : BoardsOnFireClient) (name id : string) (w : World),
    let rq := plain_request rest_client "DELETE" (object_endpoint k name id)
                PNone PNone in
    let rs := network w (sent (trace w)) rq in
    snd (delete k rest_client name id w) = add_events [Exchange rq rs] w
    /\ (http_ok rs = true -> fst (delete k rest_client name id w) = Return tt)
    /\ (http_status_code rs = 404 ->
        fst (delete k rest_client name id w)
        = Raise (NotFoundException "Resource not found")).
Proof.
  intros k rest_client name id w rq rs.
  assert (H : delete k rest_client name id w
              = (match envelope "DELETE" rs with
                 | Ok _ => Return tt
                 | Err e => Raise e
                 end, add_events [Exchange rq rs] w)).
  { subst rq rs.
    destruct k; cbn [delete object_endpoint];
      unfold Entities.delete, DataSources.delete, _delete, bind;
      rewrite _send_request_run;
      change (request_of rest_client "DELETE" ?e PNone PNone [])
        with (plain_request rest_client "DELETE" e PNone PNone);
      match goal with |- context [envelope ?m ?r] => destruct (envelope m r) end;
      reflexivity. }
  rewrite H. cbn [fst snd]. repeat split.
  - intros Hok. unfold envelope. now rewrite Hok.
  - intros H404. unfold envelope, http_ok. now rewrite H404.
Qed.

(** A deletion answered by 204 with an empty body, as a run of X7. *)
Lemma delete_returns_nothing_witness :
  let w := fresh_world (fun _ _ =>
             {| http_status_code := 204; http_headers := [];
                http_content := ""; http_json := None |}) in
  fst (delete Entity example_client "widget" "7" w) = Return tt.
Proof.
  intros w.
  apply (proj1 (proj2 (delete_returns_nothing Entity example_client "widget" "7" w))).
  reflexivity.
Defined.

(** A payload that [create] rejects, as a run of X5. *)
Lemma update_sends_any_payload_witness :
  let w := fresh_world (scripted []) in
  create Entity example_client "widget" (PDict [("name", PStr "X")]) w
  = (Raise (ValidationError "organization_id is required to create an entity object"), w).
Proof.
  intros w.
  apply (proj2 (update_sends_any_payload Entity example_client "widget" "7"
                  (PDict [("name", PStr "X")]) w)).
  reflexivity.
Defined.

(* ------------------------------------------------------------------ *)
(** * Further properties: the validators *)

Lemma all_have_keys_first_error (keys : list string) (msg : string) (rows : list PyVal) :
  match all_have_keys keys rows with
  | Err e => Err e
  | Ok b => if negb b then Err (ValidationError msg) else Ok tt
  end
  = first_error (fun data =>
                   match py_set data with
                   | Err e => Err e
                   | Ok s => if negb (keys_subset keys s) then Err (ValidationError msg)
                             else Ok tt
                   end) rows.
Proof.
  induction rows as [| row rows IH]; [reflexivity |].
  cbn [all_have_keys first_error]. destruct (py_set row) as [s | e]; [| reflexivity].
  destruct (keys_subset keys s); [exact IH | reflexivity].
Qed.

Lemma first_error_ok (check : PyVal -> Result unit) (rows : list PyVal) :
  first_error check rows = Ok tt <-> Forall (fun row => check row = Ok tt) rows.
Proof.
  induction rows as [| row rows IH]; cbn [first_error].
  - split; [constructor | reflexivity].
  - destruct (check row) as [[] | e] eqn:E.
    + rewrite IH. split; [now constructor | now inversion 1].
    + split; [discriminate | inversion 1; congruence].
Qed.

(** X8. The validation of [upsert] on a list is the validation of
    [create] applied to the rows in order, up to the first row that
    fails, whose error it raises; so a list passes exactly when each of
    its rows would pass [create], and the empty list passes. *)
Theorem upsert_validates_row_by_row :
  forall (k : Kind) (rows : list PyVal),
    validate_upsert k (PList rows) = first_error (validate_create k) rows
    /\ (validate_upsert k (PList rows) = Ok tt
        <-> Forall (fun row => validate_create k row = Ok tt) rows)
    /\ validate_upsert k (PList []) = Ok tt.
Proof.
  intros k rows.
  assert (H : validate_upsert k (PList rows) = first_error (validate_create k) rows).
  { destruct k; cbn [validate_upsert];
      unfold ValidateEntity.upsert, ValidateDataSource.upsert;
      apply all_have_keys_first_error. }
  split; [exact H |]. split; [| now destruct k].
  rewrite H. apply first_error_ok.
Qed.

(** X9. [upsert] does not reject an empty list: [Entities.upsert] posts
    the body [{"entity_objects": [], "delete_others": truncate}] and
    [DataSources.upsert] posts the body [[]], each in one request to the
    import path. *)
Theorem upsert_sends_empty_list :
  forall (rest_client : BoardsOnFireClient) (name : string) (truncate : bool) (w : World),
    (let rq := plain_request rest_client "POST"
                 ("entities/" ++ name ++ "/entityobjects/import") PNone
                 (PDict [("entity_objects", PList []);
                         ("delete_others", PBool truncate)]) in
     let rs := network w (sent (trace w)) rq in
     Entities.upsert rest_client name (PList []) truncate w
     = (data_or_error "POST" rs, add_events [Exchange rq rs] w))
    /\ (let rq := plain_request rest_client "POST"
                    ("datasources/" ++ name ++ "/dataobjects/import") PNone (PList []) in
        let rs := network w (sent (trace w)) rq in
        DataSources.upsert rest_client name (PList []) w
        = (data_or_error "POST" rs, add_events [Exchange rq rs] w)).
Proof.
  intros rest_client name truncate w. split; intros rq rs.
  - unfold Entities.upsert, _post. unfold bind at 1. rewrite lift_run.
    change (ValidateEntity.upsert (PList [])) with (Ok tt).
    apply send_and_return_data_run.
  - unfold DataSources.upsert, _post. unfold bind at 1. rewrite lift_run.
    change (ValidateDataSource.upsert (PList [])) with (Ok tt).
    apply send_and_return_data_run.
Qed.





(** X11. The validation of a datasource is the stricter one: whatever
    passes [ValidateDataSource.create] passes [ValidateEntity.create],
    and whatever passes [ValidateDataSource.upsert] passes
    [ValidateEntity.upsert]. *)
Theorem datasource_validation_is_stricter :
  forall data : PyVal,
    (ValidateDataSource.create data = Ok tt -> ValidateEntity.create data = Ok tt)
    /\ (ValidateDataSource.upsert data = Ok tt -> ValidateEntity.upsert data = Ok tt).
Proof.
  assert (Hc : forall data, ValidateDataSource.create data = Ok tt ->
                            ValidateEntity.create data = Ok tt).
  { intros data. unfold ValidateDataSource.create, ValidateEntity.create.
    destruct (py_set data) as [s | e]; [| discriminate].
    unfold keys_subset. cbn [forallb].
    destruct (str_in "organization_id" s); [reflexivity | discriminate]. }
  intros data. split; [apply Hc |].
  destruct data as [| b | n | s | rows | entries]; try discriminate.
  intros H.
  apply (proj1 (proj2 (upsert_validates_row_by_row DataSource rows))) in H.
  apply (proj1 (proj2 (upsert_validates_row_by_row Entity rows))).
  eapply Forall_impl; [| exact H]. intros row. apply Hc.
Qed.

(** The datasource payload of the test suite, as a run of X11. *)
Lemma datasource_validation_is_stricter_witness :
  ValidateEntity.create
    (PDict [("organization_id", PStr "123");
            ("timestamp", PStr "2022-01-01T00:00:00Z")]) = Ok tt.
Proof.
  apply (proj1 (datasource_validation_is_stricter _)). reflexivity.
Defined.

(* ------------------------------------------------------------------ *)
(** * Further properties: the budget of a limited iteration *)

Lemma taken_within_limit (l : Z) (records : list PyVal) (yc : Z) :
  0 < l -> yc < l ->
  yc + Z.of_nat (List.length (taken (Some l) records yc)) <= l.
Proof.
  intros Hl Hyc. rewrite taken_positive by assumption.
  pose proof (firstn_le_length (Z.to_nat (l - yc)) records) as H1.
  rewrite length_firstn. lia.
Qed.

(** With a limit above 0, however the loop ends: the records yielded
    stay within the limit, and every request but the last was answered
    by a full page of records that all counted towards the limit. *)
Lemma paging_loop_budget rest_client method endpoint query body (l : Z) page_size
    (fuel : nat) (page yc : Z) (w : World) :
  0 < l -> 0 < page_size -> yc < l ->
  exists t : list Event,
    snd (paging_loop rest_client method endpoint query body (Some l) page_size
           fuel page yc w) = add_events t w
    /\ yc + Z.of_nat (List.length (yielded t)) <= l
    /\ (Z.of_nat (List.length (sent t)) - 1) * page_size < l - yc.
Proof.
  intros Hl Hps. revert page yc w. induction fuel as [| fuel IH]; intros page yc w Hyc.
  - exists []. cbn [paging_loop out_of_fuel snd yielded sent List.length].
    rewrite add_events_nil. repeat split; lia.
  - rewrite paging_loop_step. cbv zeta.
    set (rq := paging_request rest_client method endpoint query body page).
    set (rs := network w (sent (trace w)) rq).
    destruct (envelope method rs) as [response | e];
      [| exists [Exchange rq rs]; cbn [snd yielded sent List.length];
         repeat split; lia].
    destruct (py_iter (data response)) as [records | e];
      [| exists [Exchange rq rs]; cbn [snd yielded sent List.length];
         repeat split; lia].
    pose proof (taken_within_limit l records yc Hl Hyc) as Htaken.
    destruct (short records page_size || hit (Some l) records yc) eqn:Hstop.
    + exists (segment (rq, rs, taken (Some l) records yc)). cbn [snd].
      split; [reflexivity |]. cbn [segment yielded sent fst snd List.length].
      rewrite yielded_map_Yield, sent_map_Yield. cbn [List.length]. split; lia.
    + apply orb_false_elim in Hstop. destruct Hstop as [Hshort Hhit].
      apply short_false in Hshort. destruct Hshort as [_ Hfull].
      pose proof (hit_not_yet l records yc Hl Hyc Hhit) as Hnext.
      rewrite (taken_all _ _ _ Hhit).
      destruct (IH (page + 1) (yc + Z.of_nat (List.length records))
                  (add_events (segment (rq, rs, records)) w) Hnext)
        as (t & Ht & Hy & Hn).
      exists (segment (rq, rs, records) ++ t)%list.
      rewrite Ht, add_events_app. split; [reflexivity |].
      rewrite yielded_app, sent_app, !length_app.
      cbn [segment yielded sent fst snd List.length].
      rewrite yielded_map_Yield, sent_map_Yield. cbn [List.length].
      split; [lia | nia].
Qed.

Lemma list_all_budget (c : Listing) rest_client (l : Z) (fuel : nat) (w : World) :
  0 < l ->
  exists t : list Event,
    snd (list_all c rest_client (Some l) fuel w) = add_events t w
    /\ Z.of_nat (List.length (yielded t)) <= l
    /\ (Z.of_nat (List.length (sent t)) - 1) * Z.min 100 l < l.
Proof.
  intros Hl. rewrite list_all_paging.
  assert (Hps : initial_page_size (Some l) = Z.min 100 l).
  { unfold initial_page_size, limit_or, truthy.
    destruct (Z.eqb_spec l 0); [lia | reflexivity]. }
  rewrite Hps.
  destruct (paging_loop_budget rest_client (list_method c) (list_endpoint c)
              (list_query c (Z.min 100 l)) (list_body c (Z.min 100 l)) l (Z.min 100 l)
              fuel 1 0 w Hl ltac:(lia) Hl) as (t & Ht & Hy & Hn).
  exists t. repeat split; [exact Ht | lia | lia].
Qed.

(** X12. A [list_all] with a limit above 0 never yields more records
    than the limit, on any collection, against any remote service and
    however it ends, a request that fails midway included. *)
Theorem list_all_yields_within_limit :
  forall (c : Listing) (rest_client : BoardsOnFireClient) (l : Z) (fuel : nat) (w : World),
    0 < l ->
    exists t : list Event,
      snd (list_all c rest_client (Some l) fuel w) = add_events t w
      /\ Z.of_nat (List.length (yielded t)) <= l.
Proof.
  intros c rest_client l fuel w Hl.
  destruct (list_all_budget c rest_client l fuel w Hl) as (t & Ht & Hy & _).
  now exists t.
Qed.

(** A service that sends three records per request, as a run of X12
    with the limit 2. *)
Lemma list_all_yields_within_limit_witness :
  let w := fresh_world (fun _ _ => ok_json (PList [PInt 1; PInt 2; PInt 3])) in
  exists t : list Event,
    snd (list_all (ListUsers None "ASC") example_client (Some 2) 5 w) = add_events t w
    /\ Z.of_nat (List.length (yielded t)) <= 2.
Proof.
  intros w. apply (list_all_yields_within_limit (ListUsers None "ASC") example_client 2 5 w).
  reflexivity.
Defined.

(** X13. A [list_all] with a limit [l] above 0 sends [n] requests with
    [(n - 1) * min(100, l) < l]: at most one request for a limit up to
    100, and at most one per started hundred of the limit beyond that;
    on any collection, against any remote service and however long it
    is followed. *)
Theorem list_all_request_budget :
  forall (c : Listing) (rest_client : BoardsOnFireClient) (l : Z) (fuel : nat) (w : World),
    0 < l ->
    exists t : list Event,
      snd (list_all c rest_client (Some l) fuel w) = add_events t w
      /\ (Z.of_nat (List.length (sent t)) - 1) * Z.min 100 l < l
      /\ (l <= 100 -> (List.length (sent t) <= 1)%nat)
      /\ Z.of_nat (List.length (sent t)) <= (l + 99) / 100.
Proof.
  intros c rest_client l fuel w Hl.
  destruct (list_all_budget c rest_client l fuel w Hl) as (t & Ht & _ & Hn).
  exists t. split; [exact Ht |]. split; [exact Hn |]. split.
  - intros Hle. rewrite Z.min_r in Hn by lia. nia.
  - destruct (Z.le_gt_cases l 100) as [Hle | Hgt].
    + rewrite Z.min_r in Hn by lia.
      assert (1 <= (l + 99) / 100) by (apply Z.div_le_lower_bound; lia). nia.
    + rewrite Z.min_l in Hn by lia.
      apply Z.div_le_lower_bound; lia.
Qed.

(** A service that always sends full pages, as a run of X13 with the
    limit 250. *)
Lemma list_all_request_budget_witness :
  let w := fresh_world (fun _ _ => ok_json (PList (numbered 1 100))) in
  exists t : list Event,
    snd (list_all (ListOrganizations None "ASC") example_client (Some 250) 9 w)
    = add_events t w
    /\ (Z.of_nat (List.length (sent t)) - 1) * Z.min 100 250 < 250
    /\ (250 <= 100 -> (List.length (sent t) <= 1)%nat)
    /\ Z.of_nat (List.length (sent t)) <= (250 + 99) / 100.
Proof.
  intros w.
  apply (list_all_request_budget (ListOrganizations None "ASC") example_client 250 9 w).
  reflexivity.
Defined.

(* ------------------------------------------------------------------ *)
(** * Further properties: an iteration that fails *)

Lemma paging_loop_raises rest_client method endpoint query body limit page_size
    (fuel : nat) (page yc : Z) (w w' : World) (e : Exn) :
  paging_loop rest_client method endpoint query body limit page_size fuel page yc w
    = (Raise e, w') ->
  exists (segs : list Seg) (rs : HttpResponse),
    w' = add_events
           (render segs
            ++ [Exchange (paging_request rest_client method endpoint query body
                            (page + Z.of_nat (List.length segs))) rs]) w
    /\ map seg_request segs
       = map (paging_request rest_client method endpoint query body)
           (pages_from page (List.length segs))
    /\ Forall (fun s => batch_of method (seg_response s) = Some (seg_yields s)
                        /\ short (seg_yields s) page_size = false) segs
    /\ listing_error method rs = Some e.
Proof.
  revert page yc w. induction fuel as [| fuel IH]; intros page yc w H; [discriminate |].
  rewrite paging_loop_step in H. cbv zeta in H.
  set (rq := paging_request rest_client method endpoint query body page) in *.
  set (rs := network w (sent (trace w)) rq) in *.
  destruct (envelope method rs) as [response | e0] eqn:Henv.
  2: { injection H as <- <-. exists [], rs. cbn [render flat_map app List.length map].
       rewrite Z.add_0_r. repeat split; [constructor |].
       unfold listing_error. now rewrite Henv. }
  destruct (py_iter (data response)) as [records | e0] eqn:Hiter.
  2: { injection H as <- <-. exists [], rs. cbn [render flat_map app List.length map].
       rewrite Z.add_0_r. repeat split; [constructor |].
       unfold listing_error. now rewrite Henv, Hiter. }
  destruct (short records page_size || hit limit records yc) eqn:Hstop; [discriminate |].
  apply orb_false_elim in Hstop. destruct Hstop as [Hshort Hhit].
  rewrite (taken_all _ _ _ Hhit) in H.
  apply IH in H. destruct H as (segs & rs' & -> & Hreq & Hfull & Herr).
  exists ((rq, rs, records) :: segs), rs'.
  rewrite add_events_app, render_cons, <- app_assoc.
  cbn [List.length]. rewrite Nat2Z.inj_succ.
  replace (page + Z.succ (Z.of_nat (List.length segs)))
    with (page + 1 + Z.of_nat (List.length segs)) by lia.
  split; [reflexivity |]. split; [| split; [| exact Herr]].
  - cbn [map pages_from seg_request fst]. now rewrite Hreq.
  - constructor; [| exact Hfull]. cbn [seg_response seg_yields fst snd].
    split; [| exact Hshort]. unfold batch_of. now rewrite Henv, Hiter.
Qed.

(** X14. When a [list_all] raises, the request that failed is the last
    thing in its trace: before it, the pages 1, 2, ... were each fetched
    and yielded in full, none of them short; the failed request asked
    for the next page; what is raised is the error of its response (the
    error of the transport, or the [TypeError] of a payload that cannot
    be iterated); and nothing is yielded or requested after it. *)
Theorem list_all_fails_at_a_request :
  forall (c : Listing) (rest_client : BoardsOnFireClient) (limit : option Z)
         (fuel : nat) (w w' : World) (e : Exn),
    list_all c rest_client limit fuel w = (Raise e, w') ->
    exists (segs : list Seg) (rs : HttpResponse),
      trace w'
      = (trace w ++ render segs
         ++ [Exchange (list_request c rest_client (initial_page_size limit)
                         (1 + Z.of_nat (List.length segs))) rs])%list
      /\ map seg_request segs
         = map (list_request c rest_client (initial_page_size limit))
             (pages_from 1 (List.length segs))
      /\ Forall (fun s => batch_of (list_method c) (seg_response s) = Some (seg_yields s)
                          /\ short (seg_yields s) (initial_page_size limit) = false) segs
      /\ listing_error (list_method c) rs = Some e.
Proof.
  intros c rest_client limit fuel w w' e H. rewrite list_all_paging in H.
  apply paging_loop_raises in H. destruct H as (segs & rs & -> & Hreq & Hfull & Herr).
  exists segs, rs. repeat split; assumption.
Qed.

(** A full first page followed by a 429, as a run of X14. *)
Lemma list_all_fails_at_a_request_witness :
  let c := ListOrganizations None "ASC" in
  let w := fresh_world (then_rate_limited (numbered 1 100)) in
  let w' := snd (list_all c example_client None 5 w) in
  exists (segs : list Seg) (rs : HttpResponse),
    trace w'
    = (trace w ++ render segs
       ++ [Exchange (list_request c example_client (initial_page_size None)
                       (1 + Z.of_nat (List.length segs))) rs])%list
    /\ map seg_request segs
       = map (list_request c example_client (initial_page_size None))
           (pages_from 1 (List.length segs))
    /\ Forall (fun s => batch_of (list_method c) (seg_response s) = Some (seg_yields s)
                        /\ short (seg_yields s) (initial_page_size None) = false) segs
    /\ listing_error (list_method c) rs
       = Some (RateLimitException "Rate limit exceeded").
Proof.
  intros c w w'.
  apply (list_all_fails_at_a_request c example_client None 5 w w').
  vm_compute. reflexivity.
Defined.

(* ------------------------------------------------------------------ *)
(** * Further properties: iterating over a paged collection *)

Lemma paginated_batch (c : Listing) rest_client (records : list PyVal)
    (page_size page : Z) (w : World) :
  network w = paginated records ->
  batch_of (list_method c)
    (network w (sent (trace w))
       (paging_request rest_client (list_method c) (list_endpoint c)
          (list_query c page_size) (list_body c page_size) page))
  = Some (firstn (Z.to_nat page_size)
            (skipn (Z.to_nat ((page - 1) * page_size)) records)).
Proof.
  intros Hnet.
  change (paging_request rest_client (list_method c) (list_endpoint c)
            (list_query c page_size) (list_body c page_size) page)
    with (list_request c rest_client page_size page).
  rewrite Hnet, paginated_answer. apply batch_of_ok_json.
Qed.

(** Without a limit the loop reads a paged collection to its end. *)
Lemma paginated_read_all (c : Listing) rest_client (records : list PyVal)
    (fuel : nat) (page yc : Z) (w : World) :
  network w = paginated records ->
  1 <= page ->
  (List.length (skipn (Z.to_nat ((page - 1) * 100)) records) < 100 * fuel)%nat ->
  exists t : list Event,
    paging_loop rest_client (list_method c) (list_endpoint c)
      (list_query c 100) (list_body c 100) None 100 fuel page yc w
    = (Return tt, add_events t w)
    /\ yielded t = skipn (Z.to_nat ((page - 1) * 100)) records
    /\ List.length (sent t)
       = (List.length (skipn (Z.to_nat ((page - 1) * 100)) records) / 100 + 1)%nat.
Proof.
  revert page yc w. induction fuel as [| fuel IH]; intros page yc w Hnet Hpage Hlen;
    [lia |].
  set (rest := skipn (Z.to_nat ((page - 1) * 100)) records) in *.
  pose proof (paginated_batch c rest_client records 100 page w Hnet) as Hb.
  change (Z.to_nat 100) with 100%nat in Hb. fold rest in Hb.
  rewrite (paging_loop_step_batch _ _ _ _ _ _ _ _ _ _ _ _ Hb). cbv zeta.
  rewrite hit_unlimited, orb_false_r, (taken_all _ _ _ (hit_unlimited _ yc)).
  set (s := (_, _, firstn 100 rest)).
  assert (Hys : yielded (segment s) = firstn 100 rest).
  { unfold s. cbn [segment yielded snd]. apply yielded_map_Yield. }
  assert (Hss : List.length (sent (segment s)) = 1%nat).
  { unfold s. cbn [segment sent snd]. now rewrite sent_map_Yield. }
  destruct (Nat.lt_ge_cases (List.length rest) 100) as [Hlt | Hge].
  - assert (Hall : firstn 100 rest = rest) by (apply firstn_all2; lia).
    assert (Hshort : short (firstn 100 rest) 100 = true).
    { apply short_true. rewrite Hall. right. lia. }
    rewrite Hshort. exists (segment s). split; [reflexivity |].
    split; [now rewrite Hys | ]. rewrite Hss, Nat.div_small by exact Hlt. reflexivity.
  - assert (Hbl : List.length (firstn 100 rest) = 100%nat)
      by (rewrite length_firstn; lia).
    assert (Hshort : short (firstn 100 rest) 100 = false).
    { apply short_false. split; [| lia]. intros E. rewrite E in Hbl. discriminate. }
    rewrite Hshort.
    assert (Hnext : skipn (Z.to_nat ((page + 1 - 1) * 100)) records = skipn 100 rest).
    { unfold rest. rewrite skipn_skipn. f_equal. lia. }
    destruct (IH (page + 1) (yc + Z.of_nat (List.length (firstn 100 rest)))
                (add_events (segment s) w)) as (t & Hrun & Hy & Hn).
    + exact Hnet.
    + lia.
    + rewrite Hnext, length_skipn. lia.
    + exists (segment s ++ t)%list. rewrite Hrun, add_events_app.
      split; [reflexivity |]. rewrite yielded_app, sent_app, length_app, Hys, Hss, Hy, Hn,
        Hnext, length_skipn.
      split; [apply firstn_skipn |].
      replace (List.length rest) with (List.length rest - 100 + 1 * 100)%nat at 2 by lia.
      rewrite Nat.div_add by discriminate. lia.
Qed.

(** X15. Without a limit, [list_all] against a service that pages
    through a collection, on any of the four collections, returns after
    it has yielded every record of the collection, in order and once,
    in [N / 100 + 1] requests for a collection of [N] records. *)
Theorem list_all_reads_whole_collection :
  forall (c : Listing) (rest_client : BoardsOnFireClient) (records : list PyVal)
         (fuel : nat),
    (List.length records < 100 * fuel)%nat ->
    exists t : list Event,
      list_all c rest_client None fuel (fresh_world (paginated records))
      = (Return tt, add_events t (fresh_world (paginated records)))
      /\ yielded t = records
      /\ List.length (sent t) = (List.length records / 100 + 1)%nat.
Proof.
  intros c rest_client records fuel Hfuel. rewrite list_all_paging.
  change (initial_page_size None) with 100.
  apply (paginated_read_all c rest_client records fuel 1 0
           (fresh_world (paginated records))); [reflexivity | lia | exact Hfuel].
Qed.

(** A collection of 230 records, as a run of X15. *)
Lemma list_all_reads_whole_collection_witness :
  exists t : list Event,
    list_all (ListEntities "widget" [] None None None) example_client None 3
      (fresh_world (paginated (numbered 1 230)))
    = (Return tt, add_events t (fresh_world (paginated (numbered 1 230))))
    /\ yielded t = numbered 1 230
    /\ List.length (sent t) = (List.length (numbered 1 230) / 100 + 1)%nat.
Proof.
  apply (list_all_reads_whole_collection (ListEntities "widget" [] None None None)
           example_client (numbered 1 230) 3).
  vm_compute. lia.
Defined.

(** With a limit above 0 the loop reads the first records of a paged
    collection, up to the limit. *)
Lemma paginated_read_limited (c : Listing) rest_client (records : list PyVal) (l : Z)
    (page_size : Z) (fuel : nat) (page yc : Z) (w : World) :
  network w = paginated records ->
  0 < l -> 0 < page_size -> 1 <= page ->
  yc = (page - 1) * page_size -> yc < l ->
  (Z.to_nat (l - yc) <= fuel)%nat ->
  exists t : list Event,
    paging_loop rest_client (list_method c) (list_endpoint c)
      (list_query c page_size) (list_body c page_size) (Some l) page_size fuel page yc w
    = (Return tt, add_events t w)
    /\ yielded t = firstn (Z.to_nat (l - yc)) (skipn (Z.to_nat yc) records).
Proof.
  intros Hnet Hl Hps. revert page yc w Hnet.
  induction fuel as [| fuel IH]; intros page yc w Hnet Hpage Hyc Hlt Hfuel; [lia |].
  pose proof (paginated_batch c rest_client records page_size page w Hnet) as Hb.
  rewrite <- Hyc in Hb.
  assert (Hyc0 : 0 <= yc) by nia.
  set (rest := skipn (Z.to_nat yc) records) in *.
  set (batch := firstn (Z.to_nat page_size) rest) in *.
  rewrite (paging_loop_step_batch _ _ _ _ _ _ _ _ _ _ _ _ Hb). cbv zeta.
  set (s := (_, _, taken (Some l) batch yc)).
  assert (Hys : yielded (segment s) = taken (Some l) batch yc).
  { unfold s. cbn [segment yielded snd]. apply yielded_map_Yield. }
  assert (Hbl : List.length batch = Nat.min (Z.to_nat page_size) (List.length rest))
    by apply length_firstn.
  destruct (short batch page_size || hit (Some l) batch yc) eqn:Hstop.
  - exists (segment s). split; [reflexivity |]. rewrite Hys.
    rewrite taken_positive by assumption. unfold batch.
    rewrite firstn_firstn.
    apply orb_true_iff in Hstop. destruct Hstop as [Hshort | Hhit].
    + apply short_true in Hshort.
      assert (Hsmall : (List.length rest <= Z.to_nat page_size)%nat).
      { destruct Hshort as [Hnil | Hless].
        - apply (f_equal (@List.length PyVal)) in Hnil. cbn [List.length] in Hnil. lia.
        - lia. }
      destruct (Nat.le_ge_cases (Z.to_nat (l - yc)) (Z.to_nat page_size)) as [H1 | H1].
      * now rewrite Nat.min_l by exact H1.
      * rewrite Nat.min_r by exact H1.
        rewrite !firstn_all2 by lia. reflexivity.
    + apply hit_reached in Hhit. rewrite taken_positive in Hhit by assumption.
      unfold limit_reached, truthy in Hhit.
      destruct (Z.eqb_spec l 0); [lia |]. cbn [negb andb] in Hhit.
      rewrite Z.geb_leb in Hhit. apply Z.leb_le in Hhit.
      rewrite length_firstn in Hhit.
      rewrite Nat.min_l by lia. reflexivity.
  - apply orb_false_elim in Hstop. destruct Hstop as [Hshort Hhit].
    apply short_false in Hshort. destruct Hshort as [_ Hfull].
    pose proof (hit_not_yet l batch yc Hl Hlt Hhit) as Hnext.
    assert (Hlen : Z.of_nat (List.length batch) = page_size) by lia.
    subst s. rewrite (taken_all _ _ _ Hhit) in *. rewrite Hlen in *.
    destruct (IH (page + 1) (yc + page_size) (add_events (segment
                (paging_request rest_client (list_method c) (list_endpoint c)
                   (list_query c page_size) (list_body c page_size) page,
                 network w (sent (trace w))
                   (paging_request rest_client (list_method c) (list_endpoint c)
                      (list_query c page_size) (list_body c page_size) page),
                 batch)) w)) as (t & Hrun & Hy);
      [exact Hnet | lia | rewrite Hyc; ring | lia | lia |].
    eexists. rewrite Hrun, add_events_app. split; [reflexivity |].
    rewrite yielded_app, Hys, Hy.
    replace (skipn (Z.to_nat (yc + page_size)) records)
      with (skipn (Z.to_nat page_size) rest)
      by (unfold rest; rewrite skipn_skipn; f_equal; lia).
    rewrite firstn_skipn_comm. unfold batch.
    replace (Z.to_nat page_size + Z.to_nat (l - (yc + page_size)))%nat
      with (Z.to_nat (l - yc)) by lia.
    transitivity (firstn (Z.to_nat page_size) (firstn (Z.to_nat (l - yc)) rest)
                  ++ skipn (Z.to_nat page_size) (firstn (Z.to_nat (l - yc)) rest))%list;
      [| apply firstn_skipn].
    f_equal. rewrite firstn_firstn. f_equal. lia.
Qed.

(** X16. With a limit [l] above 0, [list_all] against a service that
    pages through a collection, on any of the four collections, returns
    after it has yielded exactly the first [l] records of the collection
    (all of them if there are fewer), in order. *)
Theorem list_all_reads_first_records :
  forall (c : Listing) (rest_client : BoardsOnFireClient) (records : list PyVal)
         (l : Z) (fuel : nat),
    0 < l -> (Z.to_nat l <= fuel)%nat ->
    exists t : list Event,
      list_all c rest_client (Some l) fuel (fresh_world (paginated records))
      = (Return tt, add_events t (fresh_world (paginated records)))
      /\ yielded t = firstn (Z.to_nat l) records.
Proof.
  intros c rest_client records l fuel Hl Hfuel. rewrite list_all_paging.
  assert (Hps : initial_page_size (Some l) = Z.min 100 l).
  { unfold initial_page_size, limit_or, truthy.
    destruct (Z.eqb_spec l 0); [lia | reflexivity]. }
  rewrite Hps.
  destruct (paginated_read_limited c rest_client records l (Z.min 100 l) fuel 1 0
              (fresh_world (paginated records))) as (t & Hrun & Hy);
    try reflexivity; try lia.
  exists t. split; [exact Hrun |]. rewrite Hy. now rewrite Z.sub_0_r.
Qed.

(** The first 250 of 340 records, as a run of X16. *)
Lemma list_all_reads_first_records_witness :
  exists t : list Event,
    list_all (ListDataSources "sales" [] None None None) example_client (Some 250) 250
      (fresh_world (paginated (numbered 1 340)))
    = (Return tt, add_events t (fresh_world (paginated (numbered 1 340))))
    /\ yielded t = firstn (Z.to_nat 250) (numbered 1 340).
Proof.
  apply (list_all_reads_first_records (ListDataSources "sales" [] None None None)
           example_client (numbered 1 340) 250 250); [reflexivity | vm_compute; lia].
Defined.

(* ------------------------------------------------------------------ *)
(** * Further properties: the paging fields of a request *)

(** X17. Every request of a [list_all], on any collection and however
    the iteration ends, asks for the same number of records per page:
    100 without a limit or with the limit 0, and the smaller of 100 and
    the limit otherwise, which is never more than 100 and is the limit
    itself when that is below 0. *)
Theorem list_all_page_size_is_fixed :
  forall (c : Listing) (rest_client : BoardsOnFireClient) (limit : option Z)
         (fuel : nat) (w : World),
    exists t : list Event,
      snd (list_all c rest_client limit fuel w) = add_events t w
      /\ Forall (fun rq => request_field "page_size" rq
                           = Some (PInt (iterator_page_size limit))) (sent t)
      /\ iterator_page_size limit <= 100
      /\ (forall l, limit = Some l -> l < 0 -> iterator_page_size limit = l).
Proof.
  intros c rest_client limit fuel w.
  destruct (list_all_events c rest_client limit fuel w) as (t & n & Ht & _ & Hs).
  assert (E : initial_page_size limit = iterator_page_size limit).
  { destruct limit as [l |]; [| reflexivity].
    unfold initial_page_size, iterator_page_size, limit_or, truthy.
    now destruct (l =? 0). }
  exists t. split; [exact Ht |]. split; [| split].
  - rewrite Hs, E. clear. generalize 1 at 1. induction n as [| n IH]; intros first;
      cbn [pages_from map]; constructor; [| apply IH].
    apply list_request_fields.
  - destruct limit as [l |]; cbn [iterator_page_size]; [| lia].
    destruct (l =? 0); lia.
  - intros l -> Hl. cbn [iterator_page_size].
    destruct (Z.eqb_spec l 0); lia.
Qed.

(** X18. A single-page listing that asks for at most 500 records per
    page, on any collection, logs nothing and sends one request with
    the page size and the page number it was given, unchanged, also
    when they are 0 or negative; it returns the decoded body of a
    successful response as it is. *)
Theorem list_sends_page_unchanged :
  forall (c : Listing) (rest_client : BoardsOnFireClient) (page_size page : Z) (w : World),
    page_size <= MAX_PAGE_SIZE ->
    let rq := list_request c rest_client page_size page in
    let rs := network w (sent (trace w)) rq in
    list_page c rest_client page_size page w
    = (data_or_error (list_method c) rs, add_events [Exchange rq rs] w)
    /\ request_field "page_size" rq = Some (PInt page_size)
    /\ request_field "page" rq = Some (PInt page)
    /\ (forall payload, http_ok rs = true -> http_json rs = Some payload ->
        fst (list_page c rest_client page_size page w) = Return payload).
Proof.
  intros c rest_client page_size page w Hle rq rs.
  assert (E : (page_size >? MAX_PAGE_SIZE) = false).
  { rewrite Z.gtb_ltb. apply Z.ltb_ge. exact Hle. }
  assert (H : list_page c rest_client page_size page w
              = (data_or_error (list_method c) rs, add_events [Exchange rq rs] w)).
  { rewrite list_page_run. cbv zeta. rewrite E. reflexivity. }
  rewrite H. cbn [fst]. split; [reflexivity |].
  destruct (list_request_fields c rest_client page_size page) as [Hp Hs].
  split; [exact Hs |]. split; [exact Hp |].
  intros payload Hok Hj. apply data_or_error_success; try assumption.
  destruct c; discriminate.
Qed.

(** A listing that asks for exactly 500 records, as a run of X18. *)
Lemma list_sends_page_unchanged_witness :
  let c := ListUsers None "ASC" in
  let w := fresh_world (scripted [[PInt 1]]) in
  let rq := list_request c example_client 500 3 in
  list_page c example_client 500 3 w
  = (Return (PList [PInt 1]), add_events [Exchange rq (ok_json (PList [PInt 1]))] w)
  /\ request_field "page_size" rq = Some (PInt 500).
Proof.
  intros c w rq.
  destruct (list_sends_page_unchanged c example_client 500 3 w) as (H1 & H2 & _).
  - discriminate.
  - split; [exact H1 | exact H2].
Defined.

(* ------------------------------------------------------------------ *)
(** * Further properties: organization ids in a filter *)

Lemma join_comma (a b : string) (rest : list string) :
  join "," ((a ++ "," ++ b) :: rest) = join "," (a :: b :: rest).
Proof.
  unfold join. cbn [String.concat]. destruct rest as [| r rest].
  - reflexivity.
  - now rewrite !string_app_assoc.
Qed.

Lemma paging_loop_ext rest_client method endpoint query1 body1 query2 body2
    limit page_size (fuel : nat) (page yc : Z) (w : World) :
  (forall p, query1 p = query2 p) -> (forall p, body1 p = body2 p) ->
  paging_loop rest_client method endpoint query1 body1 limit page_size fuel page yc w
  = paging_loop rest_client method endpoint query2 body2 limit page_size fuel page yc w.
Proof.
  intros Hq Hb. revert page yc w. induction fuel as [| fuel IH]; intros page yc w;
    [reflexivity |].
  rewrite !paging_loop_step. cbv zeta. unfold paging_request. rewrite Hq, Hb.
  destruct (envelope method _) as [response | e]; [| reflexivity].
  destruct (py_iter (data response)) as [records | e]; [| reflexivity].
  destruct (short records page_size || hit limit records yc); [reflexivity | apply IH].
Qed.

(** X19. The organization ids of a filter are joined with commas and
    nothing is escaped: [list] and [list_all], of entities and of
    datasources, run in the same way for one id [a,b] that contains a
    comma as for the two ids [a] and [b]. *)
Theorem organization_ids_are_not_escaped :
  forall (rest_client : BoardsOnFireClient) (name a b : string) (rest : list string)
         (order group filter : option string) (w : World),
    let joined := ((a ++ "," ++ b) :: rest) in
    let apart := (a :: b :: rest) in
    (forall page_size page,
       Entities.list rest_client name joined page_size page order group filter w
       = Entities.list rest_client name apart page_size page order group filter w)
    /\ (forall page_size page,
          DataSources.list rest_client name joined page_size page order group filter w
          = DataSources.list rest_client name apart page_size page order group filter w)
    /\ (forall limit fuel,
          Entities.list_all rest_client name limit joined order group filter fuel w
          = Entities.list_all rest_client name limit apart order group filter fuel w)
    /\ (forall limit fuel,
          DataSources.list_all rest_client name limit joined order group filter fuel w
          = DataSources.list_all rest_client name limit apart order group filter fuel w).
Proof.
  intros rest_client name a b rest order group filter w joined apart.
  assert (Hf : forall page_size page,
             filter_params page_size page order group filter joined
             = filter_params page_size page order group filter apart).
  { intros page_size page. unfold filter_params, joined, apart. now rewrite join_comma. }
  repeat split.
  - intros page_size page. unfold Entities.list. apply bind_ext. intros s w'.
    now rewrite Hf.
  - intros page_size page. unfold DataSources.list. apply bind_ext. intros s w'.
    now rewrite Hf.
  - intros limit fuel.
    pose proof (list_all_paging (ListEntities name joined order group filter)
                  rest_client limit fuel w) as H1.
    pose proof (list_all_paging (ListEntities name apart order group filter)
                  rest_client limit fuel w) as H2.
    cbn [list_all] in H1, H2. rewrite H1, H2.
    apply paging_loop_ext; [intros p; apply Hf | reflexivity].
  - intros limit fuel.
    pose proof (list_all_paging (ListDataSources name joined order group filter)
                  rest_client limit fuel w) as H1.
    pose proof (list_all_paging (ListDataSources name apart order group filter)
                  rest_client limit fuel w) as H2.
    cbn [list_all] in H1, H2. rewrite H1, H2.
    apply paging_loop_ext; [reflexivity | intros p; apply Hf].
Qed.

(** The limit -3, as a run of X17. *)
Lemma list_all_page_size_is_fixed_witness : iterator_page_size (Some (-3)) = -3.
Proof.
  destruct (list_all_page_size_is_fixed (ListUsers None "ASC") example_client (Some (-3))
              1 (fresh_world (scripted []))) as (t & _ & _ & _ & H).
  apply (H (-3)); [reflexivity | lia].
Defined.

(* ------------------------------------------------------------------ *)
(** * Further properties: payloads that are not arrays, services that never end *)

(** X20. What [list_all] makes of a first response whose body decodes
    to something other than an array, on any collection and with no
    limit: of a JSON object with fewer than 100 keys it yields the keys,
    in order, and returns; on [null], a boolean or a number it raises
    [TypeError] after that one request, having yielded nothing. *)
Theorem list_all_on_other_payloads :
  forall (c : Listing) (rest_client : BoardsOnFireClient) (fuel : nat) (w : World),
    let rq := list_request c rest_client 100 1 in
    let rs := network w (sent (trace w)) rq in
    http_ok rs = true ->
    (forall entries,
       http_json rs = Some (PDict entries) -> (List.length entries < 100)%nat ->
       list_all c rest_client None (S fuel) w
       = (Return tt,
          add_events (Exchange rq rs :: map Yield (map (fun kv => PStr (fst kv)) entries))
            w))
    /\ (forall v,
          http_json rs = Some v -> is_scalar v = true ->
          exists msg,
            list_all c rest_client None (S fuel) w
            = (Raise (TypeError msg), add_events [Exchange rq rs] w)).
Proof.
  intros c rest_client fuel w rq rs Hok. split.
  - intros entries Hj Hlen. rewrite list_all_paging.
    change (initial_page_size None) with 100.
    assert (Hb : batch_of (list_method c) rs
                 = Some (map (fun kv => PStr (fst kv)) entries)).
    { unfold batch_of, envelope. rewrite Hok, Hj, list_method_not_delete. reflexivity. }
    rewrite (paging_loop_step_batch _ _ _ _ _ _ _ _ _ _ _ _ Hb). cbv zeta.
    rewrite hit_unlimited, orb_false_r, (taken_all _ _ _ (hit_unlimited _ 0)).
    replace (short (map (fun kv => PStr (fst kv)) entries) 100) with true; [reflexivity |].
    symmetry. apply short_true. right. rewrite length_map. lia.
  - intros v Hj Hv. rewrite list_all_paging. change (initial_page_size None) with 100.
    rewrite paging_loop_step. cbv zeta.
    change (paging_request rest_client (list_method c) (list_endpoint c)
              (list_query c 100) (list_body c 100) 1) with rq.
    fold rs. unfold envelope. rewrite Hok, Hj, list_method_not_delete. cbn [data].
    destruct v; try discriminate; eexists; reflexivity.
Qed.

(** An error object sent with status 200, as a run of X20. *)
Lemma list_all_on_other_payloads_witness :
  let c := ListUsers None "ASC" in
  let body := PDict [("error", PStr "no such view")] in
  let w := fresh_world (fun _ _ => ok_json body) in
  list_all c example_client None 1 w
  = (Return tt,
     add_events [Exchange (list_request c example_client 100 1) (ok_json body);
                 Yield (PStr "error")] w).
Proof.
  intros c body w.
  apply (proj1 (list_all_on_other_payloads c example_client 0 w eq_refl)
           [("error", PStr "no such view")]); [reflexivity | simpl; lia].
Defined.

Lemma paging_loop_never_ends rest_client method endpoint query body page_size
    (fuel : nat) (page yc : Z) (w : World) :
  always_full method page_size (network w) -> 0 < page_size ->
  exists t : list Event,
    paging_loop rest_client method endpoint query body None page_size fuel page yc w
    = (OutOfFuel, add_events t w)
    /\ List.length (sent t) = fuel.
Proof.
  intros Hfull Hps. revert page yc w Hfull.
  induction fuel as [| fuel IH]; intros page yc w Hfull.
  - exists []. cbn [paging_loop out_of_fuel]. now rewrite add_events_nil.
  - destruct (Hfull (sent (trace w))
                (paging_request rest_client method endpoint query body page))
      as (records & Hb & Hlen).
    rewrite (paging_loop_step_batch _ _ _ _ _ _ _ _ _ _ _ _ Hb). cbv zeta.
    rewrite hit_unlimited, orb_false_r, (taken_all _ _ _ (hit_unlimited _ yc)).
    replace (short records page_size) with false.
    2: { symmetry. apply short_false. split; [| exact Hlen].
         intros E. rewrite E in Hlen. simpl in Hlen. lia. }
    set (s := (_, _, records)).
    destruct (IH (page + 1) (yc + Z.of_nat (List.length records))
                (add_events (segment s) w) Hfull) as (t & Hrun & Hn).
    exists (segment s ++ t)%list. rewrite Hrun, add_events_app.
    split; [reflexivity |]. rewrite sent_app, length_app, Hn.
    unfold s. cbn [segment sent fst snd]. now rewrite sent_map_Yield.
Qed.

(** X21. A [list_all] without a limit, or with the limit 0, does not end
    on its own: against a service every answer of which carries at
    least 100 records it goes on asking for the next page for as long
    as it is followed, one request per turn. *)
Theorem list_all_needs_a_short_page :
  forall (c : Listing) (rest_client : BoardsOnFireClient) (limit : option Z)
         (fuel : nat) (w : World),
    limit = None \/ limit = Some 0 ->
    always_full (list_method c) 100 (network w) ->
    exists t : list Event,
      list_all c rest_client limit fuel w = (OutOfFuel, add_events t w)
      /\ List.length (sent t) = fuel.
Proof.
  intros c rest_client limit fuel w Hlimit Hfull.
  assert (H : list_all c rest_client limit fuel w = list_all c rest_client None fuel w).
  { destruct Hlimit as [-> | ->]; [reflexivity |].
    rewrite !list_all_paging. apply paging_loop_limit_zero. }
  rewrite H, list_all_paging. change (initial_page_size None) with 100.
  apply paging_loop_never_ends; [exact Hfull | lia].
Qed.

(** A service that answers every request with the same 100 records, as
    a run of X21. *)
Lemma list_all_needs_a_short_page_witness :
  let w := fresh_world (fun _ _ => ok_json (PList (numbered 1 100))) in
  exists t : list Event,
    list_all (ListOrganizations None "ASC") example_client None 7 w
    = (OutOfFuel, add_events t w)
    /\ List.length (sent t) = 7%nat.
Proof.
  intros w.
  apply (list_all_needs_a_short_page (ListOrganizations None "ASC") example_client None 7 w).
  - left. reflexivity.
  - intros history rq. exists (numbered 1 100). split; [reflexivity | vm_compute; discriminate].
Defined.

(* ------------------------------------------------------------------ *)
(** * The course of an iteration, whatever its end *)

Lemma hit_app (limit : option Z) (a b : list PyVal) (yc : Z) :
  hit limit (a ++ b) yc = hit limit a yc || hit limit b (yc + Z.of_nat (List.length a)).
Proof.
  revert yc. induction a as [| r rest IH]; intros yc.
  - simpl. now rewrite Z.add_0_r.
  - cbn [app hit List.length]. destruct (limit_reached limit (yc + 1)); [reflexivity |].
    rewrite IH. do 2 f_equal. lia.
Qed.

Lemma pages_from_last (first : Z) (n : nat) :
  pages_from first (S n) = (pages_from first n ++ [first + Z.of_nat n])%list.
Proof.
  revert first. induction n as [| n IH]; intros first.
  - simpl. now rewrite Z.add_0_r.
  - change (pages_from first (S (S n))) with (first :: pages_from (first + 1) (S n)).
    rewrite IH. cbn [pages_from app]. do 3 f_equal. lia.
Qed.

Lemma answers_app net (history a b : list HttpRequest) :
  answers net history (a ++ b)
  = (answers net history a ++ answers net (history ++ a) b)%list.
Proof.
  revert history. induction a as [| rq a IH]; intros history.
  - simpl. now rewrite app_nil_r.
  - cbn [app answers]. rewrite IH, <- app_assoc. reflexivity.
Qed.

(** Every run of the loop: full turns, each on a batch that is neither
    short nor reaches the limit and is yielded whole, and then its close. *)
Lemma paging_loop_course rest_client method endpoint query body limit page_size
    (fuel : nat) (page yc : Z) (w : World) :
  exists (init : list Seg) (tail : list Event) (out : Outcome unit),
    paging_loop rest_client method endpoint query body limit page_size fuel page yc w
    = (out, add_events (render init ++ tail) w)
    /\ map seg_request init
       = map (paging_request rest_client method endpoint query body)
           (pages_from page (List.length init))
    /\ map seg_response init
       = answers (network w) (sent (trace w)) (map seg_request init)
    /\ map (fun s => batch_of method (seg_response s)) init
       = map Some (map seg_yields init)
    /\ Forall (fun s => short (seg_yields s) page_size = false) init
    /\ hit limit (List.concat (map seg_yields init)) yc = false
    /\ closes method limit page_size
         (paging_request rest_client method endpoint query body
            (page + Z.of_nat (List.length init)))
         (network w (sent (trace w) ++ map seg_request init)
            (paging_request rest_client method endpoint query body
               (page + Z.of_nat (List.length init))))
         (yc + Z.of_nat (List.length (List.concat (map seg_yields init))))
         out tail
    /\ (out = OutOfFuel -> List.length init = fuel)
    /\ (out <> OutOfFuel -> (List.length init < fuel)%nat).
Proof.
  revert page yc w. induction fuel as [| fuel IH]; intros page yc w.
  - exists [], [], OutOfFuel. cbn [paging_loop out_of_fuel render flat_map app].
    rewrite add_events_nil. repeat split; try reflexivity; try (now constructor).
    congruence.
  - rewrite paging_loop_step. cbv zeta.
    set (rq := paging_request rest_client method endpoint query body page).
    set (rs := network w (sent (trace w)) rq).
    assert (Hrq : paging_request rest_client method endpoint query body
                    (page + Z.of_nat (@List.length Seg [])) = rq)
      by (cbn [List.length Z.of_nat]; now rewrite Z.add_0_r).
    assert (Hrs : network w (sent (trace w) ++ map seg_request [])
                    (paging_request rest_client method endpoint query body
                       (page + Z.of_nat (@List.length Seg []))) = rs)
      by (rewrite Hrq; cbn [map]; now rewrite app_nil_r).
    destruct (envelope method rs) as [response | e] eqn:Henv.
    2: { exists [], [Exchange rq rs], (Raise e). rewrite Hrs, Hrq.
         cbn [render flat_map app].
         repeat split; try reflexivity; try (now constructor); try discriminate.
         - unfold listing_error. now rewrite Henv.
         - intros _. cbn [List.length]. lia. }
    destruct (py_iter (data response)) as [records | e] eqn:Hiter.
    2: { exists [], [Exchange rq rs], (Raise e). rewrite Hrs, Hrq.
         cbn [render flat_map app].
         repeat split; try reflexivity; try (now constructor); try discriminate.
         - unfold listing_error. now rewrite Henv, Hiter.
         - intros _. cbn [List.length]. lia. }
    assert (Hbatch : batch_of method rs = Some records)
      by (unfold batch_of; now rewrite Henv, Hiter).
    destruct (short records page_size || hit limit records yc) eqn:Hstop.
    + exists [], (segment (rq, rs, taken limit records yc)), (Return tt).
      rewrite Hrs, Hrq. cbn [render flat_map app].
      repeat split; try reflexivity; try (now constructor); try discriminate.
      * exists records. cbn [map List.concat List.length Z.of_nat].
        rewrite Z.add_0_r. auto.
      * intros _. cbn [List.length]. lia.
    + apply orb_false_elim in Hstop. destruct Hstop as [Hshort Hhit].
      rewrite (taken_all _ _ _ Hhit).
      set (w1 := add_events (segment (rq, rs, records)) w).
      destruct (IH (page + 1) (yc + Z.of_nat (List.length records)) w1)
        as (init & tail & out & Hrun & Hreq & Hans & Hb & Hfull & Hh & Hclose & Hof & Hlt).
      assert (Hsent : sent (trace w1) = (sent (trace w) ++ [rq])%list).
      { unfold w1. cbn [add_events trace]. rewrite sent_app. f_equal.
        cbn [segment sent fst snd]. now rewrite sent_map_Yield. }
      exists ((rq, rs, records) :: init), tail, out.
      cbn [map List.length List.concat seg_request seg_response seg_yields fst snd
             pages_from answers].
      split; [| split; [| split; [| split; [| split; [| split; [| split; [| split]]]]]]].
      * rewrite Hrun. unfold w1. rewrite add_events_app, render_cons, <- app_assoc.
        reflexivity.
      * now rewrite Hreq.
      * fold rs. f_equal. rewrite Hans. now rewrite Hsent.
      * rewrite Hbatch. now f_equal.
      * constructor; assumption.
      * rewrite hit_app, Hhit. exact Hh.
      * rewrite Hsent, <- app_assoc in Hclose. cbn [app] in Hclose.
        rewrite length_app, Nat2Z.inj_succ, Nat2Z.inj_add.
        replace (page + Z.succ (Z.of_nat (List.length init)))
          with (page + 1 + Z.of_nat (List.length init)) by lia.
        replace (yc + (Z.of_nat (List.length records)
                       + Z.of_nat (List.length (List.concat (map seg_yields init)))))
          with (yc + Z.of_nat (List.length records)
                + Z.of_nat (List.length (List.concat (map seg_yields init)))) by lia.
        exact Hclose.
      * intros E. now rewrite (Hof E).
      * intros E. specialize (Hlt E). lia.
Qed.

Lemma list_all_course (c : Listing) rest_client limit fuel w :
  exists (init : list Seg) (tail : list Event) (out : Outcome unit),
    list_all c rest_client limit fuel w = (out, add_events (render init ++ tail) w)
    /\ map seg_request init
       = map (list_request c rest_client (initial_page_size limit))
           (pages_from 1 (List.length init))
    /\ map seg_response init
       = answers (network w) (sent (trace w)) (map seg_request init)
    /\ map (fun s => batch_of (list_method c) (seg_response s)) init
       = map Some (map seg_yields init)
    /\ Forall (fun s => short (seg_yields s) (initial_page_size limit) = false) init
    /\ hit limit (List.concat (map seg_yields init)) 0 = false
    /\ closes (list_method c) limit (initial_page_size limit)
         (list_request c rest_client (initial_page_size limit)
            (1 + Z.of_nat (List.length init)))
         (network w (sent (trace w) ++ map seg_request init)
            (list_request c rest_client (initial_page_size limit)
               (1 + Z.of_nat (List.length init))))
         (Z.of_nat (List.length (List.concat (map seg_yields init))))
         out tail
    /\ (out = OutOfFuel -> List.length init = fuel)
    /\ (out <> OutOfFuel -> (List.length init < fuel)%nat).
Proof.
  rewrite list_all_paging.
  exact (paging_loop_course rest_client (list_method c) (list_endpoint c)
           (list_query c (initial_page_size limit)) (list_body c (initial_page_size limit))
           limit (initial_page_size limit) fuel 1 0 w).
Qed.

Lemma render_app (a b : list Seg) : render (a ++ b) = (render a ++ render b)%list.
Proof. unfold render. apply flat_map_app. Qed.

Lemma render_one (s : Seg) : render [s] = segment s.
Proof. unfold render. cbn [flat_map]. apply app_nil_r. Qed.

Lemma yields_are_prefixes (segs : list Seg) :
  Forall2 (fun s b => exists rest, b = (seg_yields s ++ rest)%list)
    segs (map seg_yields segs).
Proof.
  induction segs as [| s segs IH]; constructor; [| exact IH].
  exists []. now rewrite app_nil_r.
Qed.

(** Every run of [list_all] in terms of its turns: the turns that
    yielded of a batch, and the request that failed, if one did. *)
Lemma list_all_turns (c : Listing) rest_client limit fuel w :
  exists (segs : list Seg) (batches : list (list PyVal)) (failed : list Event),
    trace (snd (list_all c rest_client limit fuel w))
    = (trace w ++ render segs ++ failed)%list
    /\ map seg_request segs
       = map (list_request c rest_client (initial_page_size limit))
           (pages_from 1 (List.length segs))
    /\ map seg_response segs
       = answers (network w) (sent (trace w)) (map seg_request segs)
    /\ map (fun s => batch_of (list_method c) (seg_response s)) segs = map Some batches
    /\ Forall2 (fun s b => exists rest, b = (seg_yields s ++ rest)%list) segs batches
    /\ yielded (render segs) = first_records limit (List.concat batches)
    /\ yielded failed = []
    /\ (failed = []
        \/ exists rs e,
             failed = [Exchange (list_request c rest_client (initial_page_size limit)
                                   (1 + Z.of_nat (List.length segs))) rs]
             /\ listing_error (list_method c) rs = Some e
             /\ fst (list_all c rest_client limit fuel w) = Raise e)
    /\ (limit_or limit 0 = 0 -> map seg_yields segs = batches).
Proof.
  destruct (list_all_course c rest_client limit fuel w)
    as (init & tail & out & Hrun & Hreq & Hans & Hb & Hfull & Hh & Hclose & _ & _).
  rewrite Hrun. cbn [fst snd add_events trace].
  assert (Hy : yielded (render init) = first_records limit (List.concat (map seg_yields init))).
  { now rewrite yielded_render, <- taken_first_records, (taken_all _ _ _ Hh). }
  destruct out as [[] | e |]; cbn [closes] in Hclose.
  - destruct Hclose as (b & -> & Hbatch & Hstop).
    set (rq := list_request c rest_client (initial_page_size limit)
                 (1 + Z.of_nat (List.length init))) in *.
    set (rs := network w (sent (trace w) ++ map seg_request init) rq) in *.
    exists (init ++ [(rq, rs, taken limit b
                                (Z.of_nat (List.length
                                             (List.concat (map seg_yields init)))))])%list,
      (map seg_yields init ++ [b])%list, [].
    rewrite app_nil_r, render_app, render_one, !map_app, length_app.
    cbn [map List.length seg_request seg_response seg_yields fst snd].
    rewrite Nat.add_1_r.
    split; [reflexivity |].
    split; [| split; [| split; [| split; [| split; [| split; [| split]]]]]].
    + rewrite pages_from_last, map_app, Hreq. reflexivity.
    + rewrite answers_app, <- Hans. reflexivity.
    + rewrite Hb, Hbatch. reflexivity.
    + apply Forall2_app; [apply yields_are_prefixes |].
      constructor; [apply taken_prefix | constructor].
    + rewrite yielded_app, Hy, <- !taken_first_records, concat_app.
      cbn [List.concat]. rewrite app_nil_r, taken_app, Hh.
      rewrite (taken_all _ _ _ Hh). f_equal.
      cbn [segment yielded snd]. now rewrite yielded_map_Yield.
    + reflexivity.
    + now left.
    + intros Hl. now rewrite (taken_unlimited _ _ _ Hl).
  - destruct Hclose as (-> & Herr).
    do 2 eexists. eexists [Exchange _ _].
    split; [reflexivity |].
    repeat split; try eassumption; try reflexivity.
    + apply yields_are_prefixes.
    + right. do 2 eexists. split; [reflexivity |]. split; [exact Herr | reflexivity].
  - subst tail. exists init, (map seg_yields init), [].
    repeat split; try assumption; try reflexivity.
    + apply yields_are_prefixes.
    + now left.
Qed.

(* ------------------------------------------------------------------ *)
(** * Iterating over a service that answers from a script *)

Lemma concat_firstn_S (l : list (list PyVal)) (k : nat) :
  List.concat (firstn (S k) l) = (List.concat (firstn k l) ++ nth k l [])%list.
Proof.
  revert k. induction l as [| b l IH]; intros k.
  - rewrite !firstn_nil. now destruct k.
  - destruct k as [| k].
    + cbn [firstn List.concat nth app]. apply app_nil_r.
    + change (firstn (S (S k)) (b :: l)) with (b :: firstn (S k) l).
      change (firstn (S k) (b :: l)) with (b :: firstn k l).
      cbn [List.concat nth]. rewrite IH. apply app_assoc.
Qed.

(** The turn at which a script closes an iteration: the first batch
    that is short or with which the limit is reached; the empty batch
    that follows the script is such a batch. *)
Lemma script_closes (limit : option Z) (page_size : Z) (batches : list (list PyVal))
    (yc : Z) :
  exists k : nat,
    (k <= List.length batches)%nat
    /\ Forall (fun b => short b page_size = false) (firstn k batches)
    /\ hit limit (List.concat (firstn k batches)) yc = false
    /\ short (nth k batches []) page_size
       || hit limit (nth k batches [])
            (yc + Z.of_nat (List.length (List.concat (firstn k batches)))) = true.
Proof.
  revert yc. induction batches as [| b batches IH]; intros yc.
  - exists O. repeat split; try constructor.
  - destruct (short b page_size || hit limit b yc) eqn:Hstop.
    + exists O. cbn [firstn List.concat nth List.length Z.of_nat].
      rewrite Z.add_0_r. repeat split; try constructor; [cbn; lia | exact Hstop].
    + apply orb_false_elim in Hstop. destruct Hstop as [Hshort Hhit].
      destruct (IH (yc + Z.of_nat (List.length b))) as (k & Hk & Hfull & Hh & Hclose).
      exists (S k). cbn [firstn List.concat nth List.length].
      split; [lia |]. split; [now constructor |]. split.
      * now rewrite hit_app, Hhit.
      * rewrite length_app, Nat2Z.inj_add, Z.add_assoc. exact Hclose.
Qed.

(** The loop over a script: [k] full turns and the turn that closes. *)
Lemma scripted_course (c : Listing) rest_client limit (page_size : Z)
    (batches : list (list PyVal)) (k extra : nat) (rest : list (list PyVal))
    (page yc : Z) (w : World) :
  network w = scripted batches ->
  (forall i, nth (List.length (sent (trace w)) + i) batches [] = nth i rest []) ->
  (k <= List.length rest)%nat ->
  Forall (fun b => short b page_size = false) (firstn k rest) ->
  hit limit (List.concat (firstn k rest)) yc = false ->
  short (nth k rest []) page_size
  || hit limit (nth k rest [])
       (yc + Z.of_nat (List.length (List.concat (firstn k rest)))) = true ->
  exists t,
    paging_loop rest_client (list_method c) (list_endpoint c)
      (list_query c page_size) (list_body c page_size) limit page_size
      (S k + extra) page yc w
    = (Return tt, add_events t w)
    /\ warnings t = []
    /\ sent t = map (list_request c rest_client page_size) (pages_from page (S k))
    /\ yielded t
       = (List.concat (firstn k rest)
          ++ taken limit (nth k rest [])
               (yc + Z.of_nat (List.length (List.concat (firstn k rest)))))%list.
Proof.
  revert rest page yc w.
  induction k as [| k IH]; intros rest page yc w Hnet Hnth Hk Hfull Hh Hclose;
    assert (Hb : batch_of (list_method c)
                   (network w (sent (trace w))
                      (paging_request rest_client (list_method c) (list_endpoint c)
                         (list_query c page_size) (list_body c page_size) page))
                 = Some (nth 0 rest []))
      by (rewrite Hnet; unfold scripted; rewrite <- (Hnth O), Nat.add_0_r;
          apply batch_of_ok_json).
  - change (1 + extra)%nat with (S extra).
    rewrite (paging_loop_step_batch _ _ _ _ _ _ _ _ _ _ _ _ Hb). cbv zeta.
    cbn [firstn List.concat List.length Z.of_nat] in *. rewrite Z.add_0_r in *.
    rewrite Hclose. eexists. split; [reflexivity |].
    cbn [segment warnings sent yielded fst snd map pages_from app].
    rewrite warnings_map_Yield, sent_map_Yield, yielded_map_Yield. auto.
  - destruct rest as [| b rest]; [cbn in Hk; lia |].
    cbn [firstn List.concat nth List.length] in *.
    inversion Hfull as [| ? ? Hshort Hfull']; subst.
    rewrite hit_app in Hh. apply orb_false_elim in Hh. destruct Hh as [Hhit Hh].
    change (S (S k) + extra)%nat with (S (S k + extra)).
    rewrite (paging_loop_step_batch _ _ _ _ _ _ _ _ _ _ _ _ Hb). cbv zeta.
    rewrite Hshort, Hhit. cbn [orb]. rewrite (taken_all _ _ _ Hhit).
    set (rq := paging_request rest_client (list_method c) (list_endpoint c)
                 (list_query c page_size) (list_body c page_size) page).
    set (rs := network w (sent (trace w)) rq).
    set (w1 := add_events (segment (rq, rs, b)) w).
    assert (Hsent : sent (trace w1) = (sent (trace w) ++ [rq])%list).
    { unfold w1. cbn [add_events trace]. rewrite sent_app. f_equal.
      cbn [segment sent fst snd]. now rewrite sent_map_Yield. }
    destruct (IH rest (page + 1) (yc + Z.of_nat (List.length b)) w1)
      as (t & Hrun & Hw & Hs & Hy).
    + exact Hnet.
    + intros i. rewrite Hsent, length_app. cbn [List.length].
      replace (List.length (sent (trace w)) + 1 + i)%nat
        with (List.length (sent (trace w)) + S i)%nat by lia.
      now rewrite Hnth.
    + cbn [List.length] in Hk. lia.
    + exact Hfull'.
    + exact Hh.
    + rewrite length_app, Nat2Z.inj_add, Z.add_assoc in Hclose. exact Hclose.
    + exists (segment (rq, rs, b) ++ t)%list. rewrite Hrun. unfold w1.
      rewrite add_events_app. split; [reflexivity |].
      rewrite warnings_app, sent_app, yielded_app, Hw, Hs, Hy.
      cbn [segment warnings sent yielded fst snd map pages_from app].
      rewrite warnings_map_Yield, sent_map_Yield, yielded_map_Yield.
      rewrite length_app, Nat2Z.inj_add, Z.add_assoc, <- app_assoc.
      repeat split.
Qed.

(** [list_all] over a script, with fuel for every batch of it. *)
Lemma list_all_scripted (c : Listing) rest_client limit (batches : list (list PyVal))
    (fuel : nat) :
  (List.length batches < fuel)%nat ->
  exists (k : nat) (t : list Event),
    list_all c rest_client limit fuel (fresh_world (scripted batches))
    = (Return tt, add_events t (fresh_world (scripted batches)))
    /\ (k <= List.length batches)%nat
    /\ warnings t = []
    /\ sent t = map (list_request c rest_client (initial_page_size limit))
                  (pages_from 1 (S k))
    /\ yielded t = first_records limit (List.concat (firstn (S k) batches))
    /\ Forall (fun b => short b (initial_page_size limit) = false) (firstn k batches)
    /\ hit limit (List.concat (firstn k batches)) 0 = false
    /\ short (nth k batches []) (initial_page_size limit)
       || hit limit (nth k batches [])
            (Z.of_nat (List.length (List.concat (firstn k batches)))) = true.
Proof.
  intros Hfuel.
  destruct (script_closes limit (initial_page_size limit) batches 0)
    as (k & Hk & Hfull & Hh & Hclose).
  replace fuel with (S k + (fuel - S k))%nat by lia.
  rewrite list_all_paging.
  destruct (scripted_course c rest_client limit (initial_page_size limit) batches
              k (fuel - S k) batches 1 0 (fresh_world (scripted batches)))
    as (t & Hrun & Hw & Hs & Hy); try assumption; try reflexivity.
  exists k, t. rewrite Hrun. repeat split; try assumption.
  rewrite Hy, concat_firstn_S, <- taken_first_records, taken_app, Hh.
  reflexivity.
Qed.

(* ------------------------------------------------------------------ *)
(** * C1: every run yields what it fetched *)

(** C1, as amended. Every run of [list_all], on any of the four
    collections, against any remote service and whatever its end, did
    nothing but a sequence of turns, each one request followed by the
    records yielded of the batch in its response, in the order of the
    batch; after them comes at most the one request whose response
    raised. The requests ask for the pages 1, 2, 3, ... in this order and
    the responses are those of the service. The records yielded are all
    the records fetched when no limit or the limit 0 was given, the first
    [limit] of them for a limit above 0, and the first one for a limit
    below 0. Against a service that answers from a script of batches,
    with fuel for every batch of the script, the run returns: it turns
    through the batches up to the first one that is short or with which
    the limit is reached, and yields the records of these batches that
    the limit allows. For pages of sizes 100, 100, 100 and 40 this makes
    340 records and 4 requests without a limit, and 250 records and 3
    requests with the limit 250. *)
Theorem list_all_yields_fetched_batches :
  (forall (c : Listing) (rest_client : BoardsOnFireClient) (limit : option Z)
          (fuel : nat) (w : World),
     let run := list_all c rest_client limit fuel w in
     exists (segs : list Seg) (batches : list (list PyVal)) (failed : list Event),
       trace (snd run) = (trace w ++ render segs ++ failed)%list
       /\ map seg_request segs =
          map (list_request c rest_client (initial_page_size limit))
              (pages_from 1 (List.length segs))
       /\ map seg_response segs
          = answers (network w) (sent (trace w)) (map seg_request segs)
       /\ map (fun s => batch_of (list_method c) (seg_response s)) segs = map Some batches
       /\ Forall2 (fun s b => exists rest, b = (seg_yields s ++ rest)%list) segs batches
       /\ yielded (render segs) = first_records limit (List.concat batches)
       /\ yielded (trace (snd run))
          = (yielded (trace w) ++ first_records limit (List.concat batches))%list
       /\ (failed = []
           \/ exists rs e,
                failed = [Exchange (list_request c rest_client (initial_page_size limit)
                                      (1 + Z.of_nat (List.length segs))) rs]
                /\ listing_error (list_method c) rs = Some e
                /\ fst run = Raise e))
  /\ (forall (c : Listing) (rest_client : BoardsOnFireClient) (limit : option Z)
             (batches : list (list PyVal)) (fuel : nat),
        (List.length batches < fuel)%nat ->
        exists (k : nat) (t : list Event),
          list_all c rest_client limit fuel (fresh_world (scripted batches))
          = (Return tt, add_events t (fresh_world (scripted batches)))
          /\ (k <= List.length batches)%nat
          /\ sent t = map (list_request c rest_client (initial_page_size limit))
                        (pages_from 1 (S k))
          /\ yielded t = first_records limit (List.concat (firstn (S k) batches))
          /\ Forall (fun b => short b (initial_page_size limit) = false) (firstn k batches)
          /\ hit limit (List.concat (firstn k batches)) 0 = false
          /\ short (nth k batches []) (initial_page_size limit)
             || hit limit (nth k batches [])
                  (Z.of_nat (List.length (List.concat (firstn k batches)))) = true)
  /\ (forall (c : Listing) (fuel : nat), (4 <= fuel)%nat ->
        let run := list_all c example_client None fuel
                     (fresh_world (scripted pages_100_100_100_40)) in
        fst run = Return tt
        /\ yielded (trace (snd run)) = List.concat pages_100_100_100_40
        /\ List.length (yielded (trace (snd run))) = 340%nat
        /\ List.length (sent (trace (snd run))) = 4%nat)
  /\ (forall (c : Listing) (fuel : nat), (3 <= fuel)%nat ->
        let run := list_all c example_client (Some 250) fuel
                     (fresh_world (scripted pages_100_100_100_40)) in
        fst run = Return tt
        /\ yielded (trace (snd run)) = firstn 250 (List.concat pages_100_100_100_40)
        /\ List.length (yielded (trace (snd run))) = 250%nat
        /\ List.length (sent (trace (snd run))) = 3%nat).
Proof.
  split; [| split; [| split]].
  - intros c rest_client limit fuel w run. subst run.
    destruct (list_all_turns c rest_client limit fuel w)
      as (segs & batches & failed & Ht & Hreq & Hans & Hb & Hpre & Hy & Hyf & Hfail & _).
    exists segs, batches, failed. repeat split; try assumption.
    now rewrite Ht, !yielded_app, Hy, Hyf, app_nil_r.
  - intros c rest_client limit batches fuel Hfuel.
    destruct (list_all_scripted c rest_client limit batches fuel Hfuel)
      as (k & t & Hrun & Hk & _ & Hs & Hy & Hfull & Hh & Hclose).
    exists k, t. repeat split; assumption.
  - intros c fuel Hfuel run.
    assert (H : list_all c example_client None 4
                  (fresh_world (scripted pages_100_100_100_40))
                = (Return tt, snd (list_all c example_client None 4
                                     (fresh_world (scripted pages_100_100_100_40))))).
    { destruct c; vm_compute; reflexivity. }
    pose proof (list_all_fuel_mono _ _ _ _ fuel _ _ _ H ltac:(discriminate) Hfuel) as H'.
    subst run. rewrite H'. cbn [fst snd].
    destruct c; vm_compute; repeat split.
  - intros c fuel Hfuel run.
    assert (H : list_all c example_client (Some 250) 3
                  (fresh_world (scripted pages_100_100_100_40))
                = (Return tt, snd (list_all c example_client (Some 250) 3
                                     (fresh_world (scripted pages_100_100_100_40))))).
    { destruct c; vm_compute; reflexivity. }
    pose proof (list_all_fuel_mono _ _ _ _ fuel _ _ _ H ltac:(discriminate) Hfuel) as H'.
    subst run. rewrite H'. cbn [fst snd].
    destruct c; vm_compute; repeat split.
Qed.

(** The run of C1 with the limit 250 over the script of pages of sizes
    100, 100, 100 and 40, with fuel for five turns. *)
Lemma list_all_yields_fetched_batches_witness :
  let c := ListUsers None "ASC" in
  let w := fresh_world (scripted pages_100_100_100_40) in
  (List.length pages_100_100_100_40 < 5)%nat
  /\ exists (k : nat) (t : list Event),
       list_all c example_client (Some 250) 5 w = (Return tt, add_events t w)
       /\ (k <= List.length pages_100_100_100_40)%nat
       /\ sent t = map (list_request c example_client (initial_page_size (Some 250)))
                     (pages_from 1 (S k))
       /\ yielded t
          = first_records (Some 250) (List.concat (firstn (S k) pages_100_100_100_40))
       /\ Forall (fun b => short b (initial_page_size (Some 250)) = false)
            (firstn k pages_100_100_100_40)
       /\ hit (Some 250) (List.concat (firstn k pages_100_100_100_40)) 0 = false
       /\ short (nth k pages_100_100_100_40 []) (initial_page_size (Some 250))
          || hit (Some 250) (nth k pages_100_100_100_40 [])
               (Z.of_nat (List.length (List.concat (firstn k pages_100_100_100_40))))
          = true.
Proof.
  intros c w. split; [cbn; lia |].
  apply (proj1 (proj2 list_all_yields_fetched_batches) c example_client (Some 250)
           pages_100_100_100_40 5%nat).
  cbn. lia.
Defined.

(* ------------------------------------------------------------------ *)
(** * C3: where an iteration ends *)

Lemma full_turns (method : string) (page_size : Z) (init : list Seg) :
  map (fun s => batch_of method (seg_response s)) init = map Some (map seg_yields init) ->
  Forall (fun s => short (seg_yields s) page_size = false) init ->
  Forall (fun s => exists b,
            batch_of method (seg_response s) = Some b
            /\ seg_yields s = b
            /\ b <> [] /\ page_size <= Z.of_nat (List.length b))
         init.
Proof.
  induction init as [| s init IH]; intros Hb Hf; constructor.
  - cbn [map] in Hb. injection Hb as Hs _. inversion Hf as [| ? ? Hshort _]; subst.
    apply short_false in Hshort. exists (seg_yields s). tauto.
  - cbn [map] in Hb. injection Hb as _ Hb. inversion Hf; subst. now apply IH.
Qed.

(** C3. Every run of [list_all], on any of the four collections and
    against any remote service, is a sequence of full turns and one
    close. A full turn asks for the next page, beginning with page 1,
    gets from the service a batch that is not empty and not shorter than
    the page size, and yields it whole. The run returns only on the
    response to the next request, when its batch is empty or shorter
    than the page size, or when the limit is reached in it; it raises
    only on a response that carries no batch; otherwise the fuel of the
    model was used up by full turns. So a finished run that the limit
    did not end asked for the pages 1, 2, 3, ... and yielded every batch
    in full, every batch before the last being full and the last one
    empty or short. Whatever the service, a first batch that is empty
    or short ends the run after one request, and a first batch that is
    full and does not reach the limit is followed by the request for
    page 2. Against a script of full batches followed by a short one,
    the run returns after the short batch and requests none of the
    batches that follow. An empty first page makes one request and no
    record; and a collection of [k >= 1] full pages makes [k + 1]
    requests, the last of which brings an empty batch. *)
Theorem list_all_ends_on_short_batch :
  (forall (c : Listing) (rest_client : BoardsOnFireClient) (limit : option Z)
          (fuel : nat) (w : World),
     let run := list_all c rest_client limit fuel w in
     let page_size := initial_page_size limit in
     exists (init : list Seg) (tail : list Event),
       trace (snd run) = (trace w ++ render init ++ tail)%list
       /\ map seg_request init
          = map (list_request c rest_client page_size) (pages_from 1 (List.length init))
       /\ map seg_response init
          = answers (network w) (sent (trace w)) (map seg_request init)
       /\ Forall (fun s => exists b,
                    batch_of (list_method c) (seg_response s) = Some b
                    /\ seg_yields s = b
                    /\ b <> [] /\ page_size <= Z.of_nat (List.length b))
                 init
       /\ let rq := list_request c rest_client page_size
                      (1 + Z.of_nat (List.length init)) in
          let rs := network w (sent (trace w) ++ map seg_request init) rq in
          let yielded_before :=
            Z.of_nat (List.length (List.concat (map seg_yields init))) in
          match fst run with
          | Return _ =>
              exists b,
                batch_of (list_method c) rs = Some b
                /\ tail = Exchange rq rs :: map Yield (taken limit b yielded_before)
                /\ ((b = [] \/ Z.of_nat (List.length b) < page_size)
                    \/ hit limit b yielded_before = true)
                /\ (hit limit b yielded_before = false ->
                    (b = [] \/ Z.of_nat (List.length b) < page_size)
                    /\ taken limit b yielded_before = b)
          | Raise e => tail = [Exchange rq rs] /\ listing_error (list_method c) rs = Some e
          | OutOfFuel => tail = [] /\ List.length init = fuel
          end)
  /\ (forall (c : Listing) (rest_client : BoardsOnFireClient) (limit : option Z)
             (fuel : nat) (w w' : World),
        list_all c rest_client limit fuel w = (Return tt, w') ->
        yielded_since w w' = 0 \/ limit_reached limit (yielded_since w w') = false ->
        exists (init : list Seg) (last : Seg),
          trace w' = (trace w ++ render (init ++ [last]))%list
          /\ map seg_request (init ++ [last]) =
             map (list_request c rest_client (initial_page_size limit))
                 (pages_from 1 (S (List.length init)))
          /\ Forall (fun s => exists b,
                       batch_of (list_method c) (seg_response s) = Some b
                       /\ seg_yields s = b
                       /\ b <> [] /\ initial_page_size limit <= Z.of_nat (List.length b))
                    init
          /\ exists b,
               batch_of (list_method c) (seg_response last) = Some b
               /\ seg_yields last = b
               /\ (b = [] \/ Z.of_nat (List.length b) < initial_page_size limit))
  /\ (forall (c : Listing) (rest_client : BoardsOnFireClient) (limit : option Z)
             (fuel : nat) (w : World) (b : list PyVal),
        let rq := list_request c rest_client (initial_page_size limit) 1 in
        let rs := network w (sent (trace w)) rq in
        batch_of (list_method c) rs = Some b ->
        b = [] \/ Z.of_nat (List.length b) < initial_page_size limit ->
        list_all c rest_client limit (S fuel) w
        = (Return tt, add_events (Exchange rq rs :: map Yield (taken limit b 0)) w))
  /\ (forall (c : Listing) (rest_client : BoardsOnFireClient) (limit : option Z)
             (fuel : nat) (w : World) (b : list PyVal),
        let rq := list_request c rest_client (initial_page_size limit) 1 in
        let rs := network w (sent (trace w)) rq in
        let rq2 := list_request c rest_client (initial_page_size limit) 2 in
        let rs2 := network w (sent (trace w) ++ [rq]) rq2 in
        batch_of (list_method c) rs = Some b ->
        b <> [] -> initial_page_size limit <= Z.of_nat (List.length b) ->
        hit limit b 0 = false ->
        exists t,
          trace (snd (list_all c rest_client limit (S (S fuel)) w))
          = (trace w ++ Exchange rq rs :: map Yield b ++ Exchange rq2 rs2 :: t)%list)
  /\ (forall (c : Listing) (rest_client : BoardsOnFireClient) (limit : option Z)
             (full : list (list PyVal)) (b : list PyVal) (more : list (list PyVal))
             (fuel : nat),
        Forall (fun x => x <> [] /\ initial_page_size limit <= Z.of_nat (List.length x))
          full ->
        b = [] \/ Z.of_nat (List.length b) < initial_page_size limit ->
        hit limit (List.concat full ++ b) 0 = false ->
        (List.length full < fuel)%nat ->
        exists t,
          list_all c rest_client limit fuel (fresh_world (scripted (full ++ b :: more)))
          = (Return tt, add_events t (fresh_world (scripted (full ++ b :: more))))
          /\ sent t = map (list_request c rest_client (initial_page_size limit))
                        (pages_from 1 (S (List.length full)))
          /\ yielded t = (List.concat full ++ b)%list)
  /\ (forall (c : Listing) (rest_client : BoardsOnFireClient) (limit : option Z)
             (fuel : nat) (w : World),
        let rq := list_request c rest_client (initial_page_size limit) 1 in
        let rs := network w (sent (trace w)) rq in
        batch_of (list_method c) rs = Some [] ->
        list_all c rest_client limit (S fuel) w = (Return tt, add_events [Exchange rq rs] w))
  /\ (forall (c : Listing) (rest_client : BoardsOnFireClient) (records : list PyVal)
             (k fuel : nat),
        (1 <= k)%nat ->
        List.length records = (100 * k)%nat ->
        (k + 1 <= fuel)%nat ->
        exists (init : list Seg) (rq : HttpRequest) (rs : HttpResponse),
          list_all c rest_client None fuel (fresh_world (paginated records))
          = (Return tt,
             add_events (render init ++ [Exchange rq rs]) (fresh_world (paginated records)))
          /\ List.length init = k
          /\ yielded (render init) = records
          /\ Forall (fun s => List.length (seg_yields s) = 100%nat) init
          /\ (map seg_request init ++ [rq])%list
             = map (list_request c rest_client 100) (pages_from 1 (S k))
          /\ batch_of (list_method c) rs = Some []).
Proof.
  split; [| split; [| split; [| split; [| split; [| split]]]]].
  - intros c rest_client limit fuel w run page_size. subst run page_size.
    destruct (list_all_course c rest_client limit fuel w)
      as (init & tail & out & Hrun & Hreq & Hans & Hb & Hfull & Hh & Hclose & Hof & _).
    rewrite Hrun. cbn [fst snd add_events trace]. exists init, tail.
    split; [reflexivity |]. split; [exact Hreq |]. split; [exact Hans |].
    split; [now apply full_turns |]. cbv zeta.
    destruct out as [[] | e |]; cbn [closes] in Hclose.
    + destruct Hclose as (b & -> & Hbatch & Hstop). exists b.
      split; [exact Hbatch |]. split; [reflexivity |]. split.
      * apply orb_true_iff in Hstop. destruct Hstop as [Hs | Hs]; [left | now right].
        now apply short_true.
      * intros Hhit. rewrite Hhit, orb_false_r in Hstop. split.
        -- now apply short_true.
        -- now apply taken_all.
    + exact Hclose.
    + split; [exact Hclose | now apply Hof].
  - intros c rest_client limit fuel w w' H Hl.
    apply list_all_Pages in H. destruct H as (segs & Hp & Ht & _).
    apply (not_ended_by_limit limit _ _ _ Ht) in Hl.
    destruct (Pages_short _ _ _ _ _ _ _ Hp Hl) as (init & s & -> & Hinit & Hlast).
    exists init, s. split; [exact Ht |]. split; [| split].
    + rewrite (Pages_requests _ _ _ _ _ _ _ Hp). f_equal. f_equal.
      rewrite length_app. simpl. lia.
    + eapply Forall_impl; [| exact Hinit].
      intros s0 (b & Hb & Hy & Hs). apply short_false in Hs. exists b. tauto.
    + destruct Hlast as (b & Hb & Hy & Hs). apply short_true in Hs. exists b. tauto.
  - intros c rest_client limit fuel w b rq rs Hb Hshort.
    apply short_true in Hshort.
    rewrite list_all_paging.
    rewrite (paging_loop_step_batch _ _ _ _ _ _ _ _ _ _ _ _ Hb). cbv zeta.
    rewrite Hshort. reflexivity.
  - intros c rest_client limit fuel w b rq rs rq2 rs2 Hb Hne Hlen Hhit.
    assert (Hshort : short b (initial_page_size limit) = false)
      by (apply short_false; now split).
    rewrite list_all_paging.
    rewrite (paging_loop_step_batch _ _ _ _ _ _ _ _ _ _ _ _ Hb). cbv zeta.
    rewrite Hshort, Hhit. cbn [orb]. rewrite (taken_all _ _ _ Hhit).
    set (w1 := add_events _ w).
    assert (Hsent : sent (trace w1) = (sent (trace w) ++ [rq])%list).
    { unfold w1. cbn [add_events trace]. rewrite sent_app. f_equal.
      cbn [segment sent fst snd]. now rewrite sent_map_Yield. }
    rewrite paging_loop_step. cbv zeta.
    change (paging_request rest_client (list_method c) (list_endpoint c)
              (list_query c (initial_page_size limit))
              (list_body c (initial_page_size limit)) (1 + 1)) with rq2.
    change (network w1) with (network w). rewrite Hsent. fold rs2.
    assert (Hw1 : forall t, trace (add_events t w1)
                            = (trace w ++ Exchange rq rs :: map Yield b ++ t)%list).
    { intros t. unfold w1. cbn [add_events trace segment fst snd].
      rewrite <- app_assoc. reflexivity. }
    destruct (envelope (list_method c) rs2) as [response | e];
      [| exists []; cbn [snd]; now rewrite Hw1].
    destruct (py_iter (response_data response)) as [records | e];
      [| exists []; cbn [snd]; now rewrite Hw1].
    destruct (short records (initial_page_size limit) || hit limit records _).
    + eexists. cbn [snd]. rewrite Hw1. cbn [segment fst snd]. reflexivity.
    + match goal with
      | |- context [paging_loop ?a ?b ?c ?d ?e ?f ?g ?h ?i ?j ?k] =>
          destruct (paging_loop_events a b c d e f g h i j k) as (t & n & Ht & _ & _)
      end.
      rewrite Ht. rewrite add_events_app. eexists. rewrite Hw1.
      cbn [segment fst snd app]. reflexivity.
  - intros c rest_client limit full b more fuel Hfull Hshort Hhit Hfuel.
    assert (Hfirst : firstn (List.length full) (full ++ b :: more) = full).
    { rewrite firstn_app, Nat.sub_diag, firstn_all. cbn [firstn]. apply app_nil_r. }
    assert (Hnth : nth (List.length full) (full ++ b :: more) [] = b)
      by apply nth_middle.
    rewrite hit_app in Hhit. apply orb_false_elim in Hhit. destruct Hhit as [Hh1 Hh2].
    replace fuel with (S (List.length full) + (fuel - S (List.length full)))%nat by lia.
    rewrite list_all_paging.
    destruct (scripted_course c rest_client limit (initial_page_size limit)
                (full ++ b :: more) (List.length full) (fuel - S (List.length full))
                (full ++ b :: more) 1 0 (fresh_world (scripted (full ++ b :: more))))
      as (t & Hrun & _ & Hs & Hy).
    + reflexivity.
    + reflexivity.
    + rewrite length_app. lia.
    + rewrite Hfirst. eapply Forall_impl; [| exact Hfull].
      intros x Hx. now apply short_false.
    + now rewrite Hfirst.
    + rewrite Hfirst, Hnth. apply orb_true_iff. left. now apply short_true.
    + exists t. rewrite Hrun. split; [reflexivity |]. split; [exact Hs |].
      rewrite Hy, Hfirst, Hnth. f_equal. now apply taken_all.
  - intros c rest_client limit fuel w rq rs Hb.
    rewrite list_all_paging.
    rewrite (paging_loop_step_batch _ _ _ _ _ _ _ _ _ _ _ _ Hb). reflexivity.
  - intros c rest_client records k fuel Hk Hlen Hfuel.
    replace fuel with (S k + (fuel - S k))%nat by lia.
    rewrite list_all_paging. change (initial_page_size None) with 100.
    destruct (paginated_full_pages c rest_client records k (fuel - S k) 1 0
                (fresh_world (paginated records)))
      as (init & rq & rs & Hrun & Hn & Hy & Hfull & Hreq & Hempty);
      [reflexivity | lia | exact Hlen |].
    exists init, rq, rs. repeat split; assumption.
Qed.

(** A run of C3: after one full page of 100 records a page of two
    records ends the iteration, and the page that follows in the script
    is not asked for. *)
Lemma list_all_ends_on_short_batch_witness :
  let c := ListOrganizations None "ASC" in
  let full := [numbered 1 100] in
  let b := [PInt 101; PInt 102] in
  let more := [[PInt 103]] in
  let w := fresh_world (scripted (full ++ b :: more)) in
  exists t,
    list_all c example_client None 3 w = (Return tt, add_events t w)
    /\ sent t = map (list_request c example_client (initial_page_size None))
                  (pages_from 1 (S (List.length full)))
    /\ yielded t = (List.concat full ++ b)%list.
Proof.
  intros c full b more w.
  apply (proj1 (proj2 (proj2 (proj2 (proj2 list_all_ends_on_short_batch))))
           c example_client None full b more 3%nat).
  - constructor; [| constructor]. split; [discriminate |]. vm_compute. discriminate.
  - right. vm_compute. reflexivity.
  - vm_compute. reflexivity.
  - cbn. lia.
Defined.

(* ------------------------------------------------------------------ *)
(** * C10: the limit 0 yields everything *)

Lemma hit_zero (records : list PyVal) (yc : Z) : hit (Some 0) records yc = false.
Proof. rewrite hit_limit_zero. apply hit_unlimited. Qed.

(** C10. On each of the four collections, against any remote service
    and for any fuel, [list_all] with [limit=0] runs exactly as
    [list_all] without a limit: the same outcome and the same requests
    and yields. Its limit test never holds, whatever the number of
    records yielded, and its page size is 100, as without a limit. So
    every run with the limit 0 yields, whole and in order, every batch
    that the service returned to it. Against a script of batches it
    returns at the first batch that is empty or shorter than 100, having
    yielded every record up to the end of that batch; against a service
    that pages through a collection it yields every record of the
    collection; with pages of sizes 100, 100, 100 and 40 it yields the
    340 records, not none. *)
Theorem limit_zero_is_no_limit :
  (forall (c : Listing) (rest_client : BoardsOnFireClient) (fuel : nat) (w : World),
     list_all c rest_client (Some 0) fuel w = list_all c rest_client None fuel w
     /\ (forall yield_count : Z, limit_reached (Some 0) yield_count = false)
     /\ initial_page_size (Some 0) = 100
     /\ initial_page_size None = 100)
  /\ (forall (c : Listing) (rest_client : BoardsOnFireClient) (fuel : nat) (w : World),
        let run := list_all c rest_client (Some 0) fuel w in
        exists (segs : list Seg) (batches : list (list PyVal)) (failed : list Event),
          trace (snd run) = (trace w ++ render segs ++ failed)%list
          /\ map seg_request segs
             = map (list_request c rest_client 100) (pages_from 1 (List.length segs))
          /\ map seg_response segs
             = answers (network w) (sent (trace w)) (map seg_request segs)
          /\ map (fun s => batch_of (list_method c) (seg_response s)) segs
             = map Some batches
          /\ map seg_yields segs = batches
          /\ yielded (trace (snd run)) = (yielded (trace w) ++ List.concat batches)%list
          /\ (failed = []
              \/ exists rs e,
                   failed = [Exchange (list_request c rest_client 100
                                         (1 + Z.of_nat (List.length segs))) rs]
                   /\ listing_error (list_method c) rs = Some e
                   /\ fst run = Raise e))
  /\ (forall (c : Listing) (rest_client : BoardsOnFireClient)
             (batches : list (list PyVal)) (fuel : nat),
        (List.length batches < fuel)%nat ->
        exists (k : nat) (t : list Event),
          list_all c rest_client (Some 0) fuel (fresh_world (scripted batches))
          = (Return tt, add_events t (fresh_world (scripted batches)))
          /\ (k <= List.length batches)%nat
          /\ sent t = map (list_request c rest_client 100) (pages_from 1 (S k))
          /\ yielded t = List.concat (firstn (S k) batches)
          /\ Forall (fun b => b <> [] /\ 100 <= Z.of_nat (List.length b)) (firstn k batches)
          /\ (nth k batches [] = [] \/ Z.of_nat (List.length (nth k batches [])) < 100))
  /\ (forall (c : Listing) (rest_client : BoardsOnFireClient) (records : list PyVal)
             (fuel : nat),
        (List.length records < 100 * fuel)%nat ->
        exists t : list Event,
          list_all c rest_client (Some 0) fuel (fresh_world (paginated records))
          = (Return tt, add_events t (fresh_world (paginated records)))
          /\ yielded t = records
          /\ List.length (sent t) = (List.length records / 100 + 1)%nat)
  /\ (forall (c : Listing) (fuel : nat), (4 <= fuel)%nat ->
        let run := list_all c example_client (Some 0) fuel
                     (fresh_world (scripted pages_100_100_100_40)) in
        fst run = Return tt
        /\ yielded (trace (snd run)) = List.concat pages_100_100_100_40
        /\ List.length (yielded (trace (snd run))) = 340%nat
        /\ List.length (sent (trace (snd run))) = 4%nat).
Proof.
  split; [| split; [| split; [| split]]].
  - intros c rest_client fuel w. repeat split.
    rewrite !list_all_paging. apply paging_loop_limit_zero.
  - intros c rest_client fuel w run. subst run.
    destruct (list_all_turns c rest_client (Some 0) fuel w)
      as (segs & batches & failed & Ht & Hreq & Hans & Hb & _ & Hy & Hyf & Hfail & Hwhole).
    exists segs, batches, failed.
    change (initial_page_size (Some 0)) with 100 in *.
    repeat split; try assumption.
    + now apply Hwhole.
    + rewrite Ht, !yielded_app, Hy, Hyf, app_nil_r. reflexivity.
  - intros c rest_client batches fuel Hfuel.
    destruct (list_all_scripted c rest_client (Some 0) batches fuel Hfuel)
      as (k & t & Hrun & Hk & _ & Hs & Hy & Hfull & _ & Hclose).
    change (initial_page_size (Some 0)) with 100 in *.
    exists k, t. repeat split; try assumption.
    + eapply Forall_impl; [| exact Hfull]. intros b Hb. now apply short_false.
    + rewrite hit_zero, orb_false_r in Hclose. now apply short_true.
  - intros c rest_client records fuel Hfuel. rewrite list_all_paging.
    change (initial_page_size (Some 0)) with 100. rewrite paging_loop_limit_zero.
    apply (paginated_read_all c rest_client records fuel 1 0
             (fresh_world (paginated records))); [reflexivity | lia | exact Hfuel].
  - intros c fuel Hfuel run.
    assert (H : list_all c example_client (Some 0) 4
                  (fresh_world (scripted pages_100_100_100_40))
                = (Return tt, snd (list_all c example_client (Some 0) 4
                                     (fresh_world (scripted pages_100_100_100_40))))).
    { destruct c; vm_compute; reflexivity. }
    pose proof (list_all_fuel_mono _ _ _ _ fuel _ _ _ H ltac:(discriminate) Hfuel) as H'.
    subst run. rewrite H'. cbn [fst snd].
    destruct c; vm_compute; repeat split.
Qed.

(** A run of C10: with the limit 0, a script of one page of two records
    is read to its end. *)
Lemma limit_zero_is_no_limit_witness :
  let c := ListUsers None "ASC" in
  let batches := [[PInt 1; PInt 2]] in
  exists (k : nat) (t : list Event),
    list_all c example_client (Some 0) 2 (fresh_world (scripted batches))
    = (Return tt, add_events t (fresh_world (scripted batches)))
    /\ (k <= List.length batches)%nat
    /\ sent t = map (list_request c example_client 100) (pages_from 1 (S k))
    /\ yielded t = List.concat (firstn (S k) batches)
    /\ Forall (fun b => b <> [] /\ 100 <= Z.of_nat (List.length b)) (firstn k batches)
    /\ (nth k batches [] = [] \/ Z.of_nat (List.length (nth k batches [])) < 100).
Proof.
  intros c batches.
  apply (proj1 (proj2 (proj2 limit_zero_is_no_limit)) c example_client batches 2%nat).
  cbn. lia.
Defined.
